(** * Tunnel mesh orchestration of flexiManage: a shallow embedding

    The development follows [backend/deviceLogic/tunnels.js].  Pure code
    (the parameter generator, the job preparer) is embedded as functions;
    code that talks to the durable store, to the random source or to the
    device queues is embedded in a state-and-exception monad over a
    [World] that holds the two collections, the queued jobs and the
    answers of the environment.  Logging is not modelled. *)

From Stdlib Require Import ZArith String Ascii HexadecimalString.
From stdpp Require Import gmap strings list pretty.

Open Scope Z_scope.

(** ** JavaScript values and operators used by the code *)

Module JS.

(** [!s] is false exactly for a non-empty string; an absent property is
    represented by the empty string, which is falsy as well. *)
Definition truthy (s : string) : bool := negb (String.eqb s "").

(** [a % b] takes the sign of the dividend. *)
Definition rem (a b : Z) : Z := Z.rem a b.

(** [Math.floor(a / b)] on integers. *)
Definition floor_div (a b : Z) : Z := a / b.

(** [(+d).toString(10)]. *)
Definition toString10 (d : Z) : string := pretty d.

Definition hex_of_N (n : N) : string :=
  HexadecimalString.NilEmpty.string_of_uint (N.to_hex_uint n).

(** [(+d).toString(16)]: lower-case digits, a leading minus sign for a
    negative number. *)
Definition toString16 (d : Z) : string :=
  match d with
  | Z0 => "0"
  | Zpos p => hex_of_N (Npos p)
  | Zneg p => "-" +:+ hex_of_N (Npos p)
  end.

(** [s.substr(-k)]: the last [k] characters, the whole string when it is
    shorter. *)
Definition substr_last (k : nat) (s : string) : string :=
  substring (String.length s - k) k s.

End JS.

(** ** Parameter generator *)

Module TunnelParams.
Record t := mk {
  ip1 : string;
  ip2 : string;
  mac1 : string;
  mac2 : string;
  sa1 : Z;
  sa2 : Z
}.
End TunnelParams.

(** [d2h]: the last two hexadecimal digits, with leading zeros. *)
Definition d2h (d : Z) : string := JS.substr_last 2 ("00" +:+ JS.toString16 d).

(** The numbers of the code are doubles; here they are integers.  The two
    agree as long as every number computed is an integer that a double
    holds exactly and the quotient [tunnelNum / 127] is rounded to no
    other integer than its floor, which is so for the tunnel numbers in
    [0, 32512), the range in which [l] is a byte and which holds every
    number the allocator gives out.  Beyond 127 * 2^45 the sums of the
    code are rounded, and the properties below are stated within
    [0, 32512) for that reason. *)
Definition generateTunnelParams (tunnelNum : Z) : TunnelParams.t :=
  let h := (JS.rem tunnelNum 127 + 1) * 2 in
  let l := JS.floor_div tunnelNum 127 in
  let ip1 := "10.100." +:+ JS.toString10 l +:+ "." +:+ JS.toString10 h in
  let ip2 := "10.100." +:+ JS.toString10 l +:+ "." +:+ JS.toString10 (h + 1) in
  let mac1 := "02:00:27:fd:" +:+ d2h l +:+ ":" +:+ d2h h in
  let mac2 := "02:00:27:fd:" +:+ d2h l +:+ ":" +:+ d2h (h + 1) in
  let sa1 := l * 256 + h in
  let sa2 := l * 256 + h + 1 in
  {| TunnelParams.ip1 := ip1;
     TunnelParams.ip2 := ip2;
     TunnelParams.mac1 := mac1;
     TunnelParams.mac2 := mac2;
     TunnelParams.sa1 := sa1;
     TunnelParams.sa2 := sa2 |}.

(** ** Data model *)

(** Object ids, organisation ids, host names and addresses are strings. *)

Module Interface.
Record t := mk {
  _id : string;
  name : string;
  isAssigned : bool;
  type : string;
  IPv4 : string;
  PublicIP : string
}.
End Interface.

Module Versions.
Record t := mk {
  router : string;
  agent : string
}.
End Versions.

Module Device.
Record t := mk {
  _id : string;
  hostname : string;
  machineId : string;
  versions : Versions.t;
  interfaces : list Interface.t
}.
End Device.

(** A document of the tunnels collection. *)
Module Tunnel.
Record t := mk {
  _id : string;
  org : string;
  num : Z;
  isActive : bool;
  deviceAconf : bool;
  deviceBconf : bool;
  deviceA : string;
  interfaceA : string;
  deviceB : string;
  interfaceB : string
}.
End Tunnel.

(** The requesting user: [user.username] and [user.defaultOrg._id]. *)
Module User.
Record t := mk {
  username : string;
  defaultOrg : string
}.
End User.

(** Task payloads.  [mtu], [routing] and [ipsec] are absent from a
    remove-tunnel task. *)
Module SA.
Record t := mk {
  spi : Z;
  crypto_key : string;
  integr_key : string;
  crypto_alg : string;
  integr_alg : string
}.
End SA.

Module Ipsec.
Record t := mk {
  local_sa : SA.t;
  remote_sa : SA.t
}.
End Ipsec.

Module Loopback.
Record t := mk {
  addr : string;
  mac : string;
  mtu : option Z;
  routing : option string
}.
End Loopback.

Module Params.
Record t := mk {
  src : string;
  dst : string;
  tunnel_id : Z;
  ipsec : option Ipsec.t;
  loopback_iface : Loopback.t
}.
End Params.

Module Task.
Record t := mk {
  entity : string;
  message : string;
  params : Params.t
}.
End Task.

(** The response data a job carries back to the completion callbacks. *)
Module Payload.
Record t := mk {
  username : string;
  org : string;
  deviceA : string;
  deviceB : string;
  target : string
}.
End Payload.

(** A job as handed to [deviceQueues.addJob]. *)
Module Job.
Record t := mk {
  machineId : string;
  user : string;
  org : string;
  title : string;
  tasks : list Task.t;
  method : string;
  data : Payload.t;
  priority : string;
  attempts : Z;
  removeOnComplete : bool
}.
End Job.

(** A JavaScript [Error]: an optional numeric [code] and a message. *)
Module Error.
Record t := mk {
  code : option Z;
  message : string
}.
Definition new (msg : string) : t := mk None msg.
End Error.

(** ** The world the code runs in *)

(** External calls, as recorded in the trace. *)
Inductive Call :=
| TunnelsFind
| TunnelsFindOne
| TunnelsFindOneAndUpdate
| TunnelIDsFindOneAndUpdate
| QueueAddJob.

Global Instance Call_eq_dec : EqDecision Call.
Proof. solve_decision. Defined.

Module World.
Record t := mk {
  (** the tunnels collection, in natural order *)
  tunnels : list Tunnel.t;
  (** the tunnel-id collection: one counter document per organisation *)
  tunnelids : gmap string Z;
  (** the devices collection, read when a tunnel is populated *)
  devices : list Device.t;
  (** jobs accepted by the device queues, oldest first *)
  queue : list Job.t;
  (** what the environment does to the coming external calls, in call
      order: [Some e] makes the call fail with [e] and leaves the data
      alone, [None] (or an exhausted list) lets it run *)
  faults : list (option Error.t);
  (** number of keys drawn from the random source *)
  draws : nat;
  (** number of object ids minted by the store *)
  minted : nat;
  (** external calls made so far, oldest first *)
  trace : list Call
}.
End World.

(** State and exceptions: a computation either returns or throws, and
    leaves a world behind in both cases. *)
Inductive Result (A : Type) :=
| Ok (a : A)
| Throw (e : Error.t).
Arguments Ok {A} a.
Arguments Throw {A} e.

Definition M (A : Type) : Type := World.t -> Result A * World.t.

Definition ret {A} (a : A) : M A := fun w => (Ok a, w).

Definition throw {A} (e : Error.t) : M A := fun w => (Throw e, w).

Definition bind {A B} (m : M A) (k : A -> M B) : M B :=
  fun w =>
    match m w with
    | (Ok a, w') => k a w'
    | (Throw e, w') => (Throw e, w')
    end.

(** [try { m } catch (err) { h err }]. *)
Definition try_catch {A} (m : M A) (h : Error.t -> M A) : M A :=
  fun w =>
    match m w with
    | (Ok a, w') => (Ok a, w')
    | (Throw e, w') => h e w'
    end.

Declare Scope js_scope.
Delimit Scope js_scope with js.
Notation "'let*' x ':=' m 'in' k" := (bind m (fun x => k))
  (at level 10, x pattern, m at level 100, k at level 200) : js_scope.
Notation "m ';;' k" := (bind m (fun _ => k))
  (at level 100, k at level 200, right associativity) : js_scope.

(** How a promise ends: resolved with a value, rejected with an error, or
    never settled at all. *)
Inductive Settled (A : Type) :=
| Resolved (a : A)
| Rejected (e : Error.t)
| Unsettled.
Arguments Resolved {A} a.
Arguments Rejected {A} e.
Arguments Unsettled {A}.

(** ** The external collaborators *)

(** Functional updates of the world. *)
Module Upd.
Definition tunnels (f : list Tunnel.t -> list Tunnel.t) (w : World.t) :=
  World.mk (f (World.tunnels w)) (World.tunnelids w) (World.devices w)
           (World.queue w) (World.faults w) (World.draws w)
           (World.minted w) (World.trace w).
Definition tunnelids (f : gmap string Z -> gmap string Z) (w : World.t) :=
  World.mk (World.tunnels w) (f (World.tunnelids w)) (World.devices w)
           (World.queue w) (World.faults w) (World.draws w)
           (World.minted w) (World.trace w).
Definition queue (f : list Job.t -> list Job.t) (w : World.t) :=
  World.mk (World.tunnels w) (World.tunnelids w) (World.devices w)
           (f (World.queue w)) (World.faults w) (World.draws w)
           (World.minted w) (World.trace w).
Definition faults (f : list (option Error.t) -> list (option Error.t))
    (w : World.t) :=
  World.mk (World.tunnels w) (World.tunnelids w) (World.devices w)
           (World.queue w) (f (World.faults w)) (World.draws w)
           (World.minted w) (World.trace w).
Definition draws (f : nat -> nat) (w : World.t) :=
  World.mk (World.tunnels w) (World.tunnelids w) (World.devices w)
           (World.queue w) (World.faults w) (f (World.draws w))
           (World.minted w) (World.trace w).
Definition minted (f : nat -> nat) (w : World.t) :=
  World.mk (World.tunnels w) (World.tunnelids w) (World.devices w)
           (World.queue w) (World.faults w) (World.draws w)
           (f (World.minted w)) (World.trace w).
Definition trace (f : list Call -> list Call) (w : World.t) :=
  World.mk (World.tunnels w) (World.tunnelids w) (World.devices w)
           (World.queue w) (World.faults w) (World.draws w)
           (World.minted w) (f (World.trace w)).
End Upd.

(** Every call that leaves the process is recorded, and fails when the
    environment has a fault in store for it. *)
Definition after (c : Call) (w : World.t) : World.t :=
  Upd.trace (fun t => t ++ [c]) (Upd.faults tail w).

Definition external (c : Call) : M unit :=
  fun w =>
    match head (World.faults w) with
    | Some (Some e) => (Throw e, after c w)
    | _ => (Ok tt, after c w)
    end.

(** The object id the store gives to the [n]-th document it creates. *)
Definition mintId (n : nat) : string := "oid" +:+ pretty n.

(** [tunnelsModel.find(query)]. *)
Definition tunnelsModel_find (query : Tunnel.t -> bool) : M (list Tunnel.t) :=
  (external TunnelsFind ;;
   fun w => (Ok (filter (fun t => query t) (World.tunnels w)), w))%js.

(** [tunnelsModel.findOne(query)]: the first match in natural order. *)
Definition tunnelsModel_findOne (query : Tunnel.t -> bool)
  : M (option Tunnel.t) :=
  (external TunnelsFindOne ;;
   fun w => (Ok (snd <$> list_find (fun t => query t) (World.tunnels w)), w))%js.

(** [tunnelsModel.findOneAndUpdate(query, update, {upsert, new})].  The
    first match is updated in place; without a match and with [upsert] a
    document is created from the equality fields of the query ([seed],
    given its fresh id) and updated.  The answer is the document before
    the update ([null] when there was none), or after it with [new]. *)
Definition tunnelsModel_findOneAndUpdate
    (query : Tunnel.t -> bool) (update : Tunnel.t -> Tunnel.t)
    (upsert : option (string -> Tunnel.t)) (new : bool)
  : M (option Tunnel.t) :=
  (external TunnelsFindOneAndUpdate ;;
   fun w =>
     match list_find (fun t => query t) (World.tunnels w) with
     | Some (i, doc) =>
         (Ok (Some (if new then update doc else doc)),
          Upd.tunnels (fun ts => <[i := update doc]> ts) w)
     | None =>
         match upsert with
         | Some seed =>
             let doc := update (seed (mintId (World.minted w))) in
             (Ok (if new then Some doc else None),
              Upd.minted S (Upd.tunnels (fun ts => ts ++ [doc]) w))
         | None => (Ok None, w)
         end
     end)%js.

(** The duplicate-key error of the store. *)
Definition E11000 : Error.t :=
  Error.mk (Some 11000) "E11000 duplicate key error collection".

(** Modelled from the spec: the tunnel-id model (models/tunnelids) is not
    among the sources.  The spec keeps one counter per organisation and the
    code says that [org] is a key of the collection, so the collection is a
    map from organisations to [nextAvailID], and an upsert for an
    organisation whose document does not match the query fails on that key.

    [tunnelIDsModel.findOneAndUpdate({org, nextAvailID: {$gte, $lt}},
    {$inc: {nextAvailID: inc}}, {new: true, upsert: true})]; with
    [new: true] the answer is the document after the update, of which the
    code reads [nextAvailID]. *)
Definition tunnelIDsModel_findOneAndUpdate (org : string) (gte lt inc : Z)
  : M Z :=
  (external TunnelIDsFindOneAndUpdate ;;
   fun w =>
     match World.tunnelids w !! org with
     | Some nextAvailID =>
         if (gte <=? nextAvailID) && (nextAvailID <? lt) then
           (Ok (nextAvailID + inc),
            Upd.tunnelids (fun ids => <[org := nextAvailID + inc]> ids) w)
         else (Throw E11000, w)
     | None =>
         (Ok inc, Upd.tunnelids (fun ids => <[org := inc]> ids) w)
     end)%js.

(** [.populate(...)]: the device a tunnel refers to, if it still exists. *)
Definition populate (oid : string) (w : World.t) : option Device.t :=
  snd <$> list_find (fun d => String.eqb (Device._id d) oid) (World.devices w).

(** [deviceQueues.addJob(machineId, user, org, {title, tasks},
    {method, data}, {priority, attempts, removeOnComplete}, null)]. *)
Definition deviceQueues_addJob (job : Job.t) : M Job.t :=
  (external QueueAddJob ;;
   fun w => (Ok job, Upd.queue (fun q => q ++ [job]) w))%js.

(** ** The code of [tunnels.js] *)

(** What a tunnel promise resolves with: [true] when the tunnel was
    already there, else the two queued jobs. *)
Inductive PromiseValue :=
| VTrue
| VJobs (tunnelJobs : list Job.t).

Module Keys.
Record t := mk {
  key1 : string;
  key2 : string;
  key3 : string;
  key4 : string
}.
End Keys.

(** The request body: the selected devices and the selected tunnels, each
    an object whose own properties are the selected ids. *)
Module Data.
Record t := mk {
  devices : option (gmap string bool);
  tunnels : option (gmap string bool)
}.
End Data.

(** [obj.hasOwnProperty(k)]. *)
Definition hasOwnProperty (obj : gmap string bool) (k : string) : bool :=
  bool_decide (is_Some (obj !! k)).

(** [Object.keys(obj)]. *)
Definition Object_keys (obj : gmap string bool) : list string :=
  (map_to_list obj).*1.

(** Modelled from the spec: the tunnel schema (models/tunnels) is not
    among the sources.  [update[path] = v] with a boolean [v]: of the
    paths of a tunnel the data model of the spec has three flags; a write
    to any other path is taken to leave the document as it is. *)
Definition Tunnel_set (path : string) (v : bool) (t : Tunnel.t) : Tunnel.t :=
  if String.eqb path "isActive" then
    Tunnel.mk (Tunnel._id t) (Tunnel.org t) (Tunnel.num t) v
              (Tunnel.deviceAconf t) (Tunnel.deviceBconf t)
              (Tunnel.deviceA t) (Tunnel.interfaceA t)
              (Tunnel.deviceB t) (Tunnel.interfaceB t)
  else if String.eqb path "deviceAconf" then
    Tunnel.mk (Tunnel._id t) (Tunnel.org t) (Tunnel.num t) (Tunnel.isActive t)
              v (Tunnel.deviceBconf t)
              (Tunnel.deviceA t) (Tunnel.interfaceA t)
              (Tunnel.deviceB t) (Tunnel.interfaceB t)
  else if String.eqb path "deviceBconf" then
    Tunnel.mk (Tunnel._id t) (Tunnel.org t) (Tunnel.num t) (Tunnel.isActive t)
              (Tunnel.deviceAconf t) v
              (Tunnel.deviceA t) (Tunnel.interfaceA t)
              (Tunnel.deviceB t) (Tunnel.interfaceB t)
  else t.

Definition TypeError : Error.t :=
  Error.new "TypeError: Cannot read property of null or undefined".

Section Tunnels.

(** Collaborators whose code is not among the sources: the version
    predicate of [../versioning] and the key source of
    [../utils/random-key], the latter as a function of the number of
    keys drawn before. *)
Variable routerVersionsCompatible : string -> string -> bool.
Variable randomNum : Z -> Z -> nat -> string.

Definition generateRandomKeys : M Keys.t :=
  fun w =>
    let n := World.draws w in
    (Ok {| Keys.key1 := randomNum 32 16 n;
           Keys.key2 := randomNum 32 16 (n + 1)%nat;
           Keys.key3 := randomNum 32 16 (n + 2)%nat;
           Keys.key4 := randomNum 32 16 (n + 3)%nat |},
     Upd.draws (fun d => (d + 4)%nat) w).

Definition prepareTunnelAddJob (tunnelnum : Z)
    (deviceAIntf deviceBIntf : Interface.t) (devBagentVer : string)
  : M (list Task.t * list Task.t) :=
  (let tunnelParams := generateTunnelParams tunnelnum in
   let* tunnelKeys := generateRandomKeys in
   let paramsSaAB :=
     {| SA.spi := TunnelParams.sa1 tunnelParams;
        SA.crypto_key := Keys.key1 tunnelKeys;
        SA.integr_key := Keys.key2 tunnelKeys;
        SA.crypto_alg := "aes-cbc-128";
        SA.integr_alg := "sha-256-128" |} in
   let paramsSaBA :=
     {| SA.spi := TunnelParams.sa2 tunnelParams;
        SA.crypto_key := Keys.key3 tunnelKeys;
        SA.integr_key := Keys.key4 tunnelKeys;
        SA.crypto_alg := "aes-cbc-128";
        SA.integr_alg := "sha-256-128" |} in
   let paramsIpsecDeviceA :=
     {| Ipsec.local_sa := paramsSaAB; Ipsec.remote_sa := paramsSaBA |} in
   let paramsDeviceA :=
     {| Params.src := Interface.IPv4 deviceAIntf;
        Params.dst :=
          if String.eqb (Interface.PublicIP deviceBIntf) ""
          then Interface.IPv4 deviceBIntf
          else Interface.PublicIP deviceBIntf;
        Params.tunnel_id := tunnelnum;
        Params.ipsec := Some paramsIpsecDeviceA;
        Params.loopback_iface :=
          {| Loopback.addr := TunnelParams.ip1 tunnelParams +:+ "/31";
             Loopback.mac := TunnelParams.mac1 tunnelParams;
             Loopback.mtu := Some 1350;
             Loopback.routing := Some "ospf" |} |} in
   let paramsIpsecDeviceB :=
     {| Ipsec.local_sa :=
          SA.mk (TunnelParams.sa2 tunnelParams)
                (SA.crypto_key paramsSaAB) (SA.integr_key paramsSaAB)
                (SA.crypto_alg paramsSaAB) (SA.integr_alg paramsSaAB);
        Ipsec.remote_sa :=
          SA.mk (TunnelParams.sa1 tunnelParams)
                (SA.crypto_key paramsSaBA) (SA.integr_key paramsSaBA)
                (SA.crypto_alg paramsSaBA) (SA.integr_alg paramsSaBA) |} in
   let paramsDeviceB :=
     {| Params.src := Interface.IPv4 deviceBIntf;
        Params.dst :=
          if String.eqb (Interface.PublicIP deviceAIntf) ""
          then Interface.IPv4 deviceAIntf
          else Interface.PublicIP deviceAIntf;
        Params.tunnel_id := tunnelnum;
        Params.ipsec := Some paramsIpsecDeviceB;
        Params.loopback_iface :=
          {| Loopback.addr := TunnelParams.ip2 tunnelParams +:+ "/31";
             Loopback.mac := TunnelParams.mac2 tunnelParams;
             Loopback.mtu := Some 1350;
             Loopback.routing := Some "ospf" |} |} in
   let tasksDeviceA := [Task.mk "agent" "add-tunnel" paramsDeviceA] in
   let tasksDeviceB := [Task.mk "agent" "add-tunnel" paramsDeviceB] in
   ret (tasksDeviceA, tasksDeviceB))%js.

Definition prepareTunnelRemoveJob (tunnelnum : Z)
    (deviceAIntf deviceBIntf : Interface.t)
  : list Task.t * list Task.t :=
  let tunnelParams := generateTunnelParams tunnelnum in
  let paramsDeviceA :=
    {| Params.src := Interface.IPv4 deviceAIntf;
       Params.dst :=
         if String.eqb (Interface.PublicIP deviceBIntf) ""
         then Interface.IPv4 deviceBIntf
         else Interface.PublicIP deviceBIntf;
       Params.tunnel_id := tunnelnum;
       Params.ipsec := None;
       Params.loopback_iface :=
         {| Loopback.addr := TunnelParams.ip1 tunnelParams +:+ "/31";
            Loopback.mac := TunnelParams.mac1 tunnelParams;
            Loopback.mtu := None;
            Loopback.routing := None |} |} in
  let paramsDeviceB :=
    {| Params.src := Interface.IPv4 deviceBIntf;
       Params.dst :=
         if String.eqb (Interface.PublicIP deviceAIntf) ""
         then Interface.IPv4 deviceAIntf
         else Interface.PublicIP deviceAIntf;
       Params.tunnel_id := tunnelnum;
       Params.ipsec := None;
       Params.loopback_iface :=
         {| Loopback.addr := TunnelParams.ip2 tunnelParams +:+ "/31";
            Loopback.mac := TunnelParams.mac2 tunnelParams;
            Loopback.mtu := None;
            Loopback.routing := None |} |} in
  ([Task.mk "agent" "remove-tunnel" paramsDeviceA],
   [Task.mk "agent" "remove-tunnel" paramsDeviceB]).

Definition queueTunnel (isAdd : bool) (title : string)
    (tasksDeviceA tasksDeviceB : list Task.t)
    (user org devAMachineID devBMachineID devAOid devBOid : string)
  : M (list Job.t) :=
  try_catch
    (let* jobA :=
       deviceQueues_addJob
         (Job.mk devAMachineID user org title tasksDeviceA
                 (if isAdd then "tunnels" else "deltunnels")
                 (Payload.mk user org devAOid devBOid "deviceAconf")
                 "normal" 1 false) in
     let* jobB :=
       deviceQueues_addJob
         (Job.mk devBMachineID user org title tasksDeviceB
                 (if isAdd then "tunnels" else "deltunnels")
                 (Payload.mk user org devAOid devBOid "deviceBconf")
                 "normal" 1 false) in
     ret [jobA; jobB])%js
    (fun err =>
       throw (Error.new ("Error queuing tunnel for device IDs " +:+
                         devAMachineID +:+ " and " +:+ devBMachineID))).

Definition tunnelTitle (verb : string) (deviceA deviceB : Device.t)
    (deviceAIntf deviceBIntf : Interface.t) : string :=
  verb +:+ " tunnel between (" +:+ Device.hostname deviceA +:+ "," +:+
  Interface.name deviceAIntf +:+ ") and (" +:+ Device.hostname deviceB +:+
  "," +:+ Interface.name deviceBIntf +:+ ")".

Definition addTunnel (user org : string) (tunnelnum : Z)
    (deviceA deviceB : Device.t) (deviceAIntf deviceBIntf : Interface.t)
  : M (list Job.t) :=
  (tunnelsModel_findOneAndUpdate
     (fun t => String.eqb (Tunnel.org t) org && Z.eqb (Tunnel.num t) tunnelnum)
     (fun t =>
        Tunnel.mk (Tunnel._id t) (Tunnel.org t) (Tunnel.num t)
                  true false false
                  (Device._id deviceA) (Interface._id deviceAIntf)
                  (Device._id deviceB) (Interface._id deviceBIntf))
     (Some (fun oid => Tunnel.mk oid org tunnelnum false false false "" "" "" ""))
     false ;;
   let agent := Versions.agent (Device.versions deviceB) in
   let* tasks := prepareTunnelAddJob tunnelnum deviceAIntf deviceBIntf agent in
   let* tunnelJobs :=
     queueTunnel true
       (tunnelTitle "Create" deviceA deviceB deviceAIntf deviceBIntf)
       (fst tasks) (snd tasks) user org
       (Device.machineId deviceA) (Device.machineId deviceB)
       (Device._id deviceA) (Device._id deviceB) in
   ret tunnelJobs)%js.

(** A started promise: what it still does to the world, and how it ends. *)
Definition Promise (A : Type) : Type := World.t -> Settled A * World.t.

(** The callbacks that [getTunnelPromise] hangs on its existence query:
    they run when the event loop comes to them, with the answer to the
    query. *)
Definition getTunnelPromise_then (user org : string)
    (deviceA deviceB : Device.t) (deviceAIntf deviceBIntf : Interface.t)
    (found : Result (list Tunnel.t))
  : Promise PromiseValue :=
  fun w =>
    match found with
    | Throw err => (Rejected (Error.new "Tunnels find error"), w)
    | Ok tunnelFound =>
        if (length tunnelFound =? 0)%nat then
          (* Tunnel does not exist: search first in deleted tunnels *)
          match
            tunnelsModel_findOneAndUpdate
              (fun t => Bool.eqb (Tunnel.isActive t) false &&
                        String.eqb (Tunnel.org t) org)
              (Tunnel_set "isActive" true)
              None false w
          with
          | (Throw err, w) =>
              (Rejected (Error.new "Tunnels search error"), w)
          | (Ok (Some tunnelResp), w) =>
              (* deleted tunnel found, use it *)
              let tunnelnum := Tunnel.num tunnelResp in
              match
                addTunnel user org tunnelnum deviceA deviceB
                          deviceAIntf deviceBIntf w
              with
              | (Ok tunnelJobs, w) => (Resolved (VJobs tunnelJobs), w)
              | (Throw err, w) =>
                  (Rejected (Error.new "Tunnel ID not found"), w)
              end
          | (Ok None, w) =>
              (* No deleted tunnel found, get a new one *)
              match tunnelIDsModel_findOneAndUpdate org 0 15000 1 w with
              | (Ok tunnelnum, w) =>
                  match
                    addTunnel user org tunnelnum deviceA deviceB
                              deviceAIntf deviceBIntf w
                  with
                  | (Ok tunnelJobs, w) => (Resolved (VJobs tunnelJobs), w)
                  | (Throw err, w) =>
                      (Rejected (Error.new "Tunnel ID not found"), w)
                  end
              | (Throw err, w) =>
                  if bool_decide (Error.code err = Some 11000) then
                    (* 2nd try to find tunnel ID *)
                    match tunnelIDsModel_findOneAndUpdate org 0 15000 1 w with
                    | (Ok tunnelnum, w) =>
                        match
                          addTunnel user org tunnelnum deviceA deviceB
                                    deviceAIntf deviceBIntf w
                        with
                        | (Ok tunnelJobs, w) =>
                            (Resolved (VJobs tunnelJobs), w)
                        | (Throw err, w) =>
                            (* nothing catches a failure in this branch *)
                            (Unsettled, w)
                        end
                    | (Throw err, w) =>
                        (Rejected (Error.new "Tunnel ID not found"), w)
                    end
                  else
                    (Rejected (Error.new "Tunnel ID not found"), w)
              end
          end
        else
          (* Tunnel found, will be checked via periodic task *)
          (Resolved VTrue, w)
    end.

(** The executor of the promise runs at once: the existence query is sent
    when the promise is made, and is answered from the store as it is
    then, for nothing that the same call starts can write before. *)
Definition getTunnelPromise (user org : string)
    (deviceA deviceB : Device.t) (deviceAIntf deviceBIntf : Interface.t)
  : World.t -> Promise PromiseValue * World.t :=
  fun w =>
    let (found, w) :=
      tunnelsModel_find
        (fun t =>
           (String.eqb (Tunnel.deviceA t) (Device._id deviceA) &&
            String.eqb (Tunnel.deviceB t) (Device._id deviceB) ||
            String.eqb (Tunnel.deviceB t) (Device._id deviceA) &&
            String.eqb (Tunnel.deviceA t) (Device._id deviceB)) &&
           Bool.eqb (Tunnel.isActive t) true &&
           String.eqb (Tunnel.org t) org) w in
    (getTunnelPromise_then user org deviceA deviceB deviceAIntf deviceBIntf
                           found,
     w).

(** The event loop runs what is left of the started promises, here one
    after the other in the order of their creation, each to its end.  The
    code interleaves them at every call to the store and the queues; the
    two agree for a single promise and for promises that only read the
    store.  The properties of [applyTunnelAdd] below are about such
    batches only: one promise, or promises that all find their tunnel. *)
Fixpoint settleAll {A} (ps : list (Promise A)) (w : World.t)
  : list (Settled A) * World.t :=
  match ps with
  | [] => ([], w)
  | p :: ps' =>
      let (r, w1) := p w in
      let (rs, w2) := settleAll ps' w1 in
      (r :: rs, w2)
  end.

(** [array.forEach(f)], with the state that [f] works on. *)
Definition forEach {A S} (l : list A) (f : A -> S -> S) (s : S) : S :=
  fold_left (fun s a => f a s) l s.

(** [Promise.all]: rejected with the first rejection, resolved once all
    are, and not settled otherwise.  The first rejection is taken in the
    order of the list, where the code takes the first in time; the two
    agree when at most one promise is rejected, as in the batches of one
    promise that the properties below are about. *)
Fixpoint Promise_all {A} (rs : list (Settled A)) : Settled (list A) :=
  match rs with
  | [] => Resolved []
  | Rejected e :: _ => Rejected e
  | Resolved a :: rs' =>
      match Promise_all rs' with
      | Resolved l => Resolved (a :: l)
      | Rejected e => Rejected e
      | Unsettled => Unsettled
      end
  | Unsettled :: rs' =>
      match Promise_all rs' with
      | Rejected e => Rejected e
      | _ => Unsettled
      end
  end.

(** The inner loop over [idxB]: [rest] are the devices after [deviceA].
    It ends with the error thrown, if any, with the promises pushed to
    [dbTasks] up to then, and with the world as their making leaves it. *)
Fixpoint applyTunnelAdd_idxB (userName org : string) (deviceA : Device.t)
    (rest : list Device.t) (dbTasks : list (Promise PromiseValue))
    (w : World.t)
  : option Error.t * list (Promise PromiseValue) * World.t :=
  match rest with
  | [] => (None, dbTasks, w)
  | deviceB :: rest' =>
      let verA := Versions.router (Device.versions deviceA) in
      let verB := Versions.router (Device.versions deviceB) in
      if negb (routerVersionsCompatible verA verB) then
        (Some (Error.new
           "Cannot create tunnels between devices with mismatching router versions"),
         dbTasks, w)
      else
        let deviceAIntfs :=
          filter (fun intf =>
                    Bool.eqb (Interface.isAssigned intf) true &&
                    String.eqb (Interface.type intf) "WAN")
                 (Device.interfaces deviceA) in
        let deviceBIntfs :=
          filter (fun intf =>
                    Bool.eqb (Interface.isAssigned intf) true &&
                    String.eqb (Interface.type intf) "WAN")
                 (Device.interfaces deviceB) in
        let (dbTasks, w) :=
          if negb (length deviceAIntfs =? 0)%nat &&
             negb (length deviceBIntfs =? 0)%nat
          then
            forEach deviceAIntfs (fun wanIfcA =>
              forEach deviceBIntfs (fun wanIfcB '(dbTasks, w) =>
                let (p, w) :=
                  getTunnelPromise userName org deviceA deviceB
                                   wanIfcA wanIfcB w in
                (dbTasks ++ [p], w)))
              (dbTasks, w)
          else (dbTasks, w) in
        applyTunnelAdd_idxB userName org deviceA rest' dbTasks w
  end.

(** The outer loop over [idxA]. *)
Fixpoint applyTunnelAdd_idxA (userName org : string)
    (opDevices : list Device.t) (dbTasks : list (Promise PromiseValue))
    (w : World.t)
  : option Error.t * list (Promise PromiseValue) * World.t :=
  match opDevices with
  | [] => (None, dbTasks, w)
  | deviceA :: rest =>
      match applyTunnelAdd_idxB userName org deviceA rest dbTasks w with
      | (Some err, dbTasks, w) => (Some err, dbTasks, w)
      | (None, dbTasks, w) => applyTunnelAdd_idxA userName org rest dbTasks w
      end
  end.

(** A promise is at work from the moment [getTunnelPromise] makes it:
    an error thrown later in the loops rejects the call, and leaves the
    promises made before to run to their end.  The world returned is the
    one the started promises leave behind. *)
Definition applyTunnelAdd (devices : option (list Device.t))
    (user : User.t) (data : Data.t) : Promise unit :=
  fun w =>
    let opDevices :=
      match devices, Data.devices data with
      | Some devices, Some selectedDevices =>
          filter (fun device =>
                    hasOwnProperty selectedDevices (Device._id device))
                 devices
      | _, _ => []
      end in
    let devicesLen := length opDevices in
    if (2 <=? devicesLen)%nat then
      let userName := User.username user in
      let org := User.defaultOrg user in
      let '(thrown, dbTasks, w) :=
        applyTunnelAdd_idxA userName org opDevices [] w in
      let (values, w) := settleAll dbTasks w in
      match thrown with
      | Some err => (Rejected err, w)
      | None =>
          match Promise_all values with
          | Resolved _ => (Resolved tt, w)
          | Rejected err => (Rejected err, w)
          | Unsettled => (Unsettled, w)
          end
      end
    else
      (Rejected (Error.new
         "At least 2 devices must be selected to create tunnels"), w).

Definition updateTunnelIsConnected (org devAOid devBOid target : string)
    (isAdd : bool) : M unit :=
  (let update := Tunnel_set target isAdd in
   let* resp :=
     tunnelsModel_findOneAndUpdate
       (fun t => String.eqb (Tunnel.deviceA t) devAOid &&
                 String.eqb (Tunnel.deviceB t) devBOid &&
                 String.eqb (Tunnel.org t) org)
       update None true in
   match resp with
   | Some _ => ret tt
   | None => throw (Error.new "Update tunnel connected status failure")
   end)%js.

(** The callback only logs what [updateTunnelIsConnected] hands it. *)
Definition completeTunnelAdd (jobId : Z) (res : option Payload.t)
  : World.t -> World.t :=
  fun w =>
    match res with
    | None => w
    | Some res =>
        if negb (JS.truthy (Payload.deviceA res)) ||
           negb (JS.truthy (Payload.deviceB res)) ||
           negb (JS.truthy (Payload.target res)) ||
           negb (JS.truthy (Payload.username res)) ||
           negb (JS.truthy (Payload.org res))
        then w
        else
          snd (updateTunnelIsConnected (Payload.org res)
                 (Payload.deviceA res) (Payload.deviceB res)
                 (Payload.target res) true w)
    end.

Definition delTunnel (user org : string) (tunnelnum : Z)
    (deviceA deviceB : Device.t) (deviceAIntf deviceBIntf : Interface.t)
  : M (list Job.t) :=
  let tasks := prepareTunnelRemoveJob tunnelnum deviceAIntf deviceBIntf in
  try_catch
    (queueTunnel false
       (tunnelTitle "Delete" deviceA deviceB deviceAIntf deviceBIntf)
       (fst tasks) (snd tasks) user org
       (Device.machineId deviceA) (Device.machineId deviceB)
       (Device._id deviceA) (Device._id deviceB))
    (fun err => throw err).

(** Reading a property of [null] or [undefined] throws: of the tunnel
    when none was found, of a device that could not be populated, of an
    interface that the device no longer has. *)
Definition oneTunnelDel (tunnelID user org : string) : M (list Job.t) :=
  (let* tunnelResp :=
     tunnelsModel_findOne
       (fun t => String.eqb (Tunnel._id t) tunnelID &&
                 Bool.eqb (Tunnel.isActive t) true &&
                 String.eqb (Tunnel.org t) org) in
   fun w =>
     match tunnelResp with
     | None => (Throw TypeError, w)
     | Some tunnelResp =>
         match populate (Tunnel.deviceA tunnelResp) w,
               populate (Tunnel.deviceB tunnelResp) w with
         | Some deviceA, Some deviceB =>
             let deviceAIntf :=
               head (filter
                       (fun ifc => String.eqb (Interface._id ifc)
                                     (Tunnel.interfaceA tunnelResp))
                       (Device.interfaces deviceA)) in
             let deviceBIntf :=
               head (filter
                       (fun ifc => String.eqb (Interface._id ifc)
                                     (Tunnel.interfaceB tunnelResp))
                       (Device.interfaces deviceB)) in
             let tunnelnum := Tunnel.num tunnelResp in
             match deviceAIntf, deviceBIntf with
             | Some deviceAIntf, Some deviceBIntf =>
                 (let* tunnelJobs :=
                    delTunnel user org tunnelnum deviceA deviceB
                              deviceAIntf deviceBIntf in
                  let* resp :=
                    tunnelsModel_findOneAndUpdate
                      (fun t => String.eqb (Tunnel._id t) tunnelID &&
                                String.eqb (Tunnel.org t) org)
                      (fun t =>
                         Tunnel.mk (Tunnel._id t) (Tunnel.org t)
                                   (Tunnel.num t) false false false
                                   (Tunnel.deviceA t) (Tunnel.interfaceA t)
                                   (Tunnel.deviceB t) (Tunnel.interfaceB t))
                      None true in
                  match resp with
                  | None => throw (Error.new "Error deleting tunnel")
                  | Some _ => ret tunnelJobs
                  end) w
             | _, _ => (Throw TypeError, w)
             end
         | _, _ => (Throw TypeError, w)
         end
     end)%js.

Definition applyTunnelDel (devices : option (list Device.t))
    (user : User.t) (data : Data.t) : Promise unit :=
  fun w =>
    match Data.tunnels data with
    | None => (Rejected TypeError, w)
    | Some selectedTunnels =>
        let tunnelIds := Object_keys selectedTunnels in
        match devices, tunnelIds with
        | Some _, [tunnelID] =>
            let org := User.defaultOrg user in
            let userName := User.username user in
            match oneTunnelDel tunnelID userName org w with
            | (Ok _, w) => (Resolved tt, w)
            | (Throw err, w) =>
                (Rejected (Error.new
                   "Attempt to delete more than one tunnel or no devices found"),
                 w)
            end
        | _, _ => (Resolved tt, w)
        end
    end.

(** Whatever goes wrong in the rollback is logged, not raised. *)
Definition errorTunnelAdd (jobId : Z) (res : option Payload.t)
  : World.t -> World.t :=
  fun w =>
    match res with
    | None => w
    | Some res =>
        if negb (JS.truthy (Payload.deviceA res)) ||
           negb (JS.truthy (Payload.deviceB res)) ||
           negb (JS.truthy (Payload.target res)) ||
           negb (JS.truthy (Payload.username res)) ||
           negb (JS.truthy (Payload.org res))
        then w
        else
          match
            tunnelsModel_findOne
              (fun t => String.eqb (Tunnel.deviceA t) (Payload.deviceA res) &&
                        String.eqb (Tunnel.deviceB t) (Payload.deviceB res) &&
                        String.eqb (Tunnel.org t) (Payload.org res) &&
                        Bool.eqb (Tunnel.isActive t) true) w
          with
          | (Ok (Some tunnel), w) =>
              snd (oneTunnelDel (Tunnel._id tunnel) (Payload.username res)
                                (Payload.org res) w)
          | (_, w) => w
          end
    end.

End Tunnels.

(** ** Vocabulary of the properties *)

(** The environment lets every coming call run. *)
Definition quiet (w : World.t) : Prop := World.faults w = [].

(** The environment lets the next call run. *)
Definition answers (w : World.t) : Prop :=
  forall e, head (World.faults w) <> Some (Some e).

(** How often a call was made. *)
Definition calls (c : Call) (w : World.t) : nat :=
  length (filter (fun c' => c' = c) (World.trace w)).

(** The tunnel joins devices [a] and [b], in this order or the other. *)
Definition joins (a b : string) (t : Tunnel.t) : Prop :=
  (Tunnel.deviceA t = a /\ Tunnel.deviceB t = b) \/
  (Tunnel.deviceB t = a /\ Tunnel.deviceA t = b).

Definition activeBetween (org a b : string) (t : Tunnel.t) : Prop :=
  joins a b t /\ Tunnel.isActive t = true /\ Tunnel.org t = org.

(** An active tunnel of the organisation joins the two devices. *)
Definition connected (w : World.t) (org a b : string) : Prop :=
  Exists (activeBetween org a b) (World.tunnels w).

Definition inactiveIn (org : string) (t : Tunnel.t) : Prop :=
  Tunnel.isActive t = false /\ Tunnel.org t = org.

Definition keyed (org : string) (n : Z) (t : Tunnel.t) : Prop :=
  Tunnel.org t = org /\ Tunnel.num t = n.

(** The number the counter of an organisation gives out next, if any. *)
Definition nextNumber (org : string) (ids : gmap string Z) : option Z :=
  match ids !! org with
  | None => Some 1
  | Some c => if decide (0 <= c < 15000) then Some (c + 1) else None
  end.

(** The document is the first of the collection that satisfies [P]. *)
Definition firstAt (P : Tunnel.t -> Prop) (ts : list Tunnel.t)
    (i : nat) (t : Tunnel.t) : Prop :=
  ts !! i = Some t /\ P t /\
  forall j u, ts !! j = Some u -> (j < i)%nat -> ~ P u.

(** The record [addTunnel] writes. *)
Definition writtenTunnel (oid org : string) (n : Z)
    (deviceA deviceB : Device.t) (deviceAIntf deviceBIntf : Interface.t)
  : Tunnel.t :=
  Tunnel.mk oid org n true false false
            (Device._id deviceA) (Interface._id deviceAIntf)
            (Device._id deviceB) (Interface._id deviceBIntf).

(** The address a peer is reached at: its public address when it has one. *)
Definition peerAddr (intf : Interface.t) : string :=
  if decide (Interface.PublicIP intf = "") then Interface.IPv4 intf
  else Interface.PublicIP intf.

(** [jobs] are the two add-tunnel jobs of tunnel [n], one per device. *)
Definition addJobsFor (n : Z) (deviceA deviceB : Device.t)
    (deviceAIntf deviceBIntf : Interface.t) (jobs : list Job.t) : Prop :=
  exists jobA jobB paramsA paramsB,
    jobs = [jobA; jobB] /\
    Job.machineId jobA = Device.machineId deviceA /\
    Job.machineId jobB = Device.machineId deviceB /\
    Job.tasks jobA = [Task.mk "agent" "add-tunnel" paramsA] /\
    Job.tasks jobB = [Task.mk "agent" "add-tunnel" paramsB] /\
    Payload.target (Job.data jobA) = "deviceAconf" /\
    Payload.target (Job.data jobB) = "deviceBconf" /\
    Params.tunnel_id paramsA = n /\
    Params.tunnel_id paramsB = n /\
    Params.src paramsA = Interface.IPv4 deviceAIntf /\
    Params.dst paramsA = peerAddr deviceBIntf /\
    Params.src paramsB = Interface.IPv4 deviceBIntf /\
    Params.dst paramsB = peerAddr deviceAIntf.

(** The payload of a completion callback names a tunnel of the
    collection when the three references agree. *)
Definition matchesPayload (res : Payload.t) (t : Tunnel.t) : Prop :=
  Tunnel.deviceA t = Payload.deviceA res /\
  Tunnel.deviceB t = Payload.deviceB res /\
  Tunnel.org t = Payload.org res.

(** A payload as [queueTunnel] makes them. *)
Definition wellFormed (res : Payload.t) : Prop :=
  JS.truthy (Payload.deviceA res) = true /\
  JS.truthy (Payload.deviceB res) = true /\
  JS.truthy (Payload.username res) = true /\
  JS.truthy (Payload.org res) = true /\
  (Payload.target res = "deviceAconf" \/ Payload.target res = "deviceBconf").

(** [t'] is [t] with the confirmation flag [target] set, and nothing else
    changed. *)
Definition confirmedAs (target : string) (t t' : Tunnel.t) : Prop :=
  Tunnel._id t' = Tunnel._id t /\
  Tunnel.org t' = Tunnel.org t /\
  Tunnel.num t' = Tunnel.num t /\
  Tunnel.isActive t' = Tunnel.isActive t /\
  Tunnel.deviceA t' = Tunnel.deviceA t /\
  Tunnel.interfaceA t' = Tunnel.interfaceA t /\
  Tunnel.deviceB t' = Tunnel.deviceB t /\
  Tunnel.interfaceB t' = Tunnel.interfaceB t /\
  (target = "deviceAconf" ->
   Tunnel.deviceAconf t' = true /\
   Tunnel.deviceBconf t' = Tunnel.deviceBconf t) /\
  (target = "deviceBconf" ->
   Tunnel.deviceBconf t' = true /\
   Tunnel.deviceAconf t' = Tunnel.deviceAconf t).

(** One pairing on its own: the promise is made and runs to its end with
    nothing in between. *)
Definition pairing (randomNum : Z -> Z -> nat -> string) (user org : string)
    (deviceA deviceB : Device.t) (deviceAIntf deviceBIntf : Interface.t)
  : Promise PromiseValue :=
  fun w =>
    let (p, w) :=
      getTunnelPromise randomNum user org deviceA deviceB
                       deviceAIntf deviceBIntf w in
    p w.

(** The promise of a pairing has failed for good, and has left the store and
    the queues as they were. *)
Definition fatal (w : World.t) (p : Settled PromiseValue * World.t) : Prop :=
  fst p = Rejected (Error.new "Tunnel ID not found") /\
  World.tunnels (snd p) = World.tunnels w /\
  World.tunnelids (snd p) = World.tunnelids w /\
  World.queue (snd p) = World.queue w.

(** The pairing was skipped: the promise resolved with [true] after the
    existence query alone, with nothing allocated, written or queued. *)
Definition skipped (w : World.t) (p : Settled PromiseValue * World.t) : Prop :=
  fst p = Resolved VTrue /\
  World.tunnels (snd p) = World.tunnels w /\
  World.tunnelids (snd p) = World.tunnelids w /\
  World.queue (snd p) = World.queue w /\
  World.trace (snd p) = World.trace w ++ [TunnelsFind].

(** Neither the two collections nor the queues have changed. *)
Definition untouched (w w' : World.t) : Prop :=
  World.tunnels w' = World.tunnels w /\
  World.tunnelids w' = World.tunnelids w /\
  World.queue w' = World.queue w.

(** An active tunnel of the organisation joins interface [ia] of device
    [a] and interface [ib] of device [b], in this order or the other. *)
Definition connectedInterfaces (w : World.t) (org a ia b ib : string) : Prop :=
  Exists (fun t =>
            Tunnel.isActive t = true /\ Tunnel.org t = org /\
            ((Tunnel.deviceA t = a /\ Tunnel.interfaceA t = ia /\
              Tunnel.deviceB t = b /\ Tunnel.interfaceB t = ib) \/
             (Tunnel.deviceA t = b /\ Tunnel.interfaceA t = ib /\
              Tunnel.deviceB t = a /\ Tunnel.interfaceB t = ia)))
         (World.tunnels w).

(** The key of a tunnel record. *)
Definition tunnelKey (t : Tunnel.t) : string * Z := (Tunnel.org t, Tunnel.num t).

(** The store is in order: no two records share a key, and every number
    in use was given out by the counter of its organisation. *)
Definition store_ok (w : World.t) : Prop :=
  NoDup (tunnelKey <$> World.tunnels w) /\
  Forall (fun t => exists c, World.tunnelids w !! Tunnel.org t = Some c /\
                             Tunnel.num t <= c)
         (World.tunnels w).

(** The interfaces of a device that take part in the mesh. *)
Definition wanInterfaces (d : Device.t) : list Interface.t :=
  filter (fun intf => Interface.isAssigned intf = true /\
                      Interface.type intf = "WAN")
         (Device.interfaces d).

Global Instance inactiveIn_dec org t : Decision (inactiveIn org t).
Proof. unfold inactiveIn. apply _. Defined.

Global Instance activeBetween_dec org a b t : Decision (activeBetween org a b t).
Proof. unfold activeBetween, joins. apply _. Defined.

Global Instance keyed_dec org n t : Decision (keyed org n t).
Proof. unfold keyed. apply _. Defined.

Global Instance connected_dec w org a b : Decision (connected w org a b).
Proof. unfold connected. apply _. Defined.

Global Instance connectedInterfaces_dec w org a ia b ib :
  Decision (connectedInterfaces w org a ia b ib).
Proof. unfold connectedInterfaces. apply _. Defined.

(** ** Sample data *)

Module Sample.

(** The code says that tunnels are supported only between devices of the
    same router version. *)
Definition sameVersion (verA verB : string) : bool := String.eqb verA verB.

(** A key source that numbers its keys. *)
Definition numbered (len radix : Z) (n : nat) : string := "key" +:+ pretty n.

Definition wan (oid name ipv4 public : string) : Interface.t :=
  Interface.mk oid name true "WAN" ipv4 public.

Definition ifA := wan "ifA" "eth0" "192.168.1.10" "".
Definition ifA2 := wan "ifA2" "eth1" "192.168.2.10" "".
Definition ifB := wan "ifB" "eth0" "192.168.3.20" "8.8.4.4".
Definition ifB2 := wan "ifB2" "eth1" "192.168.4.20" "".
Definition ifC := wan "ifC" "eth0" "192.168.5.30" "".
Definition lanA := Interface.mk "lanA" "eth2" true "LAN" "10.0.0.1" "".

Definition devA :=
  Device.mk "devA" "hostA" "machA" (Versions.mk "1.2.3" "1.2.3") [lanA; ifA].
Definition devB :=
  Device.mk "devB" "hostB" "machB" (Versions.mk "1.2.3" "1.2.3") [ifB].
Definition devC :=
  Device.mk "devC" "hostC" "machC" (Versions.mk "2.0.0" "2.0.0") [ifC].

Definition devD :=
  Device.mk "devD" "hostD" "machD" (Versions.mk "1.2.3" "1.2.3")
            [wan "ifD" "eth0" "192.168.6.40" ""].

(** Devices A and B with a second WAN interface each. *)
Definition devA' :=
  Device.mk "devA" "hostA" "machA" (Versions.mk "1.2.3" "1.2.3") [ifA; ifA2].
Definition devB' :=
  Device.mk "devB" "hostB" "machB" (Versions.mk "1.2.3" "1.2.3") [ifB; ifB2].

Definition user := User.mk "alice" "org1".

Definition select (ids : list string) : Data.t :=
  Data.mk (Some (list_to_map ((fun k => (k, true)) <$> ids))) None.
Definition selectTunnels (ids : list string) : Data.t :=
  Data.mk None (Some (list_to_map ((fun k => (k, true)) <$> ids))).

(** An empty store. *)
Definition w0 : World.t :=
  World.mk [] ∅ [devA; devB; devC] [] [] 0 0 [].

(** Tunnel 6 of the organisation joins A and B. *)
Definition tAB :=
  Tunnel.mk "t6" "org1" 6 true false false "devA" "ifA" "devB" "ifB".
(** Tunnel 3 was deleted. *)
Definition tOld :=
  Tunnel.mk "t3" "org1" 3 false false false "devA" "ifA" "devC" "ifC".
(** Tunnel 4 joins B and C. *)
Definition tBC :=
  Tunnel.mk "t4" "org1" 4 true true true "devB" "ifB" "devC" "ifC".

(** The counter stands at 6, and A and B are connected. *)
Definition wAB : World.t :=
  World.mk [tAB] {["org1" := 6]} [devA; devB; devC] [] [] 0 1 [].

(** The counter stands at 5, nothing is connected and nothing deleted. *)
Definition w5 : World.t :=
  World.mk [] {["org1" := 5]} [devA; devB; devC] [] [] 0 0 [].

(** The counter stands at 5; tunnel 4 is active, tunnel 3 deleted. *)
Definition wOld : World.t :=
  World.mk [tBC; tOld] {["org1" := 5]} [devA; devB; devC] [] [] 0 2 [].

(** The organisation has used up its numbers. *)
Definition wFull : World.t :=
  World.mk [] {["org1" := 15000]} [devA; devB; devC] [] [] 0 0 [].

(** The counter stands at 14999. *)
Definition wLast : World.t :=
  World.mk [] {["org1" := 14999]} [devA; devB; devC] [] [] 0 0 [].

(** As [w5], with another caller's first insert racing the increment. *)
Definition wRace : World.t :=
  World.mk [] {["org1" := 5]} [devA; devB; devC] []
           [None; None; Some E11000] 0 0 [].

Definition resA := Payload.mk "alice" "org1" "devA" "devB" "deviceAconf".

End Sample.

(** ** Vocabulary of the further properties *)

(** The string has no character [c]: a decimal numeral has no dot, a pair
    of hexadecimal digits no colon. *)
Definition lacks (c : ascii) (s : string) : Prop :=
  Forall (fun c' => c' <> c) (list_ascii_of_string s).

Global Instance lacks_dec c s : Decision (lacks c s).
Proof. unfold lacks. apply _. Defined.

(** The host and network parts that [generateTunnelParams] works with. *)
Definition hostPart (n : Z) : Z := (n mod 127 + 1) * 2.
Definition netPart (n : Z) : Z := n / 127.

(** The params of an add-tunnel task as a remove-tunnel task has them:
    without the security associations, the MTU and the routing. *)
Definition stripped (p : Params.t) : Params.t :=
  Params.mk (Params.src p) (Params.dst p) (Params.tunnel_id p) None
            (Loopback.mk (Loopback.addr (Params.loopback_iface p))
                         (Loopback.mac (Params.loopback_iface p)) None None).

(** The record as [oneTunnelDel] leaves it. *)
Definition deactivated (t : Tunnel.t) : Tunnel.t :=
  Tunnel.mk (Tunnel._id t) (Tunnel.org t) (Tunnel.num t) false false false
            (Tunnel.deviceA t) (Tunnel.interfaceA t)
            (Tunnel.deviceB t) (Tunnel.interfaceB t).

(** The devices and the interfaces that a tunnel record names are there. *)
Definition resolves (w : World.t) (t : Tunnel.t) (deviceA deviceB : Device.t)
    (deviceAIntf deviceBIntf : Interface.t) : Prop :=
  populate (Tunnel.deviceA t) w = Some deviceA /\
  populate (Tunnel.deviceB t) w = Some deviceB /\
  head (filter (fun ifc => Interface._id ifc = Tunnel.interfaceA t)
               (Device.interfaces deviceA)) = Some deviceAIntf /\
  head (filter (fun ifc => Interface._id ifc = Tunnel.interfaceB t)
               (Device.interfaces deviceB)) = Some deviceBIntf.

(** [jobs] are the two remove-tunnel jobs of tunnel [n], one per device. *)
Definition removeJobsFor (user org : string) (n : Z) (deviceA deviceB : Device.t)
    (deviceAIntf deviceBIntf : Interface.t) (jobs : list Job.t) : Prop :=
  exists jobA jobB paramsA paramsB,
    jobs = [jobA; jobB] /\
    Job.machineId jobA = Device.machineId deviceA /\
    Job.machineId jobB = Device.machineId deviceB /\
    Job.method jobA = "deltunnels" /\
    Job.method jobB = "deltunnels" /\
    Job.tasks jobA = [Task.mk "agent" "remove-tunnel" paramsA] /\
    Job.tasks jobB = [Task.mk "agent" "remove-tunnel" paramsB] /\
    Job.data jobA =
      Payload.mk user org (Device._id deviceA) (Device._id deviceB)
                 "deviceAconf" /\
    Job.data jobB =
      Payload.mk user org (Device._id deviceA) (Device._id deviceB)
                 "deviceBconf" /\
    Params.tunnel_id paramsA = n /\
    Params.tunnel_id paramsB = n /\
    Params.src paramsA = Interface.IPv4 deviceAIntf /\
    Params.dst paramsA = peerAddr deviceBIntf /\
    Params.src paramsB = Interface.IPv4 deviceBIntf /\
    Params.dst paramsB = peerAddr deviceAIntf /\
    Params.ipsec paramsA = None /\
    Params.ipsec paramsB = None.

(** No two records of the collection share an object id. *)
Definition ids_unique (w : World.t) : Prop :=
  NoDup (Tunnel._id <$> World.tunnels w).

(** The payload of a callback has all its fields. *)
Definition complete (res : Payload.t) : Prop :=
  JS.truthy (Payload.deviceA res) = true /\
  JS.truthy (Payload.deviceB res) = true /\
  JS.truthy (Payload.target res) = true /\
  JS.truthy (Payload.username res) = true /\
  JS.truthy (Payload.org res) = true.

Global Instance complete_dec res : Decision (complete res).
Proof. unfold complete. apply _. Defined.

(** The record has object id [oid] and belongs to the organisation. *)
Definition withId (oid org : string) (t : Tunnel.t) : Prop :=
  Tunnel._id t = oid /\ Tunnel.org t = org.

(** The record with object id [oid] is an active tunnel of the
    organisation. *)
Definition activeWithId (oid org : string) (t : Tunnel.t) : Prop :=
  Tunnel._id t = oid /\ Tunnel.isActive t = true /\ Tunnel.org t = org.

(** An active tunnel that the payload of a callback names. *)
Definition activeMatch (res : Payload.t) (t : Tunnel.t) : Prop :=
  matchesPayload res t /\ Tunnel.isActive t = true.

Global Instance withId_dec oid org t : Decision (withId oid org t).
Proof. unfold withId. apply _. Defined.

Global Instance activeWithId_dec oid org t : Decision (activeWithId oid org t).
Proof. unfold activeWithId. apply _. Defined.

Global Instance activeMatch_dec res t : Decision (activeMatch res t).
Proof. unfold activeMatch, matchesPayload. apply _. Defined.

(** The request selects the one tunnel [oid]. *)
Definition selectsTunnel (data : Data.t) (oid : string) : Prop :=
  exists sel, Data.tunnels data = Some sel /\ Object_keys sel = [oid].

(** [w'] comes from [w] by a deletion at most: the counters and the
    devices are as before, no record was removed or renumbered, at most
    one record of the organisation was deactivated, and what was queued
    are at most two remove-tunnel jobs of the organisation. *)
Definition deletionOnly (org : string) (w w' : World.t) : Prop :=
  World.tunnelids w' = World.tunnelids w /\
  World.devices w' = World.devices w /\
  (exists cs, World.trace w' = World.trace w ++ cs) /\
  (exists jobs,
     World.queue w' = World.queue w ++ jobs /\ (length jobs <= 2)%nat /\
     Forall (fun j => Job.method j = "deltunnels" /\ Job.org j = org) jobs) /\
  (World.tunnels w' = World.tunnels w \/
   exists i t,
     World.tunnels w !! i = Some t /\ Tunnel.org t = org /\
     World.tunnels w' = <[i := deactivated t]> (World.tunnels w)).

(** The record with both sides confirmed. *)
Definition confirmed (t : Tunnel.t) : Tunnel.t :=
  Tunnel.mk (Tunnel._id t) (Tunnel.org t) (Tunnel.num t) (Tunnel.isActive t)
            true true
            (Tunnel.deviceA t) (Tunnel.interfaceA t)
            (Tunnel.deviceB t) (Tunnel.interfaceB t).

(** The devices the request selects, as [applyTunnelAdd] works them out. *)
Definition selectedDevices (devices : option (list Device.t)) (data : Data.t)
  : list Device.t :=
  match devices, Data.devices data with
  | Some ds, Some sel =>
      filter (fun d => is_Some (sel !! Device._id d)) ds
  | _, _ => []
  end.

(** Two devices of which one has no assigned WAN interface. *)
Definition noCommonWan (rvc : string -> string -> bool) (A B : Device.t)
  : Prop :=
  rvc (Versions.router (Device.versions A))
      (Versions.router (Device.versions B)) = true /\
  (wanInterfaces A = [] \/ wanInterfaces B = []).

(** [w'] differs from [w] in the organisation [org] at most: the records
    and the counters of the other organisations are as they were, and
    what was queued are jobs of [org]. *)
Definition sameElsewhere (org : string) (w w' : World.t) : Prop :=
  filter (fun t => Tunnel.org t <> org) (World.tunnels w') =
  filter (fun t => Tunnel.org t <> org) (World.tunnels w) /\
  (forall o, o <> org -> World.tunnelids w' !! o = World.tunnelids w !! o) /\
  exists jobs,
    World.queue w' = World.queue w ++ jobs /\
    Forall (fun j => Job.org j = org) jobs.

(** ** More sample data *)

Module Scenario.

(** A device without a WAN interface. *)
Definition devE :=
  Device.mk "devE" "hostE" "machE" (Versions.mk "1.2.3" "1.2.3") [Sample.lanA].

(** What the environment answers when it refuses a call. *)
Definition refused : Error.t := Error.new "connection lost".

(** The world with the environment following the schedule [fs]. *)
Definition withFaults (fs : list (option Error.t)) (w : World.t) : World.t :=
  Upd.faults (fun _ => fs) w.

Definition resB := Payload.mk "alice" "org1" "devA" "devB" "deviceBconf".

End Scenario.

(** * Properties *)

(** ** Parameter generator *)

Example generateTunnelParams_1 :
  generateTunnelParams 1 =
  TunnelParams.mk "10.100.0.4" "10.100.0.5"
                  "02:00:27:fd:00:04" "02:00:27:fd:00:05" 4 5.
Proof. vm_compute. reflexivity. Qed.

Example generateTunnelParams_1500 :
  generateTunnelParams 1500 =
  TunnelParams.mk "10.100.11.208" "10.100.11.209"
                  "02:00:27:fd:0b:d0" "02:00:27:fd:0b:d1" 3024 3025.
Proof. vm_compute. reflexivity. Qed.

Lemma toString10_inj a b : JS.toString10 a = JS.toString10 b -> a = b.
Proof. unfold JS.toString10. apply pretty_Z_inj. Qed.

(** The two addresses differ, the identifiers are consecutive and the
    host part is even. *)
Lemma generateTunnelParams_distinct (n : Z) (Hn : 0 <= n < 32512) :
  let p := generateTunnelParams n in
  TunnelParams.ip1 p <> TunnelParams.ip2 p /\
  TunnelParams.sa2 p = TunnelParams.sa1 p + 1 /\
  Z.even ((JS.rem n 127 + 1) * 2) = true.
Proof.
  cbn zeta. unfold generateTunnelParams; cbn [TunnelParams.ip1
    TunnelParams.ip2 TunnelParams.sa1 TunnelParams.sa2].
  split; [| split].
  - intros Heq.
    do 3 apply String.app_inj in Heq.
    apply toString10_inj in Heq. lia.
  - lia.
  - rewrite Z.even_mul. apply orb_true_r.
Qed.

(** C7: for every tunnel number [n] in [0, 32512), the range in which
    [10.100.l.h] is an address and the doubles of the code are the
    integers used here, [generateTunnelParams n] is a function of [n]
    alone, its addresses are [10.100.l.h] and [10.100.l.(h+1)] with
    [h = (n mod 127 + 1) * 2] and [l = floor (n / 127)], the two addresses
    differ, [sa1 = l*256 + h], [sa2 = sa1 + 1], and [h] is even. *)
Theorem generateTunnelParams_spec (n : Z) (Hn : 0 <= n < 32512) :
  let h := (n mod 127 + 1) * 2 in
  let l := n / 127 in
  let p := generateTunnelParams n in
  (forall m, m = n -> generateTunnelParams m = p) /\
  TunnelParams.ip1 p = "10.100." +:+ pretty l +:+ "." +:+ pretty h /\
  TunnelParams.ip2 p = "10.100." +:+ pretty l +:+ "." +:+ pretty (h + 1) /\
  TunnelParams.ip1 p <> TunnelParams.ip2 p /\
  TunnelParams.sa1 p = l * 256 + h /\
  TunnelParams.sa2 p = TunnelParams.sa1 p + 1 /\
  Z.even h = true.
Proof.
  intros h l p.
  assert (Hrem : JS.rem n 127 = n mod 127)
    by (unfold JS.rem; apply Z.rem_mod_nonneg; lia).
  destruct (generateTunnelParams_distinct n Hn) as (Hip & Hsa & Hev).
  rewrite Hrem in Hev.
  repeat split; try assumption.
  - intros m ->. reflexivity.
  - subst p h l. unfold generateTunnelParams; cbn [TunnelParams.ip1].
    rewrite Hrem. reflexivity.
  - subst p h l. unfold generateTunnelParams; cbn [TunnelParams.ip2].
    rewrite Hrem. reflexivity.
  - subst p h l. unfold generateTunnelParams; cbn [TunnelParams.sa1].
    rewrite Hrem. reflexivity.
Qed.

Lemma generateTunnelParams_spec_witness :
  0 <= 300 < 32512 /\
  TunnelParams.ip1 (generateTunnelParams 300) <>
  TunnelParams.ip2 (generateTunnelParams 300).
Proof.
  split; [lia |].
  apply (generateTunnelParams_spec 300); lia.
Defined.

(** ** Job preparer *)

(** C8: in the pair of add-tunnel tasks, device A's local-sa has spi
    [sa1] and its remote-sa spi [sa2]; device B's local-sa is A's
    local-sa with spi [sa2], and its remote-sa is A's remote-sa with spi
    [sa1]. *)
Theorem prepareTunnelAddJob_spi_swapped
    (randomNum : Z -> Z -> nat -> string) (tunnelnum : Z)
    (deviceAIntf deviceBIntf : Interface.t) (devBagentVer : string)
    (w : World.t) :
  exists paramsA paramsB ipsecA ipsecB w',
    prepareTunnelAddJob randomNum tunnelnum deviceAIntf deviceBIntf
                        devBagentVer w =
    (Ok ([Task.mk "agent" "add-tunnel" paramsA],
         [Task.mk "agent" "add-tunnel" paramsB]), w') /\
    Params.ipsec paramsA = Some ipsecA /\
    Params.ipsec paramsB = Some ipsecB /\
    let sa1 := TunnelParams.sa1 (generateTunnelParams tunnelnum) in
    let sa2 := TunnelParams.sa2 (generateTunnelParams tunnelnum) in
    let localA := Ipsec.local_sa ipsecA in
    let remoteA := Ipsec.remote_sa ipsecA in
    SA.spi localA = sa1 /\
    SA.spi remoteA = sa2 /\
    Ipsec.local_sa ipsecB =
      SA.mk sa2 (SA.crypto_key localA) (SA.integr_key localA)
            (SA.crypto_alg localA) (SA.integr_alg localA) /\
    Ipsec.remote_sa ipsecB =
      SA.mk sa1 (SA.crypto_key remoteA) (SA.integr_key remoteA)
            (SA.crypto_alg remoteA) (SA.integr_alg remoteA) /\
    SA.crypto_key localA = randomNum 32 16 (World.draws w) /\
    SA.crypto_key remoteA = randomNum 32 16 (World.draws w + 2)%nat.
Proof.
  unfold prepareTunnelAddJob, bind, generateRandomKeys, ret.
  do 5 eexists. split; [reflexivity |].
  cbn [Params.ipsec]. split; [reflexivity |]. split; [reflexivity |].
  cbn. repeat split; reflexivity.
Qed.

(** ** Running the external calls *)

Lemma external_run c w :
  external c w =
  (match head (World.faults w) with
   | Some (Some e) => Throw e
   | _ => Ok tt
   end, after c w).
Proof. unfold external. destruct (head (World.faults w)) as [[e|]|]; reflexivity. Qed.

Lemma list_find_firstAt (P : Tunnel.t -> Prop) `{!forall t, Decision (P t)} ts i t :
  list_find P ts = Some (i, t) <-> firstAt P ts i t.
Proof. unfold firstAt. apply list_find_Some. Qed.

Lemma firstAt_iff (P Q : Tunnel.t -> Prop) ts i t :
  (forall u, P u <-> Q u) -> firstAt P ts i t -> firstAt Q ts i t.
Proof.
  intros HPQ (Hl & HP & Hmin). split; [exact Hl|]. split; [apply HPQ, HP|].
  intros j u Hj Hlt HQ. apply (Hmin j u Hj Hlt). apply HPQ, HQ.
Qed.

Lemma findOneAndUpdate_run q upd ups new w :
  tunnelsModel_findOneAndUpdate q upd ups new w =
  match head (World.faults w) with
  | Some (Some e) => (Throw e, after TunnelsFindOneAndUpdate w)
  | _ =>
      match list_find (fun t => q t) (World.tunnels w) with
      | Some (i, doc) =>
          (Ok (Some (if new then upd doc else doc)),
           Upd.tunnels (fun ts => <[i := upd doc]> ts)
                       (after TunnelsFindOneAndUpdate w))
      | None =>
          match ups with
          | Some seed =>
              let doc := upd (seed (mintId (World.minted w))) in
              (Ok (if new then Some doc else None),
               Upd.minted S (Upd.tunnels (fun ts => ts ++ [doc])
                                         (after TunnelsFindOneAndUpdate w)))
          | None => (Ok None, after TunnelsFindOneAndUpdate w)
          end
      end
  end.
Proof.
  unfold tunnelsModel_findOneAndUpdate, bind. rewrite external_run.
  destruct (head (World.faults w)) as [[e|]|]; reflexivity.
Qed.

Lemma find_run q w :
  tunnelsModel_find q w =
  (match head (World.faults w) with
   | Some (Some e) => Throw e
   | _ => Ok (filter (fun t => q t) (World.tunnels w))
   end, after TunnelsFind w).
Proof.
  unfold tunnelsModel_find, bind. rewrite external_run.
  destruct (head (World.faults w)) as [[e|]|]; reflexivity.
Qed.

Lemma ids_run org gte lt inc w :
  tunnelIDsModel_findOneAndUpdate org gte lt inc w =
  match head (World.faults w) with
  | Some (Some e) => (Throw e, after TunnelIDsFindOneAndUpdate w)
  | _ =>
      match World.tunnelids w !! org with
      | Some c =>
          if (gte <=? c) && (c <? lt) then
            (Ok (c + inc),
             Upd.tunnelids (fun ids => <[org := c + inc]> ids)
                           (after TunnelIDsFindOneAndUpdate w))
          else (Throw E11000, after TunnelIDsFindOneAndUpdate w)
      | None =>
          (Ok inc, Upd.tunnelids (fun ids => <[org := inc]> ids)
                                 (after TunnelIDsFindOneAndUpdate w))
      end
  end.
Proof.
  unfold tunnelIDsModel_findOneAndUpdate, bind. rewrite external_run.
  destruct (head (World.faults w)) as [[e|]|]; reflexivity.
Qed.

Lemma addJob_run job w :
  deviceQueues_addJob job w =
  match head (World.faults w) with
  | Some (Some e) => (Throw e, after QueueAddJob w)
  | _ => (Ok job, Upd.queue (fun q => q ++ [job]) (after QueueAddJob w))
  end.
Proof.
  unfold deviceQueues_addJob, bind. rewrite external_run.
  destruct (head (World.faults w)) as [[e|]|]; reflexivity.
Qed.

Lemma quiet_head w : quiet w -> head (World.faults w) = None.
Proof. unfold quiet. intros ->. reflexivity. Qed.

Lemma quiet_after c w : quiet w -> quiet (after c w).
Proof. unfold quiet. cbn. intros ->. reflexivity. Qed.

Lemma answers_quiet w : quiet w -> answers w.
Proof. intros Hq e. rewrite (quiet_head w Hq). discriminate. Qed.

Lemma keyed_eqb org n t :
  String.eqb (Tunnel.org t) org && Z.eqb (Tunnel.num t) n <-> keyed org n t.
Proof.
  unfold keyed. rewrite andb_True, !Is_true_true, String.eqb_eq, Z.eqb_eq. tauto.
Qed.

Lemma peerAddr_eqb intf :
  (if String.eqb (Interface.PublicIP intf) "" then Interface.IPv4 intf
   else Interface.PublicIP intf) = peerAddr intf.
Proof.
  unfold peerAddr. destruct (String.eqb_spec (Interface.PublicIP intf) "");
    destruct (decide _); congruence.
Qed.

Lemma bind_Ok {A B} (m : M A) (k : A -> M B) w a w1 :
  m w = (Ok a, w1) -> bind m k w = k a w1.
Proof. unfold bind. intros ->. reflexivity. Qed.

Lemma bind_Throw {A B} (m : M A) (k : A -> M B) w e w1 :
  m w = (Throw e, w1) -> bind m k w = (Throw e, w1).
Proof. unfold bind. intros ->. reflexivity. Qed.

Lemma prepareTunnelAddJob_run rnd n ifA ifB ver w :
  exists paramsA paramsB,
    prepareTunnelAddJob rnd n ifA ifB ver w =
    (Ok ([Task.mk "agent" "add-tunnel" paramsA],
         [Task.mk "agent" "add-tunnel" paramsB]),
     Upd.draws (fun d => (d + 4)%nat) w) /\
    Params.tunnel_id paramsA = n /\
    Params.tunnel_id paramsB = n /\
    Params.src paramsA = Interface.IPv4 ifA /\
    Params.dst paramsA = peerAddr ifB /\
    Params.src paramsB = Interface.IPv4 ifB /\
    Params.dst paramsB = peerAddr ifA.
Proof.
  unfold prepareTunnelAddJob.
  do 2 eexists. split.
  - erewrite bind_Ok by (unfold generateRandomKeys; reflexivity).
    unfold ret. reflexivity.
  - cbn [Params.tunnel_id Params.src Params.dst].
    rewrite !peerAddr_eqb. repeat split; reflexivity.
Qed.

Lemma queueTunnel_quiet isAdd title tasksA tasksB user org mA mB oA oB w :
  quiet w ->
  exists jobA jobB w',
    queueTunnel isAdd title tasksA tasksB user org mA mB oA oB w =
    (Ok [jobA; jobB], w') /\
    Job.machineId jobA = mA /\ Job.machineId jobB = mB /\
    Job.tasks jobA = tasksA /\ Job.tasks jobB = tasksB /\
    Payload.target (Job.data jobA) = "deviceAconf" /\
    Payload.target (Job.data jobB) = "deviceBconf" /\
    quiet w' /\
    World.queue w' = World.queue w ++ [jobA; jobB] /\
    World.tunnels w' = World.tunnels w /\
    World.tunnelids w' = World.tunnelids w /\
    World.devices w' = World.devices w /\
    World.minted w' = World.minted w /\
    World.trace w' = World.trace w ++ [QueueAddJob; QueueAddJob].
Proof.
  intros Hq. unfold queueTunnel, try_catch.
  erewrite bind_Ok by (rewrite addJob_run, (quiet_head _ Hq); reflexivity).
  erewrite bind_Ok
    by (rewrite addJob_run, quiet_head;
        [reflexivity | unfold quiet in *; cbn; rewrite Hq; reflexivity]).
  unfold ret. do 3 eexists. split; [reflexivity |].
  unfold quiet in *. cbn. rewrite Hq, <- !app_assoc. cbn.
  repeat split; reflexivity.
Qed.

Lemma addTunnel_quiet rnd user org n A B ifA ifB w :
  quiet w ->
  exists jobs w',
    addTunnel rnd user org n A B ifA ifB w = (Ok jobs, w') /\
    addJobsFor n A B ifA ifB jobs /\
    quiet w' /\
    World.queue w' = World.queue w ++ jobs /\
    World.tunnelids w' = World.tunnelids w /\
    World.devices w' = World.devices w /\
    World.trace w' =
      World.trace w ++ [TunnelsFindOneAndUpdate; QueueAddJob; QueueAddJob] /\
    ((exists i doc,
        firstAt (keyed org n) (World.tunnels w) i doc /\
        World.tunnels w' =
          <[i := writtenTunnel (Tunnel._id doc) org n A B ifA ifB]>
            (World.tunnels w)) \/
     (Forall (fun t => ~ keyed org n t) (World.tunnels w) /\
      World.tunnels w' =
        World.tunnels w ++
        [writtenTunnel (mintId (World.minted w)) org n A B ifA ifB])).
Proof.
  intros Hq. unfold addTunnel.
  assert (Hrest : forall (w1 : World.t), quiet w1 ->
    exists jobs w',
      (let* tasks :=
         prepareTunnelAddJob rnd n ifA ifB (Versions.agent (Device.versions B)) in
       let* tunnelJobs :=
         queueTunnel true (tunnelTitle "Create" A B ifA ifB)
           (fst tasks) (snd tasks) user org
           (Device.machineId A) (Device.machineId B)
           (Device._id A) (Device._id B) in
       ret tunnelJobs)%js w1 = (Ok jobs, w') /\
      addJobsFor n A B ifA ifB jobs /\ quiet w' /\
      World.queue w' = World.queue w1 ++ jobs /\
      World.tunnelids w' = World.tunnelids w1 /\
      World.devices w' = World.devices w1 /\
      World.trace w' = World.trace w1 ++ [QueueAddJob; QueueAddJob] /\
      World.tunnels w' = World.tunnels w1).
  { intros w1 Hq1.
    destruct (prepareTunnelAddJob_run rnd n ifA ifB
                (Versions.agent (Device.versions B)) w1)
      as (pA & pB & Hprep & HtA & HtB & HsA & HdA & HsB & HdB).
    erewrite bind_Ok by exact Hprep. cbn [fst snd].
    edestruct (queueTunnel_quiet true) as
      (jobA & jobB & w' & Hrun & HmA & HmB & HkA & HkB & HgA & HgB &
       Hq' & Hqu & Hts & Hids & Hdev & Hmint & Htr);
      [| erewrite bind_Ok by exact Hrun].
    { unfold quiet in *. cbn. exact Hq1. }
    unfold ret. exists [jobA; jobB], w'. split; [reflexivity |].
    split.
    { exists jobA, jobB, pA, pB. repeat split; assumption. }
    repeat split; assumption. }
  unfold bind at 1. rewrite findOneAndUpdate_run, (quiet_head w Hq).
  destruct (list_find _ (World.tunnels w)) as [[i doc]|] eqn:Hfind.
  - apply list_find_firstAt in Hfind.
    eapply firstAt_iff in Hfind; [| apply keyed_eqb].
    match goal with |- context [Upd.tunnels ?f ?w0] =>
      set (w1 := Upd.tunnels f w0) end.
    destruct (Hrest w1 (quiet_after _ _ Hq))
      as (jobs & w' & Hrun & H1 & H2 & H3 & H4 & H5 & H6 & H7).
    exists jobs, w'. split; [exact Hrun |].
    cbn in H3, H4, H5, H6, H7. rewrite <- app_assoc in H6.
    repeat split; try assumption.
    left. exists i, doc. split; [exact Hfind |]. rewrite H7.
    destruct Hfind as (_ & (Ho & Hn) & _). unfold writtenTunnel.
    rewrite Ho, Hn. reflexivity.
  - apply list_find_None in Hfind.
    cbn zeta.
    match goal with |- context [Upd.minted ?f ?w0] =>
      set (w1 := Upd.minted f w0) end.
    destruct (Hrest w1 (quiet_after _ _ Hq))
      as (jobs & w' & Hrun & H1 & H2 & H3 & H4 & H5 & H6 & H7).
    exists jobs, w'. split; [exact Hrun |].
    cbn in H3, H4, H5, H6, H7. rewrite <- app_assoc in H6.
    repeat split; try assumption.
    right. split; [| exact H7].
    eapply Forall_impl; [exact Hfind |]. intros t Ht Hk. apply Ht, keyed_eqb, Hk.
Qed.

(** ** Completion callback *)

Lemma eqb_payload res t :
  String.eqb (Tunnel.deviceA t) (Payload.deviceA res) &&
  String.eqb (Tunnel.deviceB t) (Payload.deviceB res) &&
  String.eqb (Tunnel.org t) (Payload.org res) <-> matchesPayload res t.
Proof.
  unfold matchesPayload.
  rewrite !andb_True, !Is_true_true, !String.eqb_eq. tauto.
Qed.

Lemma Tunnel_set_confirmedAs target t :
  target = "deviceAconf" \/ target = "deviceBconf" ->
  confirmedAs target t (Tunnel_set target true t).
Proof.
  intros [-> | ->]; unfold confirmedAs, Tunnel_set; cbn;
    repeat split; try reflexivity; try discriminate.
Qed.

Section Update.
Variables (org devAOid devBOid target : string) (isAdd : bool).
Variable w : World.t.

Let w' := snd (updateTunnelIsConnected org devAOid devBOid target isAdd w).
Let P (t : Tunnel.t) : Prop :=
  Tunnel.deviceA t = devAOid /\ Tunnel.deviceB t = devBOid /\
  Tunnel.org t = org.
Let updated : Prop :=
  exists i t, firstAt P (World.tunnels w) i t /\
    World.tunnels w' = <[i := Tunnel_set target isAdd t]> (World.tunnels w).

Lemma updateTunnelIsConnected_effect :
  World.tunnelids w' = World.tunnelids w /\
  World.queue w' = World.queue w /\
  World.devices w' = World.devices w /\
  (World.tunnels w' = World.tunnels w \/ updated) /\
  (answers w -> Exists P (World.tunnels w) -> updated).
Proof.
  assert (HP : forall u,
    String.eqb (Tunnel.deviceA u) devAOid &&
    String.eqb (Tunnel.deviceB u) devBOid &&
    String.eqb (Tunnel.org u) org <-> P u).
  { intros u. unfold P.
    rewrite !andb_True, !Is_true_true, !String.eqb_eq. tauto. }
  unfold updated, w', updateTunnelIsConnected, bind.
  rewrite findOneAndUpdate_run.
  destruct (head (World.faults w)) as [[e|]|] eqn:Hf;
    [ cbn; repeat split; [left; reflexivity |];
      intros Ha; exfalso; apply (Ha e), Hf | ..];
    (destruct (list_find _ (World.tunnels w)) as [[i doc]|] eqn:Hfind; cbn;
     [ assert (Hfirst : firstAt P (World.tunnels w) i doc)
         by (apply list_find_firstAt in Hfind;
             eapply firstAt_iff; [| exact Hfind]; exact HP);
       repeat split; [right |]; eauto
     | repeat split; [left; reflexivity |];
       intros _ Hex; exfalso;
       apply list_find_None in Hfind;
       apply Exists_exists in Hex; destruct Hex as (t & Hin & Hm);
       rewrite Forall_forall in Hfind; apply (Hfind t Hin);
       apply HP, Hm ]).
Qed.
End Update.

(** C10: for a well-formed payload, [completeTunnelAdd] touches the
    tunnels collection only, and there at most the first document whose
    [deviceA], [deviceB] and [org] are those of the payload, whatever its
    [isActive] and [num]; of that document it sets the confirmation flag
    named by [target] and leaves every other field as it was.  When the
    store answers and such a document exists, it is updated. *)
Theorem completeTunnelAdd_one_flag (jobId : Z) (res : Payload.t) (w : World.t) :
  wellFormed res ->
  let w' := completeTunnelAdd jobId (Some res) w in
  let updated :=
    exists i t t',
      firstAt (matchesPayload res) (World.tunnels w) i t /\
      confirmedAs (Payload.target res) t t' /\
      World.tunnels w' = <[i := t']> (World.tunnels w) in
  World.tunnelids w' = World.tunnelids w /\
  World.queue w' = World.queue w /\
  World.devices w' = World.devices w /\
  (World.tunnels w' = World.tunnels w \/ updated) /\
  (answers w -> Exists (matchesPayload res) (World.tunnels w) -> updated).
Proof.
  intros (HA & HB & HU & HO & HT) w' updated.
  assert (Hw' : w' = snd (updateTunnelIsConnected (Payload.org res)
                   (Payload.deviceA res) (Payload.deviceB res)
                   (Payload.target res) true w)).
  { subst w'. unfold completeTunnelAdd. rewrite HA, HB, HU, HO.
    assert (HTt : JS.truthy (Payload.target res) = true)
      by (destruct HT as [-> | ->]; reflexivity).
    rewrite HTt. reflexivity. }
  destruct (updateTunnelIsConnected_effect (Payload.org res)
              (Payload.deviceA res) (Payload.deviceB res)
              (Payload.target res) true w) as (H1 & H2 & H3 & H4 & H5).
  rewrite <- Hw' in H1, H2, H3, H4, H5.
  assert (Hup : (exists i t,
             firstAt (matchesPayload res) (World.tunnels w) i t /\
             World.tunnels w' =
               <[i := Tunnel_set (Payload.target res) true t]> (World.tunnels w))
          -> updated).
  { intros (i & t & Hfirst & Heq).
    exists i, t, (Tunnel_set (Payload.target res) true t).
    split; [exact Hfirst |]. split; [| exact Heq].
    apply Tunnel_set_confirmedAs, HT. }
  repeat split; try assumption.
  - destruct H4 as [H4 | H4]; [left; exact H4 | right; apply Hup, H4].
  - intros Ha Hex. apply Hup, H5; assumption.
Qed.

(** ** Counting calls *)

Lemma calls_app c w w' l :
  World.trace w' = World.trace w ++ l ->
  calls c w' = (calls c w + length (filter (fun c' => c' = c) l))%nat.
Proof. unfold calls. intros ->. rewrite filter_app, length_app. reflexivity. Qed.

Ltac count_calls :=
  match goal with
  | |- context [length (filter ?P ?l)] =>
      let k := eval vm_compute in (length (filter P l)) in
      change (length (filter P l)) with k
  end.

Lemma calls_after_same c w : calls c (after c w) = S (calls c w).
Proof.
  unfold calls. cbn [World.trace after Upd.trace Upd.faults].
  rewrite filter_app, length_app, filter_cons, filter_nil, decide_True
    by reflexivity.
  cbn. lia.
Qed.

Lemma calls_after_other c c' w : c' <> c -> calls c (after c' w) = calls c w.
Proof.
  intros Hne. unfold calls. cbn [World.trace after Upd.trace Upd.faults].
  rewrite filter_app, length_app, filter_cons, filter_nil, decide_False
    by exact Hne.
  cbn. lia.
Qed.

Lemma calls_tunnels c f w : calls c (Upd.tunnels f w) = calls c w.
Proof. reflexivity. Qed.
Lemma calls_tunnelids c f w : calls c (Upd.tunnelids f w) = calls c w.
Proof. reflexivity. Qed.
Lemma calls_queue c f w : calls c (Upd.queue f w) = calls c w.
Proof. reflexivity. Qed.
Lemma calls_draws c f w : calls c (Upd.draws f w) = calls c w.
Proof. reflexivity. Qed.
Lemma calls_minted c f w : calls c (Upd.minted f w) = calls c w.
Proof. reflexivity. Qed.

Create Rewrite HintDb calls.
Hint Rewrite calls_tunnels calls_tunnelids calls_queue calls_draws
     calls_minted calls_after_same : calls.
Hint Rewrite calls_after_other using discriminate : calls.


(** ** One pairing *)

Lemma found_length (q : Tunnel.t -> bool) (P : Tunnel.t -> Prop) ts :
  (forall t, q t <-> P t) ->
  (length (filter (fun t => q t) ts) =? 0)%nat = true <-> ~ Exists P ts.
Proof.
  intros HqP. induction ts as [| t ts IH].
  - rewrite filter_nil, Exists_nil. cbn. tauto.
  - rewrite filter_cons, Exists_cons. destruct (decide (q t)) as [Hq | Hq].
    + cbn. split; [discriminate |]. intros Hn. exfalso. apply Hn. left.
      apply HqP, Hq.
    + rewrite IH. rewrite HqP in Hq. tauto.
Qed.

Lemma list_find_none_iff (q : Tunnel.t -> bool) (P : Tunnel.t -> Prop) ts :
  (forall t, q t <-> P t) ->
  list_find (fun t => q t) ts = None <-> Forall (fun t => ~ P t) ts.
Proof.
  intros HqP. rewrite list_find_None. apply Forall_proper; [| reflexivity].
  intros t. rewrite HqP. reflexivity.
Qed.

Lemma list_find_some_iff (q : Tunnel.t -> bool) (P : Tunnel.t -> Prop) ts i t :
  (forall t, q t <-> P t) ->
  list_find (fun t => q t) ts = Some (i, t) <-> firstAt P ts i t.
Proof.
  intros HqP. rewrite list_find_firstAt.
  split; apply firstAt_iff; intros u; rewrite HqP; reflexivity.
Qed.

Section Promise.
Variable rnd : Z -> Z -> nat -> string.
Variables (user org : string) (A B : Device.t) (ifA ifB : Interface.t).

Let a := Device._id A.
Let b := Device._id B.

Lemma activeBetween_eqb t :
  (String.eqb (Tunnel.deviceA t) (Device._id A) &&
   String.eqb (Tunnel.deviceB t) (Device._id B) ||
   String.eqb (Tunnel.deviceB t) (Device._id A) &&
   String.eqb (Tunnel.deviceA t) (Device._id B)) &&
  Bool.eqb (Tunnel.isActive t) true &&
  String.eqb (Tunnel.org t) org <-> activeBetween org a b t.
Proof.
  unfold activeBetween, joins, a, b.
  rewrite !andb_True, orb_True, !andb_True, !Is_true_true, !String.eqb_eq,
    Bool.eqb_true_iff.
  tauto.
Qed.

Lemma inactiveIn_eqb t :
  Bool.eqb (Tunnel.isActive t) false && String.eqb (Tunnel.org t) org
  <-> inactiveIn org t.
Proof.
  unfold inactiveIn.
  rewrite andb_True, !Is_true_true, String.eqb_eq, Bool.eqb_true_iff. tauto.
Qed.

Lemma getTunnelPromise_skip w :
  answers w -> connected w org a b ->
  pairing rnd user org A B ifA ifB w =
  (Resolved VTrue, after TunnelsFind w).
Proof.
  intros Ha Hc. unfold pairing, getTunnelPromise, getTunnelPromise_then. rewrite find_run.
  destruct (head (World.faults w)) as [[e|]|] eqn:Hf;
    [exfalso; apply (Ha e), Hf | ..];
    (destruct (length _ =? 0)%nat eqn:Hlen; [| reflexivity];
     exfalso; apply (found_length _ _ _ activeBetween_eqb) in Hlen;
     apply Hlen, Hc).
Qed.

Lemma getTunnelPromise_not_true w :
  ~ connected w org a b ->
  fst (pairing rnd user org A B ifA ifB w) <> Resolved VTrue.
Proof.
  intros Hc. apply (found_length _ _ _ activeBetween_eqb) in Hc.
  unfold pairing, getTunnelPromise, getTunnelPromise_then. rewrite find_run.
  destruct (head (World.faults w)) as [[e|]|]; [cbn; discriminate | ..];
    (rewrite Hc;
     repeat match goal with
            | |- context [match ?x with _ => _ end] => destruct x
            end; cbn; discriminate).
Qed.

Lemma getTunnelPromise_reuse w i doc :
  quiet w -> ~ connected w org a b ->
  firstAt (inactiveIn org) (World.tunnels w) i doc ->
  exists jobs w' j doc',
    pairing rnd user org A B ifA ifB w = (Resolved (VJobs jobs), w') /\
    addJobsFor (Tunnel.num doc) A B ifA ifB jobs /\
    quiet w' /\
    World.queue w' = World.queue w ++ jobs /\
    World.tunnelids w' = World.tunnelids w /\
    World.devices w' = World.devices w /\
    World.trace w' =
      World.trace w ++ [TunnelsFind; TunnelsFindOneAndUpdate;
                        TunnelsFindOneAndUpdate; QueueAddJob; QueueAddJob] /\
    let claimed := <[i := Tunnel_set "isActive" true doc]> (World.tunnels w) in
    firstAt (keyed org (Tunnel.num doc)) claimed j doc' /\
    World.tunnels w' =
      <[j := writtenTunnel (Tunnel._id doc') org (Tunnel.num doc) A B ifA ifB]>
        claimed.
Proof.
  intros Hq Hc Hfirst.
  apply (found_length _ _ _ activeBetween_eqb) in Hc.
  apply (list_find_some_iff _ _ _ _ _ inactiveIn_eqb) in Hfirst.
  unfold pairing, getTunnelPromise, getTunnelPromise_then.
  rewrite find_run, (quiet_head w Hq), Hc.
  rewrite findOneAndUpdate_run, (quiet_head _ (quiet_after _ _ Hq)).
  cbn [World.tunnels after Upd.trace Upd.faults]. rewrite Hfirst.
  match goal with |- context [addTunnel _ _ _ _ _ _ _ _ ?w0] =>
    set (w1 := w0) end.
  assert (Hq1 : quiet w1) by (unfold quiet in *; cbn; rewrite Hq; reflexivity).
  destruct (addTunnel_quiet rnd user org (Tunnel.num doc) A B ifA ifB w1 Hq1)
    as (jobs & w' & Hrun & Hjobs & Hq' & Hqu & Hids & Hdev & Htr & Hts).
  rewrite Hrun.
  destruct Hts as [(j & doc' & Hj & Hts) | (Hnone & _)].
  - exists jobs, w', j, doc'. split; [reflexivity |].
    cbn in Hqu, Hids, Hdev, Htr, Hj, Hts. rewrite <- !app_assoc in Htr.
    repeat split; try assumption; apply Hj.
  - exfalso. cbn in Hnone.
    apply (list_find_some_iff _ _ _ _ _ inactiveIn_eqb) in Hfirst.
    destruct Hfirst as (Hi & (_ & Horg) & _).
    rewrite Forall_forall in Hnone.
    apply (Hnone (Tunnel_set "isActive" true doc)).
    + apply list_elem_of_lookup. exists i.
      apply list_lookup_insert_eq. eapply lookup_lt_Some, Hi.
    + split; [exact Horg | reflexivity].
Qed.

Let next := nextNumber org.

Lemma getTunnelPromise_mint w n :
  quiet w -> ~ connected w org a b ->
  Forall (fun t => ~ inactiveIn org t) (World.tunnels w) ->
  next (World.tunnelids w) = Some n ->
  exists jobs w',
    pairing rnd user org A B ifA ifB w = (Resolved (VJobs jobs), w') /\
    addJobsFor n A B ifA ifB jobs /\
    quiet w' /\
    World.queue w' = World.queue w ++ jobs /\
    World.tunnelids w' = <[org := n]> (World.tunnelids w) /\
    World.devices w' = World.devices w /\
    World.trace w' =
      World.trace w ++ [TunnelsFind; TunnelsFindOneAndUpdate;
                        TunnelIDsFindOneAndUpdate;
                        TunnelsFindOneAndUpdate; QueueAddJob; QueueAddJob] /\
    ((exists i doc,
        firstAt (keyed org n) (World.tunnels w) i doc /\
        World.tunnels w' =
          <[i := writtenTunnel (Tunnel._id doc) org n A B ifA ifB]>
            (World.tunnels w)) \/
     (Forall (fun t => ~ keyed org n t) (World.tunnels w) /\
      World.tunnels w' =
        World.tunnels w ++
        [writtenTunnel (mintId (World.minted w)) org n A B ifA ifB])).
Proof.
  intros Hq Hc Hnone Hnext.
  apply (found_length _ _ _ activeBetween_eqb) in Hc.
  apply (list_find_none_iff _ _ _ inactiveIn_eqb) in Hnone.
  unfold pairing, getTunnelPromise, getTunnelPromise_then.
  rewrite find_run, (quiet_head w Hq), Hc.
  rewrite findOneAndUpdate_run, (quiet_head _ (quiet_after _ _ Hq)).
  cbn [World.tunnels after Upd.trace Upd.faults]. rewrite Hnone.
  rewrite ids_run, (quiet_head _ (quiet_after _ _ (quiet_after _ _ Hq))).
  cbn [World.tunnelids after Upd.trace Upd.faults].
  assert (Hgo : forall w1 : World.t,
    quiet w1 -> World.queue w1 = World.queue w ->
    World.tunnelids w1 = <[org := n]> (World.tunnelids w) ->
    World.devices w1 = World.devices w ->
    World.tunnels w1 = World.tunnels w ->
    World.minted w1 = World.minted w ->
    World.trace w1 = World.trace w ++ [TunnelsFind; TunnelsFindOneAndUpdate;
                        TunnelIDsFindOneAndUpdate] ->
    exists jobs w',
    match addTunnel rnd user org n A B ifA ifB w1 with
    | (Ok tunnelJobs, w2) => (Resolved (VJobs tunnelJobs), w2)
    | (Throw _, w2) => (Rejected (Error.new "Tunnel ID not found"), w2)
    end = (Resolved (VJobs jobs), w') /\
    addJobsFor n A B ifA ifB jobs /\
    quiet w' /\
    World.queue w' = World.queue w ++ jobs /\
    World.tunnelids w' = <[org := n]> (World.tunnelids w) /\
    World.devices w' = World.devices w /\
    World.trace w' =
      World.trace w ++ [TunnelsFind; TunnelsFindOneAndUpdate;
                        TunnelIDsFindOneAndUpdate;
                        TunnelsFindOneAndUpdate; QueueAddJob; QueueAddJob] /\
    ((exists i doc,
        firstAt (keyed org n) (World.tunnels w) i doc /\
        World.tunnels w' =
          <[i := writtenTunnel (Tunnel._id doc) org n A B ifA ifB]>
            (World.tunnels w)) \/
     (Forall (fun t => ~ keyed org n t) (World.tunnels w) /\
      World.tunnels w' =
        World.tunnels w ++
        [writtenTunnel (mintId (World.minted w)) org n A B ifA ifB]))).
  { intros w1 Hq1 E1 E2 E3 E4 E5 E6.
    destruct (addTunnel_quiet rnd user org n A B ifA ifB w1 Hq1)
      as (jobs & w' & Hrun & Hjobs & Hq' & Hqu & Hids & Hdev & Htr & Hts).
    rewrite Hrun. exists jobs, w'. split; [reflexivity |].
    rewrite E1 in Hqu. rewrite E2 in Hids. rewrite E3 in Hdev.
    rewrite E6, <- app_assoc in Htr. rewrite E4, E5 in Hts.
    repeat split; assumption. }
  unfold next, nextNumber in Hnext.
  destruct (World.tunnelids w !! org) as [c |] eqn:Hc0.
  - destruct (decide (0 <= c < 15000)) as [Hr | Hr]; [| discriminate].
    injection Hnext as <-.
    replace ((0 <=? c) && (c <? 15000)) with true
      by (symmetry; apply andb_true_iff; split;
          [apply Z.leb_le | apply Z.ltb_lt]; lia).
    apply Hgo; unfold quiet in *; cbn; try reflexivity.
    + rewrite Hq. reflexivity.
    + rewrite <- !app_assoc. reflexivity.
  - injection Hnext as <-.
    apply Hgo; unfold quiet in *; cbn; try reflexivity.
    + rewrite Hq. reflexivity.
    + rewrite <- !app_assoc. reflexivity.
Qed.

Lemma getTunnelPromise_exhausted w :
  quiet w -> ~ connected w org a b ->
  Forall (fun t => ~ inactiveIn org t) (World.tunnels w) ->
  next (World.tunnelids w) = None ->
  exists w',
    pairing rnd user org A B ifA ifB w =
    (Rejected (Error.new "Tunnel ID not found"), w') /\
    quiet w' /\
    World.queue w' = World.queue w /\
    World.tunnelids w' = World.tunnelids w /\
    World.tunnels w' = World.tunnels w /\
    World.devices w' = World.devices w /\
    World.trace w' =
      World.trace w ++ [TunnelsFind; TunnelsFindOneAndUpdate;
                        TunnelIDsFindOneAndUpdate; TunnelIDsFindOneAndUpdate].
Proof.
  intros Hq Hc Hnone Hnext.
  apply (found_length _ _ _ activeBetween_eqb) in Hc.
  apply (list_find_none_iff _ _ _ inactiveIn_eqb) in Hnone.
  unfold pairing, getTunnelPromise, getTunnelPromise_then.
  rewrite find_run, (quiet_head w Hq), Hc.
  rewrite findOneAndUpdate_run, (quiet_head _ (quiet_after _ _ Hq)).
  cbn [World.tunnels after Upd.trace Upd.faults]. rewrite Hnone.
  rewrite ids_run, (quiet_head _ (quiet_after _ _ (quiet_after _ _ Hq))).
  cbn [World.tunnelids after Upd.trace Upd.faults].
  unfold next, nextNumber in Hnext.
  destruct (World.tunnelids w !! org) as [c |] eqn:Hc0; [| discriminate].
  destruct (decide (0 <= c < 15000)) as [Hr | Hr]; [discriminate |].
  replace ((0 <=? c) && (c <? 15000)) with false
    by (symmetry; apply andb_false_iff;
        destruct (Z.leb_spec 0 c); [right; apply Z.ltb_ge; lia | left; reflexivity]).
  cbn [E11000 Error.code]. rewrite bool_decide_eq_true_2 by reflexivity.
  rewrite ids_run. unfold quiet in Hq.
  cbn [World.faults World.tunnelids after Upd.trace Upd.faults]. rewrite Hq.
  cbn [tail head]. rewrite Hc0.
  replace ((0 <=? c) && (c <? 15000)) with false
    by (symmetry; apply andb_false_iff;
        destruct (Z.leb_spec 0 c); [right; apply Z.ltb_ge; lia | left; reflexivity]).
  eexists. split; [reflexivity |].
  unfold quiet. cbn. rewrite Hq, <- !app_assoc. repeat split; reflexivity.
Qed.

Lemma ids_calls o g l i w :
  calls TunnelIDsFindOneAndUpdate
        (snd (tunnelIDsModel_findOneAndUpdate o g l i w)) =
  S (calls TunnelIDsFindOneAndUpdate w).
Proof.
  rewrite ids_run.
  repeat match goal with
         | |- context [match ?x with _ => _ end] => destruct x
         end; cbn [snd]; autorewrite with calls; reflexivity.
Qed.

Lemma addTunnel_calls n w :
  calls TunnelIDsFindOneAndUpdate
        (snd (addTunnel rnd user org n A B ifA ifB w)) =
  calls TunnelIDsFindOneAndUpdate w.
Proof.
  unfold addTunnel, bind, queueTunnel, try_catch, bind.
  rewrite findOneAndUpdate_run.
  unfold prepareTunnelAddJob, bind, generateRandomKeys, ret, throw.
  repeat match goal with
         | |- context [match head ?x with _ => _ end] =>
             destruct (head x) as [[?|]|]
         | |- context [match list_find ?P ?x with _ => _ end] =>
             destruct (list_find P x) as [[? ?]|]
         | |- context [deviceQueues_addJob ?j ?w0] =>
             rewrite (addJob_run j w0)
         end; cbn [snd]; autorewrite with calls; reflexivity.
Qed.

(** C9: when the first increment of the counter fails with code 11000 it
    is tried a second time and no more; the pairing fails for good when
    that second call fails, with whatever error, and succeeds when it
    gives a number.  A first failure with any other code fails the
    pairing after that one call. *)
Theorem getTunnelPromise_retry w e fs :
  ~ connected w org a b ->
  Forall (fun t => ~ inactiveIn org t) (World.tunnels w) ->
  World.faults w = None :: None :: Some e :: fs ->
  let p := pairing rnd user org A B ifA ifB w in
  let attempts :=
    (calls TunnelIDsFindOneAndUpdate (snd p) -
     calls TunnelIDsFindOneAndUpdate w)%nat in
  (Error.code e <> Some 11000 -> attempts = 1%nat /\ fatal w p) /\
  (Error.code e = Some 11000 ->
   attempts = 2%nat /\
   (forall e2, head fs = Some (Some e2) -> fatal w p) /\
   (head fs = Some None \/ fs = [] ->
    nextNumber org (World.tunnelids w) = None -> fatal w p) /\
   (fs = [] -> forall n,
    nextNumber org (World.tunnelids w) = Some n ->
    exists jobs,
      fst p = Resolved (VJobs jobs) /\
      addJobsFor n A B ifA ifB jobs /\
      World.tunnelids (snd p) = <[org := n]> (World.tunnelids w) /\
      World.queue (snd p) = World.queue w ++ jobs)).
Proof.
  intros Hc Hnone Hf p attempts.
  apply (found_length _ _ _ activeBetween_eqb) in Hc.
  apply (list_find_none_iff _ _ _ inactiveIn_eqb) in Hnone.
  assert (Hp : p =
    if bool_decide (Error.code e = Some 11000) then
      match
        tunnelIDsModel_findOneAndUpdate org 0 15000 1
          (after TunnelIDsFindOneAndUpdate
             (after TunnelsFindOneAndUpdate (after TunnelsFind w)))
      with
      | (Ok tunnelnum, w1) =>
          match addTunnel rnd user org tunnelnum A B ifA ifB w1 with
          | (Ok tunnelJobs, w2) => (Resolved (VJobs tunnelJobs), w2)
          | (Throw _, w2) => (Unsettled, w2)
          end
      | (Throw _, w1) => (Rejected (Error.new "Tunnel ID not found"), w1)
      end
    else
      (Rejected (Error.new "Tunnel ID not found"),
       after TunnelIDsFindOneAndUpdate
         (after TunnelsFindOneAndUpdate (after TunnelsFind w)))).
  { subst p. unfold pairing, getTunnelPromise, getTunnelPromise_then.
    rewrite find_run, Hf. cbn [head]. rewrite Hc.
    rewrite findOneAndUpdate_run.
    cbn [World.faults World.tunnels after Upd.trace Upd.faults].
    rewrite Hf. cbn [tail head]. rewrite Hnone.
    rewrite ids_run.
    cbn [World.faults World.tunnels after Upd.trace Upd.faults].
    rewrite Hf. cbn [tail head]. reflexivity. }
  split.
  - intros Hcode. rewrite bool_decide_eq_false_2 in Hp by exact Hcode.
    subst attempts. rewrite Hp. cbn [fst snd]. split.
    + rewrite (calls_app _ w _ [TunnelsFind; TunnelsFindOneAndUpdate;
                                TunnelIDsFindOneAndUpdate])
        by (cbn; rewrite <- !app_assoc; reflexivity).
      count_calls. lia.
    + repeat split; reflexivity.
  - intros Hcode. rewrite bool_decide_eq_true_2 in Hp by exact Hcode.
    pose proof Hp as Hattempts.
    rewrite ids_run in Hp.
    cbn [World.faults World.tunnels World.tunnelids after Upd.trace Upd.faults]
      in Hp.
    rewrite Hf in Hp. cbn [tail] in Hp.
    split; [| split; [| split]].
    + subst attempts. rewrite Hattempts.
      match goal with |- context [tunnelIDsModel_findOneAndUpdate ?o ?g ?l ?i ?w0] =>
        pose proof (ids_calls o g l i w0) as Hids;
        destruct (tunnelIDsModel_findOneAndUpdate o g l i w0) as [[n | e'] w1]
      end; cbn [snd] in Hids.
      * pose proof (addTunnel_calls n w1) as Hadd.
        destruct (addTunnel rnd user org n A B ifA ifB w1) as [[jobs | e'] w2];
          cbn [snd] in Hadd |- *; rewrite Hadd, Hids;
          autorewrite with calls; lia.
      * cbn [snd]. rewrite Hids. autorewrite with calls. lia.
    + intros e2 He2. rewrite He2 in Hp. rewrite Hp.
      repeat split; reflexivity.
    + intros Hfs Hnext. unfold nextNumber in Hnext.
      destruct (World.tunnelids w !! org) as [c |] eqn:Hc0; [| discriminate].
      destruct (decide (0 <= c < 15000)) as [Hr | Hr]; [discriminate |].
      replace ((0 <=? c) && (c <? 15000)) with false in Hp
        by (symmetry; apply andb_false_iff;
            destruct (Z.leb_spec 0 c);
            [right; apply Z.ltb_ge; lia | left; reflexivity]).
      destruct Hfs as [Hfs | Hfs]; rewrite Hfs in Hp; cbn [head] in Hp;
        rewrite Hp; repeat split; reflexivity.
    + intros -> n Hnext. cbn [head tail] in Hp.
      assert (Hgo : forall w1 : World.t,
        quiet w1 -> World.queue w1 = World.queue w ->
        World.tunnelids w1 = <[org := n]> (World.tunnelids w) ->
        p = match addTunnel rnd user org n A B ifA ifB w1 with
            | (Ok tunnelJobs, w2) => (Resolved (VJobs tunnelJobs), w2)
            | (Throw _, w2) => (Unsettled, w2)
            end ->
        exists jobs,
          fst p = Resolved (VJobs jobs) /\
          addJobsFor n A B ifA ifB jobs /\
          World.tunnelids (snd p) = <[org := n]> (World.tunnelids w) /\
          World.queue (snd p) = World.queue w ++ jobs).
      { intros w1 Hq1 E1 E2 ->.
        destruct (addTunnel_quiet rnd user org n A B ifA ifB w1 Hq1)
          as (jobs & w' & Hrun & Hjobs & _ & Hqu & Hids & _).
        rewrite Hrun. exists jobs. cbn [fst snd].
        rewrite Hqu, Hids, E1, E2. repeat split; [exact Hjobs]. }
      unfold nextNumber in Hnext.
      destruct (World.tunnelids w !! org) as [c |] eqn:Hc0.
      * destruct (decide (0 <= c < 15000)) as [Hr | Hr]; [| discriminate].
        injection Hnext as <-.
        replace ((0 <=? c) && (c <? 15000)) with true in Hp
          by (symmetry; apply andb_true_iff; split;
              [apply Z.leb_le | apply Z.ltb_lt]; lia).
        eapply Hgo; [| | | exact Hp]; unfold quiet; cbn; try reflexivity.
        rewrite Hf. reflexivity.
      * injection Hnext as <-.
        eapply Hgo; [| | | exact Hp]; unfold quiet; cbn; try reflexivity.
        rewrite Hf. reflexivity.
Qed.
End Promise.

(** ** Allocation *)

Lemma written_elem_of (ts ts' : list Tunnel.t) org n A B ifA ifB oid0 :
  ((exists i doc,
      firstAt (keyed org n) ts i doc /\
      ts' = <[i := writtenTunnel (Tunnel._id doc) org n A B ifA ifB]> ts) \/
   (Forall (fun t => ~ keyed org n t) ts /\
    ts' = ts ++ [writtenTunnel oid0 org n A B ifA ifB])) ->
  exists oid, writtenTunnel oid org n A B ifA ifB ∈ ts'.
Proof.
  intros [(i & doc & (Hi & _) & ->) | (_ & ->)].
  - exists (Tunnel._id doc). apply list_elem_of_lookup. exists i.
    apply list_lookup_insert_eq. eapply lookup_lt_Some, Hi.
  - exists oid0. apply elem_of_app. right. apply list_elem_of_singleton.
    reflexivity.
Qed.

(** C2, as the code has it: with no deleted tunnel to reuse, the
    allocation makes one call that increments the counter of the
    organisation and takes the value after the increment as the tunnel
    number: 1 when the organisation had no counter, [c + 1] when the
    counter stood at [c] with [0 <= c < 15000], so that the counter never
    passes 15000.  A counter outside that range gives no number: the
    promise is rejected and nothing is written or queued. *)
Theorem allocation_mints_post_increment
    (rnd : Z -> Z -> nat -> string) (user org : string)
    (A B : Device.t) (ifA ifB : Interface.t) (w : World.t) :
  quiet w ->
  ~ connected w org (Device._id A) (Device._id B) ->
  Forall (fun t => ~ inactiveIn org t) (World.tunnels w) ->
  let p := pairing rnd user org A B ifA ifB w in
  let minted (n : Z) :=
    exists jobs oid,
      fst p = Resolved (VJobs jobs) /\
      addJobsFor n A B ifA ifB jobs /\
      writtenTunnel oid org n A B ifA ifB ∈ World.tunnels (snd p) /\
      World.tunnelids (snd p) = <[org := n]> (World.tunnelids w) /\
      calls TunnelIDsFindOneAndUpdate (snd p) =
        S (calls TunnelIDsFindOneAndUpdate w) in
  (World.tunnelids w !! org = None -> minted 1) /\
  (forall c, World.tunnelids w !! org = Some c -> 0 <= c < 15000 ->
             minted (c + 1) /\ c + 1 <= 15000) /\
  (forall c, World.tunnelids w !! org = Some c -> ~ 0 <= c < 15000 ->
             fatal w p).
Proof.
  intros Hq Hc Hnone p minted.
  assert (Hmint : forall n, nextNumber org (World.tunnelids w) = Some n ->
                            minted n).
  { intros n Hn.
    destruct (getTunnelPromise_mint rnd user org A B ifA ifB w n Hq Hc Hnone Hn)
      as (jobs & w' & Hrun & Hjobs & _ & _ & Hids & _ & Htr & Hts).
    apply written_elem_of in Hts. destruct Hts as (oid & Hin).
    exists jobs, oid. subst p. rewrite Hrun. cbn [fst snd].
    repeat split; try assumption.
    rewrite (calls_app _ w _ _ Htr). count_calls. lia. }
  split; [| split].
  - intros Hnone'. apply Hmint. unfold nextNumber. rewrite Hnone'. reflexivity.
  - intros c Hc0 Hr. split; [| lia]. apply Hmint. unfold nextNumber.
    rewrite Hc0, decide_True by exact Hr. reflexivity.
  - intros c Hc0 Hr.
    destruct (getTunnelPromise_exhausted rnd user org A B ifA ifB w Hq Hc Hnone)
      as (w' & Hrun & _ & Hqu & Hids & Hts & _).
    { unfold nextNumber. rewrite Hc0, decide_False by exact Hr. reflexivity. }
    subst p. unfold fatal. rewrite Hrun. cbn [fst snd].
    repeat split; assumption.
Qed.

Lemma Exists_firstAt (P : Tunnel.t -> Prop) `{!forall t, Decision (P t)} ts :
  Exists P ts -> exists i t, firstAt P ts i t.
Proof.
  intros Hex. apply Exists_exists in Hex. destruct Hex as (t & Hin & HP).
  destruct (list_find_elem_of P ts t Hin HP) as ((i & u) & Hfind).
  exists i, u. apply (list_find_firstAt P). exact Hfind.
Qed.



(** ** Mesh add *)

(** One pairing is skipped exactly when an active tunnel of the
    organisation joins the two devices. *)
Lemma skipped_iff_connected rnd user org A B ifA ifB w :
  answers w ->
  skipped w (pairing rnd user org A B ifA ifB w) <->
  connected w org (Device._id A) (Device._id B).
Proof.
  intros Ha. split.
  - intros (Hr & _).
    destruct (decide (connected w org (Device._id A) (Device._id B)))
      as [Hc | Hc]; [exact Hc |].
    exfalso. exact (getTunnelPromise_not_true rnd user org A B ifA ifB w Hc Hr).
  - intros Hc. unfold skipped.
    rewrite (getTunnelPromise_skip rnd user org A B ifA ifB w Ha Hc).
    repeat split; reflexivity.
Qed.

Lemma forEach_invariant {A S} (Inv : S -> Prop) (l : list A)
    (f : A -> S -> S) (s : S) :
  (forall a s, Inv s -> Inv (f a s)) -> Inv s -> Inv (forEach l f s).
Proof.
  intros Hf. unfold forEach. revert s.
  induction l as [| a l IH]; intros s Hs; [exact Hs |].
  cbn [fold_left]. apply IH, Hf, Hs.
Qed.

Section Idempotent.
Variable rvc : string -> string -> bool.
Variable rnd : Z -> Z -> nat -> string.
Variables (userName org : string).
Variable w0 : World.t.

(** What is left of a promise that has found its tunnel: it resolves and
    leaves everything as it is. *)
Let skips (p : Promise PromiseValue) : Prop :=
  forall w, exists w', p w = (Resolved VTrue, w') /\ w' = w.

(** The promises made so far all skip, and their making has left a quiet
    world with the collections and queues of [w0]. *)
Let idle (s : list (Promise PromiseValue) * World.t) : Prop :=
  Forall skips (fst s) /\ quiet (snd s) /\ untouched w0 (snd s).

Let linked (A B : Device.t) : Prop :=
  connected w0 org (Device._id A) (Device._id B).

Lemma getTunnelPromise_idle A B ifA ifB dbTasks w :
  linked A B -> idle (dbTasks, w) ->
  idle (let (p, w') := getTunnelPromise rnd userName org A B ifA ifB w in
        (dbTasks ++ [p], w')).
Proof.
  intros Hl (Hs & Hq & Ht & Hi & Hqu). cbn [fst snd] in *.
  assert (Hc : connected w org (Device._id A) (Device._id B))
    by (unfold connected; rewrite Ht; exact Hl).
  unfold getTunnelPromise. rewrite find_run, (quiet_head w Hq).
  split; [| split].
  - cbn [fst]. apply Forall_app. split; [exact Hs |].
    constructor; [| constructor]. intros w1. exists w1.
    split; [| reflexivity]. unfold getTunnelPromise_then.
    destruct (length _ =? 0)%nat eqn:Hlen; [| reflexivity].
    exfalso.
    apply (proj1 (found_length _ _ _ (activeBetween_eqb org A B)) Hlen).
    exact Hc.
  - cbn [snd]. apply quiet_after, Hq.
  - cbn [snd]. repeat split; assumption.
Qed.

Lemma applyTunnelAdd_idxB_idle A rest dbTasks w :
  Forall (linked A) rest -> idle (dbTasks, w) ->
  let '(_, dbTasks', w') :=
    applyTunnelAdd_idxB rvc rnd userName org A rest dbTasks w in
  idle (dbTasks', w').
Proof.
  revert dbTasks w. induction rest as [| B rest IH]; intros dbTasks w Hl Hs.
  - exact Hs.
  - apply Forall_cons in Hl. destruct Hl as (HlB & Hl).
    cbn [applyTunnelAdd_idxB].
    destruct (negb (rvc _ _)); [exact Hs |].
    cbn zeta.
    destruct (_ && _); [| apply IH; assumption].
    match goal with
    | |- context [forEach ?l ?f ?s] =>
        pose proof (forEach_invariant idle l f s) as Hmade
    end.
    destruct (forEach _ _ _) as [dbTasks1 w1].
    apply IH; [exact Hl |]. apply Hmade; [| exact Hs].
    intros wanIfcA s1 Hs1.
    apply forEach_invariant; [| exact Hs1]. intros wanIfcB [tasks w2] Hs2.
    apply getTunnelPromise_idle; assumption.
Qed.

Lemma applyTunnelAdd_idxA_idle opDevices dbTasks w :
  ForallOrdPairs linked opDevices -> idle (dbTasks, w) ->
  let '(_, dbTasks', w') :=
    applyTunnelAdd_idxA rvc rnd userName org opDevices dbTasks w in
  idle (dbTasks', w').
Proof.
  intros Hop. revert dbTasks w.
  induction Hop as [| A rest HA Hrest IH]; intros dbTasks w Hs.
  - exact Hs.
  - cbn [applyTunnelAdd_idxA].
    pose proof (applyTunnelAdd_idxB_idle A rest dbTasks w HA Hs) as HB.
    destruct (applyTunnelAdd_idxB rvc rnd userName org A rest dbTasks w)
      as [[[err |] tasks] w1]; [exact HB |].
    apply IH, HB.
Qed.

Lemma settleAll_skips ps w :
  Forall skips ps ->
  exists rs,
    settleAll ps w = (rs, w) /\ Forall (fun r => r = Resolved VTrue) rs.
Proof.
  induction 1 as [| p ps Hp Hps (rs & Hrun & Hrs)].
  - exists []. split; [reflexivity | constructor].
  - destruct (Hp w) as (w1 & Hrun1 & ->).
    exists (Resolved VTrue :: rs). cbn [settleAll]. rewrite Hrun1, Hrun.
    split; [reflexivity |]. constructor; [reflexivity | exact Hrs].
Qed.
End Idempotent.

Lemma Promise_all_resolved {A} (rs : list (Settled A)) v :
  Forall (fun r => r = Resolved v) rs -> exists l, Promise_all rs = Resolved l.
Proof.
  induction 1 as [| r rs -> _ (l & IH)].
  - exists []. reflexivity.
  - exists (v :: l). cbn [Promise_all]. rewrite IH. reflexivity.
Qed.

(** A mesh add over devices that are connected pair by pair changes
    nothing. *)
Lemma applyTunnelAdd_idempotent
    (rvc : string -> string -> bool) (rnd : Z -> Z -> nat -> string)
    (devices : option (list Device.t)) (user : User.t) (data : Data.t)
    (w : World.t) :
  quiet w ->
  (forall ds sel, devices = Some ds -> Data.devices data = Some sel ->
     ForallOrdPairs
       (fun A B => connected w (User.defaultOrg user)
                             (Device._id A) (Device._id B))
       (filter (fun d => hasOwnProperty sel (Device._id d)) ds)) ->
  untouched w (snd (applyTunnelAdd rvc rnd devices user data w)).
Proof.
  intros Hq Hall. unfold applyTunnelAdd.
  set (opDevices := match devices, Data.devices data with
                    | Some ds, Some sel => _
                    | _, _ => []
                    end).
  assert (Hop : ForallOrdPairs
            (fun A B => connected w (User.defaultOrg user)
                                  (Device._id A) (Device._id B)) opDevices).
  { subst opDevices. destruct devices as [ds |]; [| constructor].
    destruct (Data.devices data) as [sel |]; [| constructor].
    apply Hall; reflexivity. }
  destruct (2 <=? length opDevices)%nat; [| repeat split; reflexivity].
  pose proof (applyTunnelAdd_idxA_idle rvc rnd (User.username user)
                (User.defaultOrg user) w opDevices [] w Hop) as Hidle.
  destruct (applyTunnelAdd_idxA rvc rnd (User.username user)
              (User.defaultOrg user) opDevices [] w)
    as [[thrown dbTasks] w1].
  destruct Hidle as (Hs & _ & Hun).
  { split; [constructor |]. split; [exact Hq |]. repeat split; reflexivity. }
  cbn [fst snd] in Hs, Hun.
  destruct (settleAll_skips dbTasks w1 Hs) as (rs & Hrun & Hrs).
  rewrite Hrun.
  destruct thrown; [exact Hun |].
  destruct (Promise_all_resolved rs VTrue Hrs) as (l & ->). exact Hun.
Qed.

Lemma wan_filter d :
  filter (fun intf => Bool.eqb (Interface.isAssigned intf) true &&
                      String.eqb (Interface.type intf) "WAN")
         (Device.interfaces d) = wanInterfaces d.
Proof.
  unfold wanInterfaces. apply list_filter_iff. intros intf.
  rewrite andb_True, !Is_true_true, String.eqb_eq, Bool.eqb_true_iff. tauto.
Qed.

Lemma tunnelKey_claimed doc :
  tunnelKey (Tunnel_set "isActive" true doc) = tunnelKey doc.
Proof. reflexivity. Qed.

(** With unique keys the record that [addTunnel] writes after a claim is
    the claimed one. *)
Lemma claimed_is_written ts i doc j doc' org :
  NoDup (tunnelKey <$> ts) ->
  ts !! i = Some doc -> Tunnel.org doc = org ->
  firstAt (keyed org (Tunnel.num doc))
          (<[i := Tunnel_set "isActive" true doc]> ts) j doc' ->
  j = i /\ Tunnel._id doc' = Tunnel._id doc.
Proof.
  intros Hnd Hi Horg (Hj & (Ho & Hn) & _).
  assert (Hlt : (i < length ts)%nat) by (eapply lookup_lt_Some, Hi).
  destruct (decide (j = i)) as [-> | Hne].
  - split; [reflexivity |].
    rewrite list_lookup_insert_eq in Hj by exact Hlt. injection Hj as <-.
    reflexivity.
  - exfalso. rewrite list_lookup_insert_ne in Hj by congruence.
    apply Hne. eapply (NoDup_lookup _ j i (tunnelKey doc) Hnd).
    + rewrite list_lookup_fmap, Hj. cbn. unfold tunnelKey. congruence.
    + rewrite list_lookup_fmap, Hi. reflexivity.
Qed.

(** A number the counter has not given out yet is not in use. *)
Lemma next_not_keyed w org n :
  store_ok w -> nextNumber org (World.tunnelids w) = Some n ->
  Forall (fun t => ~ keyed org n t) (World.tunnels w).
Proof.
  intros (_ & Hnums) Hn. eapply Forall_impl; [exact Hnums |].
  intros t (c & Hc & Hle) (Ho & Hk). cbn in Hc. rewrite Ho in Hc.
  unfold nextNumber in Hn. rewrite Hc in Hn.
  destruct (decide (0 <= c < 15000)); [| discriminate].
  injection Hn as <-. lia.
Qed.

(** X25: the order of the store is kept by every pairing on a store that
    answers: no two records share a key, and every number in use was given
    out by the counter of its organisation. *)
Lemma getTunnelPromise_store_ok rnd user org A B ifA ifB w :
  quiet w -> store_ok w ->
  store_ok (snd (pairing rnd user org A B ifA ifB w)).
Proof.
  intros Hq Hok.
  destruct (decide (connected w org (Device._id A) (Device._id B))) as [Hc | Hc].
  { rewrite (getTunnelPromise_skip rnd user org A B ifA ifB w
               (answers_quiet w Hq) Hc). exact Hok. }
  destruct (decide (Exists (inactiveIn org) (World.tunnels w))) as [Hex | Hex].
  - destruct (Exists_firstAt _ _ Hex) as (i & doc & Hfirst).
    destruct (getTunnelPromise_reuse rnd user org A B ifA ifB w i doc Hq Hc Hfirst)
      as (jobs & w' & j & doc' & Hp & _ & _ & _ & Hids & _ & _ & Hj & Hts).
    rewrite Hp. cbn [snd].
    destruct Hfirst as (Hi & (_ & Horg) & _).
    destruct (claimed_is_written _ i doc j doc' org (proj1 Hok) Hi Horg Hj)
      as (-> & Hid).
    rewrite list_insert_insert_eq in Hts.
    destruct Hok as (Hnd & Hnums). unfold store_ok. rewrite Hts, Hids. split.
    + rewrite list_fmap_insert.
      replace (tunnelKey (writtenTunnel _ _ _ _ _ _ _)) with (tunnelKey doc)
        by (unfold tunnelKey; cbn; congruence).
      rewrite list_insert_id; [exact Hnd |].
      rewrite list_lookup_fmap, Hi. reflexivity.
    + apply Forall_insert; [exact Hnums |].
      rewrite Forall_forall in Hnums.
      destruct (Hnums doc) as (c & Hc0 & Hle).
      { apply list_elem_of_lookup. exists i. exact Hi. }
      exists c. cbn. rewrite <- Horg. split; assumption.
  - apply Forall_Exists_neg in Hex.
    destruct (nextNumber org (World.tunnelids w)) as [n |] eqn:Hn.
    + destruct (getTunnelPromise_mint rnd user org A B ifA ifB w n Hq Hc Hex Hn)
        as (jobs & w' & Hp & _ & _ & _ & Hids & _ & _ & Hts).
      rewrite Hp. cbn [snd].
      pose proof (next_not_keyed w org n Hok Hn) as Hfree.
      destruct Hts as [(i & doc & (Hi & Hk & _) & _) | (_ & Hts)].
      { exfalso. rewrite Forall_forall in Hfree. apply (Hfree doc); [| exact Hk].
        apply list_elem_of_lookup. exists i. exact Hi. }
      destruct Hok as (Hnd & Hnums). unfold store_ok. rewrite Hts, Hids. split.
      * rewrite fmap_app. apply NoDup_app. split; [exact Hnd |].
        split; [| apply NoDup_singleton].
        intros k Hk Hk'. apply list_elem_of_singleton in Hk'. subst k.
        apply list_elem_of_fmap in Hk. destruct Hk as (t & Hkey & Hin).
        rewrite Forall_forall in Hfree. apply (Hfree t Hin).
        unfold tunnelKey in Hkey. cbn in Hkey. injection Hkey as Ho Hk.
        split; congruence.
      * apply Forall_app. split.
        -- eapply Forall_impl; [exact Hnums |].
           intros t (c & Hc0 & Hle).
           destruct (decide (Tunnel.org t = org)) as [Ho | Ho].
           ++ exists n. rewrite Ho, lookup_insert_eq. split; [reflexivity |].
              rewrite Ho in Hc0. unfold nextNumber in Hn. rewrite Hc0 in Hn.
              destruct (decide (0 <= c < 15000)); [| discriminate].
              injection Hn as <-. lia.
           ++ exists c. rewrite lookup_insert_ne by congruence.
              split; assumption.
        -- constructor; [| constructor]. exists n. cbn.
           rewrite lookup_insert_eq. split; [reflexivity | lia].
    + destruct (getTunnelPromise_exhausted rnd user org A B ifA ifB w Hq Hc Hex Hn)
        as (w' & Hp & _ & _ & Hids & Hts & _).
      rewrite Hp. cbn [snd]. unfold store_ok. rewrite Hts, Hids. exact Hok.
Qed.

(** C1, as the code has it: two selected devices of compatible router
    versions, each with one assigned WAN interface and no active tunnel
    between them, in a store that is in order, answers and has a number
    to give.  The call resolves; exactly one record is written, the
    reclaimed deleted one or a new one at the end of the collection, keyed
    by the organisation and the number, active, unconfirmed on both sides
    and naming the two devices and interfaces; exactly two jobs are
    queued, one per device, with that number and with each side's own
    address as [src] and the peer's public address, or else its private
    one, as [dst]. *)
Theorem applyTunnelAdd_pair
    (rvc : string -> string -> bool) (rnd : Z -> Z -> nat -> string)
    (ds : list Device.t) (sel : gmap string bool)
    (user : User.t) (data : Data.t)
    (A B : Device.t) (ifA ifB : Interface.t) (w : World.t) :
  let org := User.defaultOrg user in
  quiet w -> store_ok w ->
  Data.devices data = Some sel ->
  filter (fun d => hasOwnProperty sel (Device._id d)) ds = [A; B] ->
  rvc (Versions.router (Device.versions A))
      (Versions.router (Device.versions B)) = true ->
  wanInterfaces A = [ifA] -> wanInterfaces B = [ifB] ->
  ~ connected w org (Device._id A) (Device._id B) ->
  Exists (inactiveIn org) (World.tunnels w) \/
  is_Some (nextNumber org (World.tunnelids w)) ->
  exists n jobs w',
    applyTunnelAdd rvc rnd (Some ds) user data w = (Resolved tt, w') /\
    addJobsFor n A B ifA ifB jobs /\
    World.queue w' = World.queue w ++ jobs /\
    ((exists i doc,
        firstAt (inactiveIn org) (World.tunnels w) i doc /\
        n = Tunnel.num doc /\
        World.tunnels w' =
          <[i := writtenTunnel (Tunnel._id doc) org n A B ifA ifB]>
            (World.tunnels w) /\
        World.tunnelids w' = World.tunnelids w) \/
     (Forall (fun t => ~ inactiveIn org t) (World.tunnels w) /\
      nextNumber org (World.tunnelids w) = Some n /\
      World.tunnels w' =
        World.tunnels w ++
        [writtenTunnel (mintId (World.minted w)) org n A B ifA ifB] /\
      World.tunnelids w' = <[org := n]> (World.tunnelids w))).
Proof.
  intros org Hq Hok Hsel Hop Hcompat HwA HwB Hc Havail.
  assert (Hrun : forall jobs w',
    pairing rnd (User.username user) org A B ifA ifB w =
      (Resolved (VJobs jobs), w') ->
    applyTunnelAdd rvc rnd (Some ds) user data w = (Resolved tt, w')).
  { intros jobs w' Hp. unfold applyTunnelAdd.
    rewrite Hsel, Hop. cbn [length Nat.leb]. fold org.
    cbn [applyTunnelAdd_idxA applyTunnelAdd_idxB].
    rewrite Hcompat. cbn [negb]. rewrite !wan_filter, HwA, HwB.
    cbn [length Nat.eqb negb andb forEach fold_left app].
    unfold pairing in Hp.
    destruct (getTunnelPromise rnd (User.username user) org A B ifA ifB w)
      as [p w1].
    cbn [settleAll]. rewrite Hp. reflexivity. }
  destruct (decide (Exists (inactiveIn org) (World.tunnels w))) as [Hex | Hex].
  - destruct (Exists_firstAt _ _ Hex) as (i & doc & Hfirst).
    destruct (getTunnelPromise_reuse rnd (User.username user) org A B ifA ifB
                w i doc Hq Hc Hfirst)
      as (jobs & w' & j & doc' & Hp & Hjobs & _ & Hqu & Hids & _ & _ & Hj & Hts).
    exists (Tunnel.num doc), jobs, w'.
    split; [exact (Hrun jobs w' Hp) |]. split; [exact Hjobs |].
    split; [exact Hqu |]. left. exists i, doc.
    split; [exact Hfirst |]. split; [reflexivity |]. split; [| exact Hids].
    destruct Hfirst as (Hi & (_ & Horg) & _).
    destruct (claimed_is_written _ i doc j doc' org (proj1 Hok) Hi Horg Hj)
      as (-> & Hid).
    rewrite Hts, Hid. apply list_insert_insert_eq.
  - assert (Hnone : Forall (fun t => ~ inactiveIn org t) (World.tunnels w))
      by (apply Forall_Exists_neg, Hex).
    destruct Havail as [Hex' | (n & Hn)]; [contradiction |].
    destruct (getTunnelPromise_mint rnd (User.username user) org A B ifA ifB
                w n Hq Hc Hnone Hn)
      as (jobs & w' & Hp & Hjobs & _ & Hqu & Hids & _ & _ & Hts).
    exists n, jobs, w'.
    split; [exact (Hrun jobs w' Hp) |]. split; [exact Hjobs |].
    split; [exact Hqu |]. right.
    split; [exact Hnone |]. split; [exact Hn |]. split; [| exact Hids].
    destruct Hts as [(i & doc & (Hi & Hk & _) & _) | (_ & Hts)]; [| exact Hts].
    exfalso. pose proof (next_not_keyed w org n Hok Hn) as Hfree.
    rewrite Forall_forall in Hfree. apply (Hfree doc); [| exact Hk].
    apply list_elem_of_lookup. exists i. exact Hi.
Qed.

(** C4: devices A and B have two assigned WAN interfaces each, and one
    active tunnel of the organisation joins the first interface of A and
    the first of B.  The loops make one pairing for each of the four pairs
    of interfaces, to set up a tunnel between each WAN interface of A and
    each of B; the existence query names the devices only, so all four
    pairings find the one tunnel and are skipped.  The call resolves with
    no record written and no job queued, and the three pairs of interfaces
    that no tunnel joins are left without one. *)
Theorem mesh_add_skips_unjoined_interfaces :
  let w := Sample.wAB in
  let p := applyTunnelAdd Sample.sameVersion Sample.numbered
             (Some [Sample.devA'; Sample.devB']) Sample.user
             (Sample.select ["devA"; "devB"]) w in
  wanInterfaces Sample.devA' = [Sample.ifA; Sample.ifA2] /\
  wanInterfaces Sample.devB' = [Sample.ifB; Sample.ifB2] /\
  connectedInterfaces w "org1" "devA" "ifA" "devB" "ifB" /\
  ~ connectedInterfaces w "org1" "devA" "ifA" "devB" "ifB2" /\
  ~ connectedInterfaces w "org1" "devA" "ifA2" "devB" "ifB" /\
  ~ connectedInterfaces w "org1" "devA" "ifA2" "devB" "ifB2" /\
  skipped w (pairing Sample.numbered "alice" "org1"
               Sample.devA' Sample.devB' Sample.ifA2 Sample.ifB2 w) /\
  fst p = Resolved tt /\
  World.tunnels (snd p) = World.tunnels w /\
  World.tunnelids (snd p) = World.tunnelids w /\
  World.queue (snd p) = [] /\
  World.trace (snd p) = [TunnelsFind; TunnelsFind; TunnelsFind; TunnelsFind] /\
  ~ connectedInterfaces (snd p) "org1" "devA" "ifA" "devB" "ifB2" /\
  ~ connectedInterfaces (snd p) "org1" "devA" "ifA2" "devB" "ifB" /\
  ~ connectedInterfaces (snd p) "org1" "devA" "ifA2" "devB" "ifB2".
Proof.
  cbn zeta.
  split; [vm_compute; reflexivity |]. split; [vm_compute; reflexivity |].
  split; [compute_done |]. split; [compute_done |].
  split; [compute_done |]. split; [compute_done |].
  split; [vm_compute; repeat split; reflexivity |].
  split; [vm_compute; reflexivity |]. split; [vm_compute; reflexivity |].
  split; [vm_compute; reflexivity |]. split; [vm_compute; reflexivity |].
  split; [vm_compute; reflexivity |].
  split; [compute_done |]. split; compute_done.
Qed.

(** Two devices with one WAN interface each and no tunnel between them,
    but of different router versions: the call is rejected, and there is
    neither a record nor a job. *)
Lemma applyTunnelAdd_pair_counterexample :
  let p := applyTunnelAdd Sample.sameVersion Sample.numbered
             (Some [Sample.devA; Sample.devC]) Sample.user
             (Sample.select ["devA"; "devC"]) Sample.w0 in
  wanInterfaces Sample.devA = [Sample.ifA] /\
  wanInterfaces Sample.devC = [Sample.ifC] /\
  ~ connected Sample.w0 "org1" "devA" "devC" /\
  fst p = Rejected (Error.new
    "Cannot create tunnels between devices with mismatching router versions") /\
  World.tunnels (snd p) = [] /\
  World.queue (snd p) = [].
Proof.
  cbn zeta. split; [vm_compute; reflexivity |]. split; [vm_compute; reflexivity |].
  split; [compute_done |].
  vm_compute. repeat split; reflexivity.
Qed.

Lemma store_ok_wOld : store_ok Sample.wOld.
Proof.
  split.
  - compute_done.
  - constructor; [exists 5; split; [reflexivity | cbn; lia] |].
    constructor; [exists 5; split; [reflexivity | cbn; lia] |].
    constructor.
Qed.

(** Devices A and B on a store with one deleted tunnel. *)
Lemma applyTunnelAdd_pair_witness :
  quiet Sample.wOld /\ store_ok Sample.wOld /\
  ~ connected Sample.wOld "org1" "devA" "devB" /\
  exists n jobs w',
    applyTunnelAdd Sample.sameVersion Sample.numbered
      (Some [Sample.devA; Sample.devB; Sample.devC]) Sample.user
      (Sample.select ["devA"; "devB"]) Sample.wOld = (Resolved tt, w') /\
    addJobsFor n Sample.devA Sample.devB Sample.ifA Sample.ifB jobs /\
    World.queue w' = World.queue Sample.wOld ++ jobs.
Proof.
  assert (Hq : quiet Sample.wOld) by reflexivity.
  assert (Hc : ~ connected Sample.wOld "org1" "devA" "devB") by compute_done.
  split; [exact Hq |]. split; [exact store_ok_wOld |]. split; [exact Hc |].
  destruct (applyTunnelAdd_pair Sample.sameVersion Sample.numbered
              [Sample.devA; Sample.devB; Sample.devC]
              (list_to_map ((fun k => (k, true)) <$> ["devA"; "devB"]))
              Sample.user (Sample.select ["devA"; "devB"])
              Sample.devA Sample.devB Sample.ifA Sample.ifB Sample.wOld)
    as (n & jobs & w' & Hrun & Hjobs & Hqu & _).
  - exact Hq.
  - exact store_ok_wOld.
  - reflexivity.
  - vm_compute. reflexivity.
  - reflexivity.
  - vm_compute. reflexivity.
  - vm_compute. reflexivity.
  - exact Hc.
  - left. compute_done.
  - exists n, jobs, w'. repeat split; assumption.
Defined.


(** ** Allocation on the sample stores *)

Lemma addJobsFor_number n m A B ifA ifB jobs :
  addJobsFor n A B ifA ifB jobs -> addJobsFor m A B ifA ifB jobs -> n = m.
Proof.
  intros (jA & jB & pA & pB & -> & _ & _ & HtA & _ & _ & _ & HnA & _)
         (jA' & jB' & pA' & pB' & Heq & _ & _ & HtA' & _ & _ & _ & HnA' & _).
  injection Heq as <- <-. rewrite HtA in HtA'. injection HtA' as <-.
  congruence.
Qed.

(** With the counter at 5 the number given out is 6, not 5; and from
    14999 the counter goes to 15000. *)
Lemma allocation_counterexample :
  let p := pairing Sample.numbered "alice" "org1"
             Sample.devA Sample.devB Sample.ifA Sample.ifB Sample.w5 in
  let q := pairing Sample.numbered "alice" "org1"
             Sample.devA Sample.devB Sample.ifA Sample.ifB Sample.wLast in
  World.tunnelids Sample.w5 !! "org1" = Some 5 /\
  (exists jobs,
     fst p = Resolved (VJobs jobs) /\
     addJobsFor 6 Sample.devA Sample.devB Sample.ifA Sample.ifB jobs /\
     ~ addJobsFor 5 Sample.devA Sample.devB Sample.ifA Sample.ifB jobs) /\
  World.tunnelids (snd q) !! "org1" = Some 15000.
Proof.
  cbn zeta. split; [reflexivity |]. split; [| vm_compute; reflexivity].
  eexists. split; [vm_compute; reflexivity |].
  assert (H6 : addJobsFor 6 Sample.devA Sample.devB Sample.ifA Sample.ifB
    (match fst (pairing Sample.numbered "alice" "org1"
             Sample.devA Sample.devB Sample.ifA Sample.ifB Sample.w5) with
     | Resolved (VJobs jobs) => jobs | _ => [] end)).
  { vm_compute. do 4 eexists. repeat split; reflexivity. }
  vm_compute in H6.
  split; [exact H6 |].
  intros H5. pose proof (addJobsFor_number _ _ _ _ _ _ _ H5 H6). discriminate.
Qed.

(** The counter at 5. *)
Lemma allocation_mints_post_increment_witness :
  let p := pairing Sample.numbered "alice" "org1"
             Sample.devA Sample.devB Sample.ifA Sample.ifB Sample.w5 in
  quiet Sample.w5 /\
  World.tunnelids Sample.w5 !! "org1" = Some 5 /\
  exists jobs,
    fst p = Resolved (VJobs jobs) /\
    addJobsFor 6 Sample.devA Sample.devB Sample.ifA Sample.ifB jobs /\
    World.tunnelids (snd p) = <["org1" := 6]> (World.tunnelids Sample.w5).
Proof.
  cbn zeta. split; [reflexivity |]. split; [reflexivity |].
  destruct (allocation_mints_post_increment Sample.numbered "alice" "org1"
              Sample.devA Sample.devB Sample.ifA Sample.ifB Sample.w5)
    as (_ & Hmint & _).
  - reflexivity.
  - compute_done.
  - constructor.
  - destruct (Hmint 5) as ((jobs & oid & Hr & Hjobs & _ & Hids & _) & _).
    + reflexivity.
    + lia.
    + exists jobs. repeat split; assumption.
Defined.


(** The first increment fails on the key, the second gives 6. *)
Lemma getTunnelPromise_retry_witness :
  let p := pairing Sample.numbered "alice" "org1"
             Sample.devA Sample.devB Sample.ifA Sample.ifB Sample.wRace in
  World.faults Sample.wRace = [None; None; Some E11000] /\
  (calls TunnelIDsFindOneAndUpdate (snd p) -
   calls TunnelIDsFindOneAndUpdate Sample.wRace)%nat = 2%nat /\
  exists jobs,
    fst p = Resolved (VJobs jobs) /\
    addJobsFor 6 Sample.devA Sample.devB Sample.ifA Sample.ifB jobs.
Proof.
  cbn zeta. split; [reflexivity |].
  destruct (getTunnelPromise_retry Sample.numbered "alice" "org1"
              Sample.devA Sample.devB Sample.ifA Sample.ifB
              Sample.wRace E11000 []) as (_ & Hretry).
  - compute_done.
  - constructor.
  - reflexivity.
  - destruct (Hretry eq_refl) as (Hattempts & _ & _ & Hok).
    split; [exact Hattempts |].
    destruct (Hok eq_refl 6 eq_refl) as (jobs & Hr & Hjobs & _).
    exists jobs. split; assumption.
Defined.

(** The job of device A for the tunnel between A and B has completed. *)
Lemma completeTunnelAdd_one_flag_witness :
  let w' := completeTunnelAdd 7 (Some Sample.resA) Sample.wAB in
  wellFormed Sample.resA /\
  World.tunnelids w' = World.tunnelids Sample.wAB /\
  exists i t t',
    firstAt (matchesPayload Sample.resA) (World.tunnels Sample.wAB) i t /\
    confirmedAs "deviceAconf" t t' /\
    World.tunnels w' = <[i := t']> (World.tunnels Sample.wAB).
Proof.
  assert (Hwf : wellFormed Sample.resA)
    by (repeat split; try reflexivity; left; reflexivity).
  cbn zeta. split; [exact Hwf |].
  destruct (completeTunnelAdd_one_flag 7 Sample.resA Sample.wAB Hwf)
    as (Hids & _ & _ & _ & Hupd).
  split; [exact Hids |].
  apply Hupd.
  - intros e. cbn. discriminate.
  - apply Exists_cons_hd. repeat split.
Defined.

(** ** The rollback on the sample store *)

(** The error callback deletes the tunnel, and a second one finds nothing
    to do. *)
Example errorTunnelAdd_rolls_back :
  let w := errorTunnelAdd 7 (Some Sample.resA) Sample.wAB in
  let w' := errorTunnelAdd 8 (Some Sample.resA) w in
  Tunnel.isActive <$> World.tunnels w = [false] /\
  Job.method <$> World.queue w = ["deltunnels"; "deltunnels"] /\
  World.tunnels w' = World.tunnels w /\
  World.queue w' = World.queue w.
Proof. vm_compute. repeat split; reflexivity. Qed.

(** ** Version mismatch *)

(** C5: devices A, B and C are selected, A and B match, C does not match
    A.  The call is rejected, and yet the promise of the pairing of A and
    B, made before the mismatch was met, has taken number 1 from the
    counter, written the tunnel record and queued both jobs. *)
Theorem applyTunnelAdd_mismatch_after_start :
  let p := applyTunnelAdd Sample.sameVersion Sample.numbered
             (Some [Sample.devA; Sample.devB; Sample.devC]) Sample.user
             (Sample.select ["devA"; "devB"; "devC"]) Sample.w0 in
  fst p = Rejected (Error.new
    "Cannot create tunnels between devices with mismatching router versions") /\
  World.tunnels (snd p) =
    [writtenTunnel "oid0" "org1" 1 Sample.devA Sample.devB
                   Sample.ifA Sample.ifB] /\
  World.tunnelids Sample.w0 !! "org1" = None /\
  World.tunnelids (snd p) !! "org1" = Some 1 /\
  Job.machineId <$> World.queue (snd p) = ["machA"; "machB"] /\
  World.trace (snd p) =
    [TunnelsFind; TunnelsFindOneAndUpdate; TunnelIDsFindOneAndUpdate;
     TunnelsFindOneAndUpdate; QueueAddJob; QueueAddJob].
Proof. vm_compute. repeat split; reflexivity. Qed.

(** X26: when the first pair of the enumeration is the one whose router
    versions do not match, nothing has been started: the call is rejected
    and the world is as it was. *)
Lemma applyTunnelAdd_mismatch_first rvc rnd ds sel user data A B rest w :
  Data.devices data = Some sel ->
  filter (fun d => hasOwnProperty sel (Device._id d)) ds = A :: B :: rest ->
  rvc (Versions.router (Device.versions A))
      (Versions.router (Device.versions B)) = false ->
  applyTunnelAdd rvc rnd (Some ds) user data w =
  (Rejected (Error.new
     "Cannot create tunnels between devices with mismatching router versions"),
   w).
Proof.
  intros Hsel Hop Hrvc. unfold applyTunnelAdd. rewrite Hsel, Hop.
  cbn [length Nat.leb applyTunnelAdd_idxA applyTunnelAdd_idxB].
  rewrite Hrvc. reflexivity.
Qed.


(** ** Mesh delete *)

(** X27: without a device context, or with a selection that is not of one
    tunnel, the call does nothing and resolves. *)
Lemma applyTunnelDel_no_validation devices user data sel w :
  Data.tunnels data = Some sel ->
  devices = None \/ length (Object_keys sel) <> 1%nat ->
  applyTunnelDel devices user data w = (Resolved tt, w).
Proof.
  intros Hsel Hbad. unfold applyTunnelDel. rewrite Hsel.
  destruct devices as [ds |]; [| reflexivity].
  destruct Hbad as [Hbad | Hbad]; [discriminate |].
  destruct (Object_keys sel) as [| k [| k' ks]]; try reflexivity.
  exfalso. apply Hbad. reflexivity.
Qed.

(** C6: two tunnels are selected, or one tunnel without a device
    context.  The call makes no call to the store or the queues, which is
    as specified, and resolves, where the specification has a validation
    error. *)
Theorem applyTunnelDel_two_tunnels :
  let w := Sample.wOld in
  let p := applyTunnelDel (Some [Sample.devA; Sample.devB; Sample.devC])
             Sample.user (Sample.selectTunnels ["t4"; "t6"]) w in
  let q := applyTunnelDel None Sample.user (Sample.selectTunnels ["t4"]) w in
  p = (Resolved tt, w) /\ q = (Resolved tt, w).
Proof. vm_compute. split; reflexivity. Qed.

(** One selected tunnel is deleted. *)
Example applyTunnelDel_one_tunnel :
  let p := applyTunnelDel (Some [Sample.devB; Sample.devC])
             Sample.user (Sample.selectTunnels ["t4"]) Sample.wOld in
  fst p = Resolved tt /\
  Tunnel.isActive <$> World.tunnels (snd p) = [false; false] /\
  Job.machineId <$> World.queue (snd p) = ["machB"; "machC"] /\
  World.trace (snd p) =
    [TunnelsFindOne; QueueAddJob; QueueAddJob; TunnelsFindOneAndUpdate].
Proof. vm_compute. repeat split; reflexivity. Qed.

(** The message of the validation error is raised when the deletion of
    the one selected tunnel fails, here because there is no such tunnel. *)
Example applyTunnelDel_unknown_tunnel :
  applyTunnelDel (Some [Sample.devB; Sample.devC])
    Sample.user (Sample.selectTunnels ["t9"]) Sample.wOld =
  (Rejected (Error.new
     "Attempt to delete more than one tunnel or no devices found"),
   after TunnelsFindOne Sample.wOld).
Proof. vm_compute. reflexivity. Qed.

(** * Further properties *)

(** ** Parameter generator: ranges and uniqueness *)

Lemma pretty_N_go_lacks_dot x s : lacks "." s -> lacks "." (pretty_N_go x s).
Proof.
  revert s. induction (N.lt_wf_0 x) as [x _ IH]; intros s Hs.
  destruct (decide (x = 0)%N) as [-> | Hx].
  - rewrite pretty_N_go_0. exact Hs.
  - rewrite pretty_N_go_step by lia. apply IH.
    + apply N.div_lt; lia.
    + unfold lacks. cbn [list_ascii_of_string]. constructor; [| exact Hs].
      unfold pretty_N_char.
      repeat match goal with
             | |- context [match ?y with _ => _ end] => destruct y
             end; discriminate.
Qed.

Lemma toString10_lacks_dot z : 0 <= z -> lacks "." (JS.toString10 z).
Proof.
  intros Hz. unfold JS.toString10, pretty, pretty_Z.
  destruct z as [| p | p]; [| | lia].
  - repeat constructor. discriminate.
  - unfold pretty, pretty_positive, pretty, pretty_N.
    destruct (decide _); [discriminate |].
    apply pretty_N_go_lacks_dot. constructor.
Qed.

Lemma lacks_split c s1 s2 t1 t2 :
  lacks c s1 -> lacks c s2 ->
  s1 +:+ String c t1 = s2 +:+ String c t2 -> s1 = s2 /\ t1 = t2.
Proof.
  revert s2. induction s1 as [| c1 s1 IH]; intros [| c2 s2] H1 H2 Heq;
    cbn [String.append] in Heq.
  - injection Heq as Heq. split; [reflexivity | exact Heq].
  - injection Heq as Hc _. inversion H2; congruence.
  - injection Heq as Hc _. inversion H1; congruence.
  - injection Heq as Hc Heq. inversion H1; inversion H2; subst.
    destruct (IH s2) as (-> & ->); auto.
Qed.

Lemma generateTunnelParams_parts n :
  0 <= n ->
  generateTunnelParams n =
  TunnelParams.mk
    ("10.100." +:+ JS.toString10 (netPart n) +:+ "." +:+ JS.toString10 (hostPart n))
    ("10.100." +:+ JS.toString10 (netPart n) +:+ "." +:+
       JS.toString10 (hostPart n + 1))
    ("02:00:27:fd:" +:+ d2h (netPart n) +:+ ":" +:+ d2h (hostPart n))
    ("02:00:27:fd:" +:+ d2h (netPart n) +:+ ":" +:+ d2h (hostPart n + 1))
    (netPart n * 256 + hostPart n) (netPart n * 256 + hostPart n + 1).
Proof.
  intros Hn. unfold generateTunnelParams, hostPart, netPart, JS.rem, JS.floor_div.
  rewrite Z.rem_mod_nonneg by lia. reflexivity.
Qed.

Lemma parts_bounds n :
  0 <= n -> 0 <= netPart n /\ 2 <= hostPart n <= 254 /\
            n = 127 * netPart n + (hostPart n / 2 - 1) /\
            hostPart n mod 2 = 0.
Proof.
  intros Hn. unfold netPart, hostPart.
  pose proof (Z.mod_pos_bound n 127 ltac:(lia)).
  pose proof (Z.div_mod n 127 ltac:(lia)).
  pose proof (Z.div_pos n 127 Hn ltac:(lia)).
  rewrite Z.div_mul by lia. rewrite Z.mod_mul by lia. lia.
Qed.

Lemma parts_inj n m :
  0 <= n -> 0 <= m -> netPart n = netPart m ->
  hostPart n = hostPart m -> n = m.
Proof.
  intros Hn Hm Hl Hh.
  destruct (parts_bounds n Hn) as (_ & _ & En & _).
  destruct (parts_bounds m Hm) as (_ & _ & Em & _).
  rewrite En, Em, Hl, Hh. reflexivity.
Qed.


Lemma d2h_bytes :
  Forall (fun d => String.length (d2h d) = 2%nat /\ lacks ":" (d2h d))
         (seqZ 0 256) /\
  NoDup (d2h <$> seqZ 0 256).
Proof. split; refine (bool_decide_unpack _ _); vm_compute; exact I. Qed.

Lemma d2h_lacks_colon d : 0 <= d < 256 -> lacks ":" (d2h d).
Proof.
  intros Hd. destruct d2h_bytes as (Hall & _).
  rewrite Forall_forall in Hall. apply Hall, elem_of_seqZ. lia.
Qed.

Lemma d2h_inj d d' : 0 <= d < 256 -> 0 <= d' < 256 -> d2h d = d2h d' -> d = d'.
Proof.
  intros Hd Hd' Heq. destruct d2h_bytes as (_ & Hnd).
  assert (Hi : forall x, 0 <= x < 256 ->
            (d2h <$> seqZ 0 256) !! Z.to_nat x = Some (d2h x)).
  { intros x Hx. rewrite list_lookup_fmap, lookup_seqZ_lt by lia.
    cbn. f_equal. f_equal. lia. }
  pose proof (Hi d Hd) as H1. pose proof (Hi d' Hd') as H2.
  rewrite Heq in H1.
  pose proof (NoDup_lookup _ _ _ _ Hnd H1 H2). lia.
Qed.

(** X1: within [0, 32512) distinct tunnel numbers have no security
    parameter index in common. *)
Theorem generateTunnelParams_spi_unique (n m : Z) :
  0 <= n < 32512 -> 0 <= m < 32512 -> n <> m ->
  let p := generateTunnelParams n in
  let q := generateTunnelParams m in
  TunnelParams.sa1 p <> TunnelParams.sa1 q /\
  TunnelParams.sa1 p <> TunnelParams.sa2 q /\
  TunnelParams.sa2 p <> TunnelParams.sa1 q /\
  TunnelParams.sa2 p <> TunnelParams.sa2 q.
Proof.
  intros (Hn & _) (Hm & _) Hne p q. subst p q.
  rewrite !generateTunnelParams_parts by assumption.
  cbn [TunnelParams.sa1 TunnelParams.sa2].
  destruct (parts_bounds n Hn) as (Hl & Hh & _ & He).
  destruct (parts_bounds m Hm) as (Hl' & Hh' & _ & He').
  apply Z.mod_divide in He, He'; try lia.
  destruct He as (k & Hk), He' as (k' & Hk').
  repeat split; intros H; apply Hne; apply parts_inj; try assumption; lia.
Qed.

Lemma generateTunnelParams_spi_unique_witness :
  126 <> 127 /\
  TunnelParams.sa2 (generateTunnelParams 126) <>
  TunnelParams.sa1 (generateTunnelParams 127).
Proof.
  split; [lia |].
  apply (generateTunnelParams_spi_unique 126 127); lia.
Defined.

(** X2: within [0, 32512) distinct tunnel numbers have no loopback
    address in common. *)
Theorem generateTunnelParams_ip_unique (n m : Z) :
  0 <= n < 32512 -> 0 <= m < 32512 -> n <> m ->
  let p := generateTunnelParams n in
  let q := generateTunnelParams m in
  TunnelParams.ip1 p <> TunnelParams.ip1 q /\
  TunnelParams.ip1 p <> TunnelParams.ip2 q /\
  TunnelParams.ip2 p <> TunnelParams.ip1 q /\
  TunnelParams.ip2 p <> TunnelParams.ip2 q.
Proof.
  intros (Hn & _) (Hm & _) Hne p q. subst p q.
  rewrite !generateTunnelParams_parts by assumption.
  cbn [TunnelParams.ip1 TunnelParams.ip2].
  destruct (parts_bounds n Hn) as (Hl & Hh & _ & He).
  destruct (parts_bounds m Hm) as (Hl' & Hh' & _ & He').
  assert (Hsplit : forall h h', 0 <= h -> 0 <= h' ->
    "10.100." +:+ JS.toString10 (netPart n) +:+ "." +:+ JS.toString10 h =
    "10.100." +:+ JS.toString10 (netPart m) +:+ "." +:+ JS.toString10 h' ->
    netPart n = netPart m /\ h = h').
  { intros h h' H0 H0' Heq. apply String.app_inj in Heq.
    apply (lacks_split "."%char) in Heq;
      [| apply toString10_lacks_dot; assumption ..].
    destruct Heq as (E1 & E2). split; apply toString10_inj; assumption. }
  apply Z.mod_divide in He, He'; try lia.
  destruct He as (k & Hk), He' as (k' & Hk').
  repeat split; intros H; apply Hsplit in H; try lia;
    destruct H as (El & Eh); apply Hne; apply parts_inj; try assumption; lia.
Qed.

Lemma generateTunnelParams_ip_unique_witness :
  126 <> 127 /\
  TunnelParams.ip2 (generateTunnelParams 126) <>
  TunnelParams.ip1 (generateTunnelParams 127).
Proof.
  split; [lia |].
  apply (generateTunnelParams_ip_unique 126 127); lia.
Defined.

(** X3: up to tunnel number 32511 distinct tunnel numbers have no
    loopback MAC address in common. *)
Theorem generateTunnelParams_mac_unique (n m : Z) :
  0 <= n < 32512 -> 0 <= m < 32512 -> n <> m ->
  let p := generateTunnelParams n in
  let q := generateTunnelParams m in
  TunnelParams.mac1 p <> TunnelParams.mac1 q /\
  TunnelParams.mac1 p <> TunnelParams.mac2 q /\
  TunnelParams.mac2 p <> TunnelParams.mac1 q /\
  TunnelParams.mac2 p <> TunnelParams.mac2 q.
Proof.
  intros Hn Hm Hne p q. subst p q.
  rewrite !generateTunnelParams_parts by lia.
  cbn [TunnelParams.mac1 TunnelParams.mac2].
  destruct (parts_bounds n ltac:(lia)) as (Hl & Hh & En & He).
  destruct (parts_bounds m ltac:(lia)) as (Hl' & Hh' & Em & He').
  assert (Hb : netPart n < 256 /\ netPart m < 256)
    by (unfold netPart; split; apply Z.div_lt_upper_bound; lia).
  assert (Hsplit : forall h h', 0 <= h < 256 -> 0 <= h' < 256 ->
    "02:00:27:fd:" +:+ d2h (netPart n) +:+ ":" +:+ d2h h =
    "02:00:27:fd:" +:+ d2h (netPart m) +:+ ":" +:+ d2h h' ->
    netPart n = netPart m /\ h = h').
  { intros h h' H0 H0' Heq. apply String.app_inj in Heq.
    apply (lacks_split ":"%char) in Heq;
      [| apply d2h_lacks_colon; lia ..].
    destruct Heq as (E1 & E2). split; apply d2h_inj; try assumption; lia. }
  apply Z.mod_divide in He, He'; try lia.
  destruct He as (k & Hk), He' as (k' & Hk').
  repeat split; intros H; apply Hsplit in H; try lia;
    destruct H as (El & Eh); apply Hne; apply parts_inj; try lia.
Qed.

Lemma generateTunnelParams_mac_unique_witness :
  126 <> 127 /\
  TunnelParams.mac2 (generateTunnelParams 126) <>
  TunnelParams.mac1 (generateTunnelParams 127).
Proof.
  split; [lia |].
  apply (generateTunnelParams_mac_unique 126 127); lia.
Defined.

(** The MAC addresses repeat from tunnel number 32512 on, where [d2h]
    cuts the network part to its last two digits. *)
Example generateTunnelParams_mac_wraps :
  TunnelParams.mac1 (generateTunnelParams 32512) =
  TunnelParams.mac1 (generateTunnelParams 0).
Proof. vm_compute. reflexivity. Qed.



(** ** Remove jobs *)

(** X5: the remove-tunnel tasks are the add-tunnel tasks of the same
    number and interfaces without the security associations, the MTU and
    the routing: same [src], [dst], tunnel id, loopback address and MAC. *)
Theorem prepareTunnelRemoveJob_strips_add
    (randomNum : Z -> Z -> nat -> string) (tunnelnum : Z)
    (deviceAIntf deviceBIntf : Interface.t) (devBagentVer : string)
    (w : World.t) :
  exists paramsA paramsB w',
    prepareTunnelAddJob randomNum tunnelnum deviceAIntf deviceBIntf
                        devBagentVer w =
    (Ok ([Task.mk "agent" "add-tunnel" paramsA],
         [Task.mk "agent" "add-tunnel" paramsB]), w') /\
    prepareTunnelRemoveJob tunnelnum deviceAIntf deviceBIntf =
    ([Task.mk "agent" "remove-tunnel" (stripped paramsA)],
     [Task.mk "agent" "remove-tunnel" (stripped paramsB)]).
Proof.
  unfold prepareTunnelAddJob, bind, generateRandomKeys, ret.
  do 3 eexists. split; reflexivity.
Qed.

(** ** Queueing *)

Lemma queueTunnel_run (isAdd : bool) title tasksA tasksB user org mA mB oA oB w :
  let method := if isAdd then "tunnels" else "deltunnels" in
  let jobA := Job.mk mA user org title tasksA method
                     (Payload.mk user org oA oB "deviceAconf") "normal" 1 false in
  let jobB := Job.mk mB user org title tasksB method
                     (Payload.mk user org oA oB "deviceBconf") "normal" 1 false in
  let err := Error.new ("Error queuing tunnel for device IDs " +:+
                        mA +:+ " and " +:+ mB) in
  let w1 := after QueueAddJob w in
  let w2 := after QueueAddJob (Upd.queue (fun q => q ++ [jobA]) w1) in
  queueTunnel isAdd title tasksA tasksB user org mA mB oA oB w =
  match head (World.faults w) with
  | Some (Some _) => (Throw err, w1)
  | _ =>
      match head (tail (World.faults w)) with
      | Some (Some _) => (Throw err, w2)
      | _ => (Ok [jobA; jobB], Upd.queue (fun q => q ++ [jobB]) w2)
      end
  end.
Proof.
  cbn zeta. unfold queueTunnel, try_catch, bind. rewrite addJob_run.
  destruct (head (World.faults w)) as [[e |] |] eqn:Hf; [reflexivity | |];
    rewrite addJob_run; cbn [World.faults after Upd.trace Upd.faults Upd.queue];
    destruct (head (tail (World.faults w))) as [[e |] |]; reflexivity.
Qed.

(** X6: the two jobs are queued one after the other, and a failure is
    reported with a new error that names the two machines, whatever the
    cause.  When the queue takes the first job and refuses the second, the
    first stays queued: the device of side A is told, the device of side B
    is not, and the caller sees the error. *)
Theorem queueTunnel_second_job_refused (isAdd : bool) (title : string)
    (tasksA tasksB : list Task.t) (user org mA mB oA oB : string)
    (w : World.t) (e : Error.t) :
  answers w ->
  head (tail (World.faults w)) = Some (Some e) ->
  exists jobA w',
    queueTunnel isAdd title tasksA tasksB user org mA mB oA oB w =
    (Throw (Error.new ("Error queuing tunnel for device IDs " +:+
                       mA +:+ " and " +:+ mB)), w') /\
    World.queue w' = World.queue w ++ [jobA] /\
    Job.machineId jobA = mA /\ Job.tasks jobA = tasksA /\
    Job.method jobA = (if isAdd then "tunnels" else "deltunnels") /\
    Job.data jobA = Payload.mk user org oA oB "deviceAconf" /\
    World.tunnels w' = World.tunnels w /\
    World.tunnelids w' = World.tunnelids w.
Proof.
  intros Ha Hf. rewrite queueTunnel_run. cbn zeta. rewrite Hf.
  destruct (head (World.faults w)) as [[e0 |] |] eqn:Hf0;
    [exfalso; apply (Ha e0), Hf0 | |];
    (do 2 eexists; split; [reflexivity |]; cbn; repeat split; reflexivity).
Qed.

(** ** Deleting one tunnel *)

Lemma activeWithId_eqb oid org t :
  String.eqb (Tunnel._id t) oid && Bool.eqb (Tunnel.isActive t) true &&
  String.eqb (Tunnel.org t) org <-> activeWithId oid org t.
Proof.
  unfold activeWithId.
  rewrite !andb_True, !Is_true_true, !String.eqb_eq, Bool.eqb_true_iff. tauto.
Qed.

Lemma withId_eqb oid org t :
  String.eqb (Tunnel._id t) oid && String.eqb (Tunnel.org t) org
  <-> withId oid org t.
Proof.
  unfold withId. rewrite !andb_True, !Is_true_true, !String.eqb_eq. tauto.
Qed.

Lemma activeMatch_eqb res t :
  String.eqb (Tunnel.deviceA t) (Payload.deviceA res) &&
  String.eqb (Tunnel.deviceB t) (Payload.deviceB res) &&
  String.eqb (Tunnel.org t) (Payload.org res) &&
  Bool.eqb (Tunnel.isActive t) true <-> activeMatch res t.
Proof.
  unfold activeMatch, matchesPayload.
  rewrite !andb_True, !Is_true_true, !String.eqb_eq, Bool.eqb_true_iff. tauto.
Qed.

Lemma findOne_run q w :
  tunnelsModel_findOne q w =
  (match head (World.faults w) with
   | Some (Some e) => Throw e
   | _ => Ok (snd <$> list_find (fun t => q t) (World.tunnels w))
   end, after TunnelsFindOne w).
Proof.
  unfold tunnelsModel_findOne, bind. rewrite external_run.
  destruct (head (World.faults w)) as [[e|]|]; reflexivity.
Qed.

Lemma interface_filter oid (d : Device.t) :
  filter (fun ifc => String.eqb (Interface._id ifc) oid) (Device.interfaces d) =
  filter (fun ifc => Interface._id ifc = oid) (Device.interfaces d).
Proof.
  apply list_filter_iff. intros ifc. rewrite Is_true_true, String.eqb_eq. tauto.
Qed.

(** With unique object ids a record is the first one to satisfy whatever
    fixes its id. *)
Lemma ids_unique_firstAt (P : Tunnel.t -> Prop) w i t :
  ids_unique w -> World.tunnels w !! i = Some t -> P t ->
  (forall u, P u -> Tunnel._id u = Tunnel._id t) ->
  firstAt P (World.tunnels w) i t.
Proof.
  intros Hnd Hi HP Hid. split; [exact Hi |]. split; [exact HP |].
  intros j u Hj Hlt HPu.
  assert (j = i); [| lia].
  eapply (NoDup_lookup _ j i (Tunnel._id t) Hnd).
  - rewrite list_lookup_fmap, Hj. cbn. f_equal. apply Hid, HPu.
  - rewrite list_lookup_fmap, Hi. reflexivity.
Qed.

(** What [oneTunnelDel] does once it has found the tunnel and its
    devices: the two jobs, then the record. *)
Lemma oneTunnelDel_run tunnelID user org w i t A B ifA ifB :
  answers w ->
  firstAt (activeWithId tunnelID org) (World.tunnels w) i t ->
  resolves w t A B ifA ifB ->
  oneTunnelDel tunnelID user org w =
  (let* tunnelJobs :=
     delTunnel user org (Tunnel.num t) A B ifA ifB in
   let* resp :=
     tunnelsModel_findOneAndUpdate
       (fun t => String.eqb (Tunnel._id t) tunnelID &&
                 String.eqb (Tunnel.org t) org)
       deactivated None true in
   match resp with
   | None => throw (Error.new "Error deleting tunnel")
   | Some _ => ret tunnelJobs
   end)%js (after TunnelsFindOne w).
Proof.
  intros Ha Hfirst (HA & HB & HiA & HiB).
  apply (list_find_some_iff _ _ _ _ _ (activeWithId_eqb tunnelID org)) in Hfirst.
  unfold oneTunnelDel. unfold bind at 1. rewrite findOne_run.
  assert (Hok : match head (World.faults w) with
                | Some (Some e) =>
                    Throw (A := option Tunnel.t) e
                | _ => Ok (snd <$> list_find
                             (fun t0 : Tunnel.t =>
                                String.eqb (Tunnel._id t0) tunnelID &&
                                Bool.eqb (Tunnel.isActive t0) true &&
                                String.eqb (Tunnel.org t0) org)
                             (World.tunnels w))
                end = Ok (Some t)).
  { rewrite Hfirst. destruct (head (World.faults w)) as [[e |] |] eqn:Hf;
      [exfalso; apply (Ha e), Hf | reflexivity | reflexivity]. }
  rewrite Hok.
  unfold populate in *. cbn [World.devices after Upd.trace Upd.faults].
  rewrite HA, HB, !interface_filter, HiA, HiB. reflexivity.
Qed.

Lemma delTunnel_run user org n A B ifA ifB w :
  delTunnel user org n A B ifA ifB w =
  queueTunnel false (tunnelTitle "Delete" A B ifA ifB)
    (fst (prepareTunnelRemoveJob n ifA ifB))
    (snd (prepareTunnelRemoveJob n ifA ifB)) user org
    (Device.machineId A) (Device.machineId B) (Device._id A) (Device._id B) w.
Proof.
  unfold delTunnel, try_catch, throw.
  destruct (queueTunnel _ _ _ _ _ _ _ _ _ _ w) as [[jobs | e] w1]; reflexivity.
Qed.

Lemma removeJobsFor_made user org n A B ifA ifB title :
  removeJobsFor user org n A B ifA ifB
    [Job.mk (Device.machineId A) user org title
            (fst (prepareTunnelRemoveJob n ifA ifB)) "deltunnels"
            (Payload.mk user org (Device._id A) (Device._id B) "deviceAconf")
            "normal" 1 false;
     Job.mk (Device.machineId B) user org title
            (snd (prepareTunnelRemoveJob n ifA ifB)) "deltunnels"
            (Payload.mk user org (Device._id A) (Device._id B) "deviceBconf")
            "normal" 1 false].
Proof.
  unfold removeJobsFor, prepareTunnelRemoveJob. cbn [fst snd].
  do 4 eexists. split; [reflexivity |].
  cbn [Job.machineId Job.method Job.tasks Job.data Params.tunnel_id Params.src
       Params.dst Params.ipsec].
  rewrite !peerAddr_eqb. repeat split; reflexivity.
Qed.

(** On a store that answers, a tunnel that is found with its devices is
    deleted: two jobs, then the record. *)
Lemma oneTunnelDel_quiet tunnelID user org w i t A B ifA ifB :
  quiet w -> ids_unique w ->
  World.tunnels w !! i = Some t -> activeWithId tunnelID org t ->
  resolves w t A B ifA ifB ->
  exists jobs w',
    oneTunnelDel tunnelID user org w = (Ok jobs, w') /\
    removeJobsFor user org (Tunnel.num t) A B ifA ifB jobs /\
    quiet w' /\
    World.tunnels w' = <[i := deactivated t]> (World.tunnels w) /\
    World.queue w' = World.queue w ++ jobs /\
    World.tunnelids w' = World.tunnelids w /\
    World.devices w' = World.devices w /\
    World.trace w' =
      World.trace w ++ [TunnelsFindOne; QueueAddJob; QueueAddJob;
                        TunnelsFindOneAndUpdate].
Proof.
  intros Hq Hnd Hi Hact Hres.
  assert (Hfirst : firstAt (activeWithId tunnelID org) (World.tunnels w) i t).
  { apply ids_unique_firstAt; try assumption.
    intros u (Hu & _). destruct Hact as (Ht & _). congruence. }
  assert (Hfirst' : firstAt (withId tunnelID org) (World.tunnels w) i t).
  { apply ids_unique_firstAt; try assumption.
    - destruct Hact as (Ht & _ & Ho). split; assumption.
    - intros u (Hu & _). destruct Hact as (Ht & _). congruence. }
  apply (list_find_some_iff _ _ _ _ _ (withId_eqb tunnelID org)) in Hfirst'.
  rewrite (oneTunnelDel_run tunnelID user org w i t A B ifA ifB
             (answers_quiet w Hq) Hfirst Hres).
  assert (Hf : World.faults w = []) by exact Hq.
  unfold bind at 1. rewrite delTunnel_run, queueTunnel_run.
  cbn [World.faults after Upd.trace Upd.faults]. rewrite Hf. cbn [tail head].
  unfold bind. rewrite findOneAndUpdate_run.
  cbn [World.faults World.tunnels after Upd.trace Upd.faults Upd.queue].
  rewrite Hf. cbn [tail head].
  rewrite Hfirst'. unfold ret.
  do 2 eexists. split; [reflexivity |].
  split; [apply removeJobsFor_made |].
  unfold quiet.
  cbn [World.faults World.tunnels World.queue World.tunnelids World.devices
       World.trace after Upd.trace Upd.faults Upd.queue Upd.tunnels].
  rewrite Hf, <- !app_assoc. repeat split; reflexivity.
Qed.

Ltac deletionOnly_grown :=
  cbn [snd ret throw World.tunnelids World.devices World.queue World.tunnels
       World.trace after Upd.trace Upd.faults Upd.queue Upd.tunnels];
  rewrite <- ?app_assoc;
  eexists; first [symmetry; apply app_nil_r | reflexivity].

Ltac deletionOnly_queued :=
  cbn [snd ret throw World.tunnelids World.devices World.queue World.tunnels
       World.trace after Upd.trace Upd.faults Upd.queue Upd.tunnels];
  rewrite <- ?app_assoc;
  eexists; split;
  [ first [symmetry; apply app_nil_r | reflexivity]
  | split; [cbn; lia | repeat constructor] ].

Ltac deletionOnly_unchanged :=
  unfold deletionOnly;
  split; [reflexivity |]; split; [reflexivity |];
  split; [deletionOnly_grown |];
  split; [deletionOnly_queued | left; reflexivity].

Lemma oneTunnelDel_frame tunnelID user org w :
  deletionOnly org w (snd (oneTunnelDel tunnelID user org w)).
Proof.
  unfold oneTunnelDel. unfold bind at 1. rewrite findOne_run.
  destruct (head (World.faults w)) as [[e |] |] eqn:Hf;
    [deletionOnly_unchanged | |].
  all: destruct (list_find _ (World.tunnels w)) as [[i t] |];
    cbn [fmap option_fmap option_map snd]; [| deletionOnly_unchanged].
  all: destruct (populate (Tunnel.deviceA t) _) as [A |];
    [| deletionOnly_unchanged].
  all: destruct (populate (Tunnel.deviceB t) _) as [B |];
    [| deletionOnly_unchanged].
  all: destruct (head (filter _ (Device.interfaces A))) as [ifA |];
    [| deletionOnly_unchanged].
  all: destruct (head (filter _ (Device.interfaces B))) as [ifB |];
    [| deletionOnly_unchanged].
  all: unfold bind at 1; rewrite delTunnel_run, queueTunnel_run;
    cbn [World.faults after Upd.trace Upd.faults];
    destruct (head (tail (World.faults w))) as [[e1 |] |];
    [deletionOnly_unchanged | |].
  all: destruct (head (tail (tail (World.faults w)))) as [[e2 |] |];
    [deletionOnly_unchanged | |].
  all: unfold bind; rewrite findOneAndUpdate_run;
    cbn [World.faults World.tunnels after Upd.trace Upd.faults Upd.queue];
    destruct (head (tail (tail (tail (World.faults w))))) as [[e3 |] |];
    [deletionOnly_unchanged | |].
  all: destruct (list_find _ (World.tunnels w)) as [[j u] |] eqn:Hfind;
    [| deletionOnly_unchanged].
  all: apply (list_find_some_iff _ _ _ _ _ (withId_eqb tunnelID org)) in Hfind;
    destruct Hfind as (Hj & (_ & Ho) & _);
    split; [reflexivity |]; split; [reflexivity |];
    split; [deletionOnly_grown |];
    split; [deletionOnly_queued |];
    right; exists j, u; repeat split; assumption.
Qed.

Lemma deletionOnly_keys org w w' :
  deletionOnly org w w' ->
  tunnelKey <$> World.tunnels w' = tunnelKey <$> World.tunnels w /\
  Tunnel._id <$> World.tunnels w' = Tunnel._id <$> World.tunnels w.
Proof.
  intros (_ & _ & _ & _ & [-> | (i & t & Hi & _ & ->)]); [split; reflexivity |].
  rewrite !list_fmap_insert. split; apply list_insert_id;
    rewrite list_lookup_fmap, Hi; reflexivity.
Qed.

Lemma deletionOnly_store_ok org w w' :
  deletionOnly org w w' ->
  (store_ok w -> store_ok w') /\ (ids_unique w -> ids_unique w').
Proof.
  intros Hd. destruct (deletionOnly_keys org w w' Hd) as (Hk & Hid).
  destruct Hd as (Hids & _ & _ & _ & Hts).
  split.
  - intros (Hnd & Hnums). split; [rewrite Hk; exact Hnd |].
    rewrite Hids.
    destruct Hts as [-> | (i & t & Hi & _ & ->)]; [exact Hnums |].
    apply Forall_insert; [exact Hnums |].
    rewrite Forall_forall in Hnums. apply (Hnums t).
    apply list_elem_of_lookup. exists i. exact Hi.
  - unfold ids_unique. rewrite Hid. tauto.
Qed.

Lemma applyTunnelDel_deletionOnly devices user data w :
  deletionOnly (User.defaultOrg user) w
               (snd (applyTunnelDel devices user data w)).
Proof.
  unfold applyTunnelDel.
  destruct (Data.tunnels data) as [sel |]; [| deletionOnly_unchanged].
  destruct devices as [ds |]; [| deletionOnly_unchanged].
  destruct (Object_keys sel) as [| tunnelID [| k ks]];
    try deletionOnly_unchanged.
  pose proof (oneTunnelDel_frame tunnelID (User.username user)
                (User.defaultOrg user) w) as Hd.
  destruct (oneTunnelDel _ _ _ w) as [[jobs | e] w1]; exact Hd.
Qed.

(** X7: whatever is selected and whatever fails, a mesh delete never
    removes or renumbers a record and never touches the counters or the
    devices; it deactivates at most one record, of the user's
    organisation, and queues at most two jobs, all remove-tunnel jobs.
    The order of the store is kept. *)
Theorem applyTunnelDel_frame (devices : option (list Device.t))
    (user : User.t) (data : Data.t) (w : World.t) :
  let w' := snd (applyTunnelDel devices user data w) in
  deletionOnly (User.defaultOrg user) w w' /\
  length (World.tunnels w') = length (World.tunnels w) /\
  tunnelKey <$> World.tunnels w' = tunnelKey <$> World.tunnels w /\
  (store_ok w -> store_ok w') /\
  (ids_unique w -> ids_unique w').
Proof.
  intros w'. pose proof (applyTunnelDel_deletionOnly devices user data w) as Hd.
  fold w' in Hd.
  destruct (deletionOnly_keys _ _ _ Hd) as (Hk & _).
  destruct (deletionOnly_store_ok _ _ _ Hd) as (Hok & Hid).
  split; [exact Hd |]. split; [| split; [exact Hk | split; assumption]].
  rewrite <- (length_fmap tunnelKey), Hk, length_fmap. reflexivity.
Qed.

(** X8: one selected tunnel that is active in the user's organisation and
    whose devices and interfaces are there is deleted on a store that
    answers: the call resolves, two remove-tunnel jobs with the number of
    the tunnel are queued, one per device, and then the record is
    deactivated with both confirmation flags cleared; its number stays
    with it and the counter is not touched. *)
Theorem applyTunnelDel_deletes (devices : list Device.t) (user : User.t)
    (data : Data.t) (tunnelID : string) (w : World.t) (i : nat) (t : Tunnel.t)
    (A B : Device.t) (ifA ifB : Interface.t) :
  let org := User.defaultOrg user in
  quiet w -> ids_unique w ->
  selectsTunnel data tunnelID ->
  World.tunnels w !! i = Some t -> activeWithId tunnelID org t ->
  resolves w t A B ifA ifB ->
  exists jobs w',
    applyTunnelDel (Some devices) user data w = (Resolved tt, w') /\
    removeJobsFor (User.username user) org (Tunnel.num t) A B ifA ifB jobs /\
    World.tunnels w' = <[i := deactivated t]> (World.tunnels w) /\
    World.queue w' = World.queue w ++ jobs /\
    World.tunnelids w' = World.tunnelids w /\
    World.trace w' =
      World.trace w ++ [TunnelsFindOne; QueueAddJob; QueueAddJob;
                        TunnelsFindOneAndUpdate].
Proof.
  intros org Hq Hnd (sel & Hsel & Hkeys) Hi Hact Hres.
  destruct (oneTunnelDel_quiet tunnelID (User.username user) org w i t
              A B ifA ifB Hq Hnd Hi Hact Hres)
    as (jobs & w' & Hrun & Hjobs & _ & Hts & Hqu & Hids & _ & Htr).
  exists jobs, w'. unfold applyTunnelDel. rewrite Hsel, Hkeys.
  fold org. rewrite Hrun. repeat split; assumption.
Qed.

Lemma resolves_devices w w' t A B ifA ifB :
  World.devices w' = World.devices w ->
  resolves w t A B ifA ifB -> resolves w' t A B ifA ifB.
Proof. unfold resolves, populate. intros ->. tauto. Qed.

Lemma resolves_cases w t :
  (exists A B ifA ifB, resolves w t A B ifA ifB) \/
  (forall A B ifA ifB, ~ resolves w t A B ifA ifB).
Proof.
  unfold resolves.
  destruct (populate (Tunnel.deviceA t) w) as [A |];
    [| right; intros A B ifA ifB (H & _); discriminate].
  destruct (populate (Tunnel.deviceB t) w) as [B |];
    [| right; intros A' B ifA ifB (_ & H & _); discriminate].
  destruct (head (filter (fun ifc => Interface._id ifc = Tunnel.interfaceA t)
                         (Device.interfaces A))) as [ifA |] eqn:HA;
    [| right; intros A' B' ifA ifB (H1 & _ & H & _);
       injection H1 as <-; congruence].
  destruct (head (filter (fun ifc => Interface._id ifc = Tunnel.interfaceB t)
                         (Device.interfaces B))) as [ifB |] eqn:HB;
    [| right; intros A' B' ifA' ifB (_ & H2 & _ & H);
       injection H2 as <-; congruence].
  left. exists A, B, ifA, ifB. repeat split; assumption.
Qed.

(** Without the tunnel, its devices or its interfaces [oneTunnelDel]
    throws after its query, with nothing done. *)
Lemma oneTunnelDel_stuck tunnelID user org w :
  (forall i t, firstAt (activeWithId tunnelID org) (World.tunnels w) i t ->
               forall A B ifA ifB, ~ resolves w t A B ifA ifB) ->
  exists e, oneTunnelDel tunnelID user org w = (Throw e, after TunnelsFindOne w).
Proof.
  intros Hno. unfold oneTunnelDel. unfold bind at 1. rewrite findOne_run.
  destruct (head (World.faults w)) as [[e |] |]; [eexists; reflexivity | |].
  all: destruct (list_find _ (World.tunnels w)) as [[i t] |] eqn:Hfind;
    cbn [fmap option_fmap option_map snd]; [| eexists; reflexivity].
  all: apply (list_find_some_iff _ _ _ _ _ (activeWithId_eqb tunnelID org))
         in Hfind; specialize (Hno i t Hfind).
  all: change (populate (Tunnel.deviceA t) (after TunnelsFindOne w))
         with (populate (Tunnel.deviceA t) w);
       change (populate (Tunnel.deviceB t) (after TunnelsFindOne w))
         with (populate (Tunnel.deviceB t) w).
  all: destruct (populate (Tunnel.deviceA t) w) as [A |] eqn:HA;
    [| eexists; reflexivity].
  all: destruct (populate (Tunnel.deviceB t) w) as [B |] eqn:HB;
    [| eexists; reflexivity].
  all: rewrite !interface_filter.
  all: destruct (head (filter _ (Device.interfaces A))) as [ifA |] eqn:HiA;
    [| eexists; reflexivity].
  all: destruct (head (filter _ (Device.interfaces B))) as [ifB |] eqn:HiB;
    [| eexists; reflexivity].
  all: exfalso; apply (Hno A B ifA ifB); repeat split; assumption.
Qed.

(** X9: when the one selected tunnel is not an active tunnel of the user's
    organisation, or names a device or an interface that is gone, the
    call is rejected with the message of the selection check, after one
    query and with nothing written or queued. *)
Theorem applyTunnelDel_unknown (devices : list Device.t) (user : User.t)
    (data : Data.t) (tunnelID : string) (w : World.t) :
  let org := User.defaultOrg user in
  selectsTunnel data tunnelID ->
  (forall i t, firstAt (activeWithId tunnelID org) (World.tunnels w) i t ->
               forall A B ifA ifB, ~ resolves w t A B ifA ifB) ->
  applyTunnelDel (Some devices) user data w =
  (Rejected (Error.new
     "Attempt to delete more than one tunnel or no devices found"),
   after TunnelsFindOne w).
Proof.
  intros org (sel & Hsel & Hkeys) Hno.
  destruct (oneTunnelDel_stuck tunnelID (User.username user) org w Hno)
    as (e & Hrun).
  unfold applyTunnelDel. rewrite Hsel, Hkeys. fold org. rewrite Hrun.
  reflexivity.
Qed.

Lemma oneTunnelDel_failure tunnelID user org w i t A B ifA ifB k e fs :
  firstAt (activeWithId tunnelID org) (World.tunnels w) i t ->
  resolves w t A B ifA ifB ->
  World.faults w = replicate (S k) None ++ Some e :: fs -> (k <= 2)%nat ->
  exists jobs e' w',
    oneTunnelDel tunnelID user org w = (Throw e', w') /\
    removeJobsFor user org (Tunnel.num t) A B ifA ifB jobs /\
    World.tunnels w' = World.tunnels w /\
    World.tunnelids w' = World.tunnelids w /\
    World.queue w' = World.queue w ++ take k jobs.
Proof.
  intros Hfirst Hres Hf Hk.
  assert (Ha : answers w) by (intros e0; rewrite Hf; discriminate).
  rewrite (oneTunnelDel_run tunnelID user org w i t A B ifA ifB Ha Hfirst Hres).
  unfold bind at 1. rewrite delTunnel_run, queueTunnel_run.
  cbn [World.faults after Upd.trace Upd.faults]. rewrite Hf.
  pose proof (removeJobsFor_made user org (Tunnel.num t) A B ifA ifB
                (tunnelTitle "Delete" A B ifA ifB)) as Hjobs.
  match type of Hjobs with
  | removeJobsFor _ _ _ _ _ _ _ ?jobs => exists jobs
  end.
  destruct k as [| [| [| k]]]; [| | | lia]; cbn [replicate app tail head].
  - do 2 eexists. split; [reflexivity |]. split; [exact Hjobs |].
    cbn. rewrite app_nil_r. repeat split; reflexivity.
  - do 2 eexists. split; [reflexivity |]. split; [exact Hjobs |].
    cbn. repeat split; reflexivity.
  - unfold bind. rewrite findOneAndUpdate_run.
    cbn [World.faults after Upd.trace Upd.faults Upd.queue]. rewrite Hf.
    cbn [replicate app tail head].
    do 2 eexists. split; [reflexivity |]. split; [exact Hjobs |].
    cbn. rewrite <- app_assoc. repeat split; reflexivity.
Qed.

(** X10: the record is deactivated last.  When the queue refuses the first
    job ([k = 0]) or the second ([k = 1]), or the store refuses the update
    of the record ([k = 2]), the call is rejected and the record stays as
    it was, an active tunnel, while the [k] jobs accepted before stay
    queued. *)
Theorem applyTunnelDel_failure (devices : list Device.t) (user : User.t)
    (data : Data.t) (tunnelID : string) (w : World.t) (i : nat) (t : Tunnel.t)
    (A B : Device.t) (ifA ifB : Interface.t)
    (k : nat) (e : Error.t) (fs : list (option Error.t)) :
  let org := User.defaultOrg user in
  selectsTunnel data tunnelID ->
  firstAt (activeWithId tunnelID org) (World.tunnels w) i t ->
  resolves w t A B ifA ifB ->
  World.faults w = replicate (S k) None ++ Some e :: fs -> (k <= 2)%nat ->
  exists jobs w',
    applyTunnelDel (Some devices) user data w =
    (Rejected (Error.new
       "Attempt to delete more than one tunnel or no devices found"), w') /\
    removeJobsFor (User.username user) org (Tunnel.num t) A B ifA ifB jobs /\
    World.tunnels w' = World.tunnels w /\
    World.tunnelids w' = World.tunnelids w /\
    World.queue w' = World.queue w ++ take k jobs.
Proof.
  intros org (sel & Hsel & Hkeys) Hfirst Hres Hf Hk.
  destruct (oneTunnelDel_failure tunnelID (User.username user) org w i t
              A B ifA ifB k e fs Hfirst Hres Hf Hk)
    as (jobs & e' & w' & Hrun & Hjobs & Hts & Hids & Hqu).
  exists jobs, w'. unfold applyTunnelDel. rewrite Hsel, Hkeys. fold org.
  rewrite Hrun. repeat split; assumption.
Qed.

(** ** Rollback *)

Lemma errorTunnelAdd_run jobId res w :
  complete res ->
  errorTunnelAdd jobId (Some res) w =
  match
    tunnelsModel_findOne
      (fun t => String.eqb (Tunnel.deviceA t) (Payload.deviceA res) &&
                String.eqb (Tunnel.deviceB t) (Payload.deviceB res) &&
                String.eqb (Tunnel.org t) (Payload.org res) &&
                Bool.eqb (Tunnel.isActive t) true) w
  with
  | (Ok (Some tunnel), w) =>
      snd (oneTunnelDel (Tunnel._id tunnel) (Payload.username res)
                        (Payload.org res) w)
  | (_, w) => w
  end.
Proof.
  intros (HA & HB & HT & HU & HO). unfold errorTunnelAdd.
  rewrite HA, HB, HT, HU, HO. reflexivity.
Qed.

Lemma callbacks_drop jobId res w :
  ~ (exists r, res = Some r /\ complete r) ->
  completeTunnelAdd jobId res w = w /\ errorTunnelAdd jobId res w = w.
Proof.
  intros Hno. destruct res as [r |]; [| split; reflexivity].
  unfold completeTunnelAdd, errorTunnelAdd.
  destruct (JS.truthy (Payload.deviceA r)) eqn:HA; [| split; reflexivity].
  destruct (JS.truthy (Payload.deviceB r)) eqn:HB; [| split; reflexivity].
  destruct (JS.truthy (Payload.target r)) eqn:HT; [| split; reflexivity].
  destruct (JS.truthy (Payload.username r)) eqn:HU; [| split; reflexivity].
  destruct (JS.truthy (Payload.org r)) eqn:HO; [| split; reflexivity].
  exfalso. apply Hno. exists r. repeat split; assumption.
Qed.

(** X11: a callback reaches the store exactly when the payload has all
    five fields; one that lacks a field is dropped, the world left as it
    is. *)
Theorem callbacks_need_complete_payload (jobId : Z) (res : option Payload.t)
    (w : World.t) :
  let reached (w' : World.t) := World.trace w' <> World.trace w in
  let whole := exists r, res = Some r /\ complete r in
  (reached (completeTunnelAdd jobId res w) <-> whole) /\
  (reached (errorTunnelAdd jobId res w) <-> whole) /\
  (~ whole -> completeTunnelAdd jobId res w = w /\
              errorTunnelAdd jobId res w = w).
Proof.
  cbn zeta.
  assert (Hgrow : forall (l : list Call) c, l ++ [c] <> l).
  { intros l c H. apply (f_equal length) in H. rewrite length_app in H.
    cbn in H. lia. }
  pose proof (callbacks_drop jobId res w) as Hdrop.
  assert (Hcases : (exists r, res = Some r /\ complete r) \/
                   ~ (exists r, res = Some r /\ complete r)).
  { destruct res as [r |]; [| right; intros (r & H & _); discriminate].
    destruct (decide (complete r)) as [Hc | Hc]; [left; eauto |].
    right. intros (r' & H & Hc'). injection H as <-. tauto. }
  split; [| split; [| exact Hdrop]].
  - destruct Hcases as [Hw | Hw]; [| destruct (Hdrop Hw) as (-> & _); tauto].
    split; [intros _; exact Hw | intros _].
    destruct Hw as (r & -> & (HA & HB & HT & HU & HO)).
    unfold completeTunnelAdd. rewrite HA, HB, HT, HU, HO. cbn [negb orb].
    unfold updateTunnelIsConnected, bind. rewrite findOneAndUpdate_run.
    destruct (head (World.faults w)) as [[e |] |];
      try destruct (list_find _ (World.tunnels w)) as [[i t] |];
      cbn [snd World.trace after Upd.trace Upd.faults Upd.tunnels throw ret];
      apply Hgrow.
  - destruct Hcases as [Hw | Hw]; [| destruct (Hdrop Hw) as (_ & ->); tauto].
    split; [intros _; exact Hw | intros _].
    destruct Hw as (r & -> & Hc).
    rewrite errorTunnelAdd_run by exact Hc. rewrite findOne_run.
    assert (Hmore : forall tunnel : Tunnel.t,
      World.trace (snd (oneTunnelDel (Tunnel._id tunnel) (Payload.username r)
                          (Payload.org r) (after TunnelsFindOne w)))
      <> World.trace w).
    { intros tunnel H.
      destruct (oneTunnelDel_frame (Tunnel._id tunnel) (Payload.username r)
                  (Payload.org r) (after TunnelsFindOne w))
        as (_ & _ & (cs & Hcs) & _).
      rewrite Hcs in H. cbn [World.trace after Upd.trace Upd.faults] in H.
      apply (f_equal length) in H. rewrite !length_app in H. cbn in H. lia. }
    destruct (head (World.faults w)) as [[e |] |];
      try destruct (list_find _ (World.tunnels w)) as [[i t] |];
      cbn [fmap option_fmap option_map snd World.trace after Upd.trace Upd.faults];
      first [apply Hgrow | apply Hmore].
Qed.

Lemma errorTunnelAdd_none jobId res w :
  complete res ->
  Forall (fun t => ~ activeMatch res t) (World.tunnels w) ->
  errorTunnelAdd jobId (Some res) w = after TunnelsFindOne w.
Proof.
  intros Hc Hnone. rewrite errorTunnelAdd_run by exact Hc.
  apply (list_find_none_iff _ _ _ (activeMatch_eqb res)) in Hnone.
  rewrite findOne_run, Hnone.
  destruct (head (World.faults w)) as [[e |] |]; reflexivity.
Qed.

Lemma errorTunnelAdd_found jobId res w i t :
  complete res -> answers w ->
  firstAt (activeMatch res) (World.tunnels w) i t ->
  errorTunnelAdd jobId (Some res) w =
  snd (oneTunnelDel (Tunnel._id t) (Payload.username res) (Payload.org res)
                    (after TunnelsFindOne w)).
Proof.
  intros Hc Ha Hfirst. rewrite errorTunnelAdd_run by exact Hc.
  apply (list_find_some_iff _ _ _ _ _ (activeMatch_eqb res)) in Hfirst.
  rewrite findOne_run, Hfirst.
  destruct (head (World.faults w)) as [[e |] |] eqn:Hf;
    [exfalso; apply (Ha e), Hf | reflexivity | reflexivity].
Qed.

(** X12: the rollback deletes the first active tunnel of the organisation
    that goes from device A to device B of the payload, whichever tunnel
    the failed job was for: on a store that answers, two remove-tunnel
    jobs with the number of that tunnel are queued for its devices, then
    its record is deactivated and both confirmation flags cleared; the
    counter is not touched. *)
Theorem errorTunnelAdd_rolls_back_first (jobId : Z) (res : Payload.t)
    (w : World.t) (i : nat) (t : Tunnel.t)
    (A B : Device.t) (ifA ifB : Interface.t) :
  complete res -> quiet w -> ids_unique w ->
  firstAt (activeMatch res) (World.tunnels w) i t ->
  resolves w t A B ifA ifB ->
  let w' := errorTunnelAdd jobId (Some res) w in
  exists jobs,
    removeJobsFor (Payload.username res) (Payload.org res) (Tunnel.num t)
                  A B ifA ifB jobs /\
    World.tunnels w' = <[i := deactivated t]> (World.tunnels w) /\
    World.queue w' = World.queue w ++ jobs /\
    World.tunnelids w' = World.tunnelids w /\
    World.trace w' =
      World.trace w ++ [TunnelsFindOne; TunnelsFindOne; QueueAddJob;
                        QueueAddJob; TunnelsFindOneAndUpdate].
Proof.
  intros Hc Hq Hnd Hfirst Hres w'. subst w'.
  rewrite (errorTunnelAdd_found jobId res w i t Hc (answers_quiet w Hq) Hfirst).
  destruct Hfirst as (Hi & ((_ & _ & Ho) & Hact) & _).
  destruct (oneTunnelDel_quiet (Tunnel._id t) (Payload.username res)
              (Payload.org res) (after TunnelsFindOne w) i t A B ifA ifB)
    as (jobs & w' & Hrun & Hjobs & _ & Hts & Hqu & Hids & _ & Htr);
    [apply quiet_after, Hq | exact Hnd | exact Hi | repeat split; assumption
    | exact Hres |].
  rewrite Hrun. exists jobs. cbn [snd].
  cbn [World.trace after Upd.trace Upd.faults] in Htr.
  rewrite <- app_assoc in Htr. repeat split; assumption.
Qed.

(** X13: whatever the payload and whatever fails, the rollback never
    removes or renumbers a record and never touches the counters or the
    devices; it deactivates at most one record, of the organisation of
    the payload, and queues at most two jobs, all remove-tunnel jobs.  The
    order of the store is kept. *)
Theorem errorTunnelAdd_frame (jobId : Z) (res : Payload.t) (w : World.t) :
  let w' := errorTunnelAdd jobId (Some res) w in
  deletionOnly (Payload.org res) w w' /\
  length (World.tunnels w') = length (World.tunnels w) /\
  tunnelKey <$> World.tunnels w' = tunnelKey <$> World.tunnels w /\
  (store_ok w -> store_ok w') /\
  (ids_unique w -> ids_unique w').
Proof.
  intros w'.
  assert (Hd : deletionOnly (Payload.org res) w w').
  { subst w'. destruct (decide (complete res)) as [Hc | Hc].
    - rewrite errorTunnelAdd_run by exact Hc. rewrite findOne_run.
      assert (Hdel : forall tunnel : Tunnel.t,
        deletionOnly (Payload.org res) w
          (snd (oneTunnelDel (Tunnel._id tunnel) (Payload.username res)
                  (Payload.org res) (after TunnelsFindOne w)))).
      { intros tunnel.
        destruct (oneTunnelDel_frame (Tunnel._id tunnel) (Payload.username res)
                    (Payload.org res) (after TunnelsFindOne w))
          as (Hids & Hdev & (cs & Hcs) & Hqu & Hts).
        split; [exact Hids |]. split; [exact Hdev |].
        split; [| split; assumption].
        exists (TunnelsFindOne :: cs). rewrite Hcs.
        cbn [World.trace after Upd.trace Upd.faults].
        rewrite <- app_assoc. reflexivity. }
      destruct (head (World.faults w)) as [[e |] |];
        try destruct (list_find _ (World.tunnels w)) as [[i t] |];
        cbn [fmap option_fmap option_map];
        first [apply Hdel | deletionOnly_unchanged].
    - destruct (callbacks_drop jobId (Some res) w) as (_ & ->);
        [| deletionOnly_unchanged].
      intros (r & H & Hr). injection H as <-. tauto. }
  destruct (deletionOnly_keys _ _ _ Hd) as (Hk & _).
  destruct (deletionOnly_store_ok _ _ _ Hd) as (Hok & Hid).
  split; [exact Hd |]. split; [| split; [exact Hk | split; assumption]].
  rewrite <- (length_fmap tunnelKey), Hk, length_fmap. reflexivity.
Qed.

Lemma firstAt_unique (P : Tunnel.t -> Prop) ts i t j u :
  firstAt P ts i t -> firstAt P ts j u -> i = j /\ t = u.
Proof.
  intros (Hi & HP & Hmin) (Hj & HQ & Hmin').
  assert (i = j).
  { destruct (Nat.lt_trichotomy i j) as [Hlt | [Heq | Hlt]]; [| exact Heq |].
    - exfalso. exact (Hmin' i t Hi Hlt HP).
    - exfalso. exact (Hmin j u Hj Hlt HQ). }
  subst j. split; [reflexivity | congruence].
Qed.

Lemma errorTunnelAdd_stuck jobId res w i t :
  complete res -> answers w -> ids_unique w ->
  firstAt (activeMatch res) (World.tunnels w) i t ->
  (forall A B ifA ifB, ~ resolves w t A B ifA ifB) ->
  errorTunnelAdd jobId (Some res) w =
  after TunnelsFindOne (after TunnelsFindOne w).
Proof.
  intros Hc Ha Hnd Hfirst Hno.
  rewrite (errorTunnelAdd_found jobId res w i t Hc Ha Hfirst).
  destruct (oneTunnelDel_stuck (Tunnel._id t) (Payload.username res)
              (Payload.org res) (after TunnelsFindOne w)) as (e & ->);
    [| reflexivity].
  intros j u Hj A B ifA ifB Hres.
  destruct Hfirst as (Hi & ((_ & _ & Ho) & Hact) & Hmin).
  destruct Hj as (Hj & (Hid & Hact' & Ho') & Hmin').
  cbn [World.tunnels after Upd.trace Upd.faults] in Hj, Hmin'.
  assert (Hmine : activeWithId (Tunnel._id t) (Payload.org res) t)
    by (repeat split; assumption).
  assert (j = i).
  { eapply (NoDup_lookup _ j i (Tunnel._id t) Hnd).
    - rewrite list_lookup_fmap, Hj. cbn. congruence.
    - rewrite list_lookup_fmap, Hi. reflexivity. }
  subst j. assert (u = t) by congruence. subst u.
  apply (Hno A B ifA ifB). revert Hres. apply resolves_devices. reflexivity.
Qed.

(** X14: with at most one active tunnel from device A to device B of the
    payload, a second error callback for the same tunnel finds nothing
    left to do: it writes and queues nothing. *)
Theorem errorTunnelAdd_twice (jobId jobId' : Z) (res : Payload.t)
    (w : World.t) :
  complete res -> quiet w -> ids_unique w ->
  (forall i k t u,
     World.tunnels w !! i = Some t -> World.tunnels w !! k = Some u ->
     activeMatch res t -> activeMatch res u -> i = k) ->
  let w1 := errorTunnelAdd jobId (Some res) w in
  let w2 := errorTunnelAdd jobId' (Some res) w1 in
  untouched w1 w2.
Proof.
  intros Hc Hq Hnd Hone w1 w2.
  destruct (decide (Exists (activeMatch res) (World.tunnels w))) as [Hex | Hex].
  - destruct (Exists_firstAt _ _ Hex) as (i & t & Hfirst).
    destruct (resolves_cases (after TunnelsFindOne w) t)
      as [(A & B & ifA & ifB & Hres) | Hno].
    + assert (Hw1 : World.tunnels w1 = <[i := deactivated t]> (World.tunnels w)).
      { subst w1.
        rewrite (errorTunnelAdd_found jobId res w i t Hc (answers_quiet w Hq)
                   Hfirst).
        destruct Hfirst as (Hi & ((_ & _ & Ho) & Hact) & _).
        destruct (oneTunnelDel_quiet (Tunnel._id t) (Payload.username res)
                    (Payload.org res) (after TunnelsFindOne w) i t A B ifA ifB)
          as (jobs & w' & Hrun & _ & _ & Hts & _);
          [apply quiet_after, Hq | exact Hnd | exact Hi
          | repeat split; assumption | exact Hres |].
        rewrite Hrun. exact Hts. }
      subst w2. rewrite errorTunnelAdd_none; [repeat split; reflexivity
                                             | exact Hc |].
      rewrite Hw1. apply Forall_lookup. intros k u Hk Hu.
      destruct Hfirst as (Hi & Ht & _).
      destruct (decide (k = i)) as [-> | Hne].
      * rewrite list_lookup_insert_eq in Hk by (eapply lookup_lt_Some, Hi).
        injection Hk as <-. destruct Hu as (_ & Hu). discriminate Hu.
      * rewrite list_lookup_insert_ne in Hk by congruence.
        apply Hne. exact (Hone k i u t Hk Hi Hu Ht).
    + assert (Hno' : forall A B ifA ifB, ~ resolves w t A B ifA ifB).
      { intros A B ifA ifB Hres. apply (Hno A B ifA ifB). revert Hres.
        apply resolves_devices. reflexivity. }
      assert (Hw1 : w1 = after TunnelsFindOne (after TunnelsFindOne w))
        by (apply (errorTunnelAdd_stuck jobId res w i t Hc
                     (answers_quiet w Hq) Hnd Hfirst Hno')).
      subst w2.
      rewrite (errorTunnelAdd_stuck jobId' res w1 i t Hc);
        [repeat split; reflexivity | | | |].
      * apply answers_quiet. rewrite Hw1. apply quiet_after, quiet_after, Hq.
      * rewrite Hw1. exact Hnd.
      * rewrite Hw1. exact Hfirst.
      * intros A B ifA ifB Hres. apply (Hno' A B ifA ifB). revert Hres.
        apply resolves_devices. rewrite Hw1. reflexivity.
  - apply Forall_Exists_neg in Hex.
    assert (Hw1 : w1 = after TunnelsFindOne w)
      by (apply errorTunnelAdd_none; assumption).
    subst w2. rewrite errorTunnelAdd_none;
      [repeat split; reflexivity | exact Hc |].
    rewrite Hw1. exact Hex.
Qed.

(** ** Both completion callbacks *)

Lemma firstAt_insert (P : Tunnel.t -> Prop) ts i t t' :
  firstAt P ts i t -> P t' -> firstAt P (<[i := t']> ts) i t'.
Proof.
  intros (Hi & _ & Hmin) HP. split; [| split; [exact HP |]].
  - apply list_lookup_insert_eq. eapply lookup_lt_Some, Hi.
  - intros j u Hj Hlt. rewrite list_lookup_insert_ne in Hj by lia.
    exact (Hmin j u Hj Hlt).
Qed.

Lemma completeTunnelAdd_quiet jobId res w i t :
  complete res -> quiet w ->
  firstAt (matchesPayload res) (World.tunnels w) i t ->
  completeTunnelAdd jobId (Some res) w =
  Upd.tunnels (fun ts => <[i := Tunnel_set (Payload.target res) true t]> ts)
              (after TunnelsFindOneAndUpdate w).
Proof.
  intros (HA & HB & HT & HU & HO) Hq Hfirst.
  apply (list_find_some_iff _ _ _ _ _ (eqb_payload res)) in Hfirst.
  unfold completeTunnelAdd. rewrite HA, HB, HT, HU, HO. cbn [negb orb].
  unfold updateTunnelIsConnected, bind.
  rewrite findOneAndUpdate_run, (quiet_head w Hq), Hfirst. reflexivity.
Qed.

(** X15: the two completion callbacks of a tunnel, one per device, confirm
    both sides of the first record that the payload names, in whichever
    order they arrive, and change nothing else of it. *)
Theorem completeTunnelAdd_both_sides (jobA jobB : Z)
    (user org devA devB : string) (w : World.t) (i : nat) (t : Tunnel.t) :
  let resA := Payload.mk user org devA devB "deviceAconf" in
  let resB := Payload.mk user org devA devB "deviceBconf" in
  complete resA -> quiet w ->
  firstAt (matchesPayload resA) (World.tunnels w) i t ->
  let wAB := completeTunnelAdd jobB (Some resB)
               (completeTunnelAdd jobA (Some resA) w) in
  let wBA := completeTunnelAdd jobA (Some resA)
               (completeTunnelAdd jobB (Some resB) w) in
  World.tunnels wAB = <[i := confirmed t]> (World.tunnels w) /\
  World.tunnels wBA = World.tunnels wAB /\
  World.tunnelids wAB = World.tunnelids w /\
  World.queue wAB = World.queue w.
Proof.
  intros resA resB HcA Hq Hfirst wAB wBA.
  assert (HcB : complete resB).
  { destruct HcA as (HA & HB & _ & HU & HO). repeat split; assumption. }
  assert (Hkeep : forall target,
            matchesPayload resA (Tunnel_set target true t)).
  { intros target. destruct Hfirst as (_ & (H1 & H2 & H3) & _).
    unfold Tunnel_set.
    repeat match goal with
           | |- context [if ?b then _ else _] => destruct b
           end; repeat split; assumption. }
  assert (Hsecond : forall job job' (res res' : Payload.t),
    complete res -> complete res' ->
    (forall u, matchesPayload res u <-> matchesPayload resA u) ->
    (forall u, matchesPayload res' u <-> matchesPayload resA u) ->
    completeTunnelAdd job' (Some res') (completeTunnelAdd job (Some res) w) =
    Upd.tunnels
      (fun ts => <[i := Tunnel_set (Payload.target res') true
                           (Tunnel_set (Payload.target res) true t)]> ts)
      (after TunnelsFindOneAndUpdate
         (Upd.tunnels
            (fun ts => <[i := Tunnel_set (Payload.target res) true t]> ts)
            (after TunnelsFindOneAndUpdate w)))).
  { intros job job' res res' Hc Hc' Hr Hr'.
    rewrite (completeTunnelAdd_quiet job res w i t Hc Hq)
      by (eapply firstAt_iff; [| exact Hfirst]; intros u; symmetry; apply Hr).
    apply completeTunnelAdd_quiet; [exact Hc' | |].
    - unfold quiet in *; cbn; rewrite Hq; reflexivity.
    - cbn [World.tunnels Upd.tunnels after Upd.trace Upd.faults].
      apply (firstAt_insert _ _ i t).
      + eapply firstAt_iff; [| exact Hfirst]. intros u; symmetry; apply Hr'.
      + apply Hr', Hkeep. }
  subst wAB wBA.
  rewrite (Hsecond jobA jobB resA resB) by (assumption || reflexivity).
  rewrite (Hsecond jobB jobA resB resA) by (assumption || reflexivity).
  cbn [World.tunnels World.tunnelids World.queue Upd.tunnels after Upd.trace
       Upd.faults].
  rewrite !list_insert_insert_eq. repeat split; reflexivity.
Qed.

(** ** Failures of a pairing *)

Section Failures.
Variable rnd : Z -> Z -> nat -> string.
Variables (user org : string) (A B : Device.t) (ifA ifB : Interface.t).

Lemma addTunnel_refused n w e :
  head (World.faults w) = Some (Some e) ->
  addTunnel rnd user org n A B ifA ifB w =
  (Throw e, after TunnelsFindOneAndUpdate w).
Proof.
  intros Hf. unfold addTunnel. unfold bind at 1.
  rewrite findOneAndUpdate_run, Hf. reflexivity.
Qed.


(** X17: a deleted tunnel is claimed before its record is written.  When
    the store then refuses the write, the pairing is rejected and no job
    is queued, and the claimed record stays active, with the devices and
    interfaces of the deleted tunnel. *)
Theorem getTunnelPromise_write_refused_after_claim (w : World.t) (i : nat)
    (doc : Tunnel.t) (e : Error.t) (fs : list (option Error.t)) :
  World.faults w = None :: None :: Some e :: fs ->
  ~ connected w org (Device._id A) (Device._id B) ->
  firstAt (inactiveIn org) (World.tunnels w) i doc ->
  exists w',
    pairing rnd user org A B ifA ifB w =
    (Rejected (Error.new "Tunnel ID not found"), w') /\
    World.tunnels w' = <[i := Tunnel_set "isActive" true doc]> (World.tunnels w) /\
    Tunnel.isActive (Tunnel_set "isActive" true doc) = true /\
    Tunnel.deviceA (Tunnel_set "isActive" true doc) = Tunnel.deviceA doc /\
    Tunnel.deviceB (Tunnel_set "isActive" true doc) = Tunnel.deviceB doc /\
    World.queue w' = World.queue w /\
    World.tunnelids w' = World.tunnelids w.
Proof.
  intros Hf Hc Hfirst.
  apply (found_length _ _ _ (activeBetween_eqb org A B)) in Hc.
  apply (list_find_some_iff _ _ _ _ _ (inactiveIn_eqb org)) in Hfirst.
  unfold pairing, getTunnelPromise, getTunnelPromise_then.
  rewrite find_run, Hf. cbn [head]. rewrite Hc, findOneAndUpdate_run.
  cbn [World.faults World.tunnels after Upd.trace Upd.faults]. rewrite Hf.
  cbn [tail head]. rewrite Hfirst.
  rewrite (addTunnel_refused _ _ e)
    by (cbn [World.faults after Upd.trace Upd.faults Upd.tunnels];
        rewrite Hf; reflexivity).
  eexists. split; [reflexivity |]. cbn. repeat split; reflexivity.
Qed.

(** X18: a new number is taken from the counter before the record is
    written.  When the store then refuses the write, the pairing is
    rejected, nothing is written or queued, and the number is spent: the
    counter stays incremented, and no record carries the number. *)
Theorem getTunnelPromise_write_refused_after_increment (w : World.t) (n : Z)
    (e : Error.t) (fs : list (option Error.t)) :
  World.faults w = None :: None :: None :: Some e :: fs ->
  ~ connected w org (Device._id A) (Device._id B) ->
  Forall (fun t => ~ inactiveIn org t) (World.tunnels w) ->
  nextNumber org (World.tunnelids w) = Some n ->
  exists w',
    pairing rnd user org A B ifA ifB w =
    (Rejected (Error.new "Tunnel ID not found"), w') /\
    World.tunnelids w' = <[org := n]> (World.tunnelids w) /\
    World.tunnels w' = World.tunnels w /\
    World.queue w' = World.queue w /\
    (n < 15000 -> nextNumber org (World.tunnelids w') = Some (n + 1)).
Proof.
  intros Hf Hc Hnone Hnext.
  apply (found_length _ _ _ (activeBetween_eqb org A B)) in Hc.
  apply (list_find_none_iff _ _ _ (inactiveIn_eqb org)) in Hnone.
  unfold pairing, getTunnelPromise, getTunnelPromise_then.
  rewrite find_run, Hf. cbn [head]. rewrite Hc, findOneAndUpdate_run.
  cbn [World.faults World.tunnels after Upd.trace Upd.faults]. rewrite Hf.
  cbn [tail head]. rewrite Hnone, ids_run.
  cbn [World.faults World.tunnelids after Upd.trace Upd.faults]. rewrite Hf.
  cbn [tail head].
  assert (Hn : 1 <= n <= 15000).
  { unfold nextNumber in Hnext.
    destruct (World.tunnelids w !! org) as [c |]; [| injection Hnext; lia].
    destruct (decide (0 <= c < 15000)); [injection Hnext; lia | discriminate]. }
  assert (Hlater : forall w1 : World.t,
    head (World.faults w1) = Some (Some e) ->
    World.tunnelids w1 = <[org := n]> (World.tunnelids w) ->
    World.tunnels w1 = World.tunnels w -> World.queue w1 = World.queue w ->
    exists w',
      match addTunnel rnd user org n A B ifA ifB w1 with
      | (Ok tunnelJobs, w2) => (Resolved (VJobs tunnelJobs), w2)
      | (Throw _, w2) => (Rejected (Error.new "Tunnel ID not found"), w2)
      end = (Rejected (Error.new "Tunnel ID not found"), w') /\
      World.tunnelids w' = <[org := n]> (World.tunnelids w) /\
      World.tunnels w' = World.tunnels w /\
      World.queue w' = World.queue w /\
      (n < 15000 -> nextNumber org (World.tunnelids w') = Some (n + 1))).
  { intros w1 Hf1 Hids Hts Hqu. rewrite (addTunnel_refused _ _ e Hf1).
    eexists. split; [reflexivity |].
    cbn [World.tunnelids World.tunnels World.queue after Upd.trace Upd.faults].
    repeat split; try assumption.
    intros Hlt. rewrite Hids. unfold nextNumber. rewrite lookup_insert_eq.
    rewrite decide_True by lia. reflexivity. }
  unfold nextNumber in Hnext.
  destruct (World.tunnelids w !! org) as [c |] eqn:Hc0.
  - destruct (decide (0 <= c < 15000)) as [Hr | Hr]; [| discriminate].
    injection Hnext as <-.
    replace ((0 <=? c) && (c <? 15000)) with true
      by (symmetry; apply andb_true_iff; split;
          [apply Z.leb_le | apply Z.ltb_lt]; lia).
    apply Hlater; try reflexivity. cbn. rewrite Hf. reflexivity.
  - injection Hnext as <-.
    apply Hlater; try reflexivity. cbn. rewrite Hf. reflexivity.
Qed.

End Failures.

(** ** Mesh add: validation and failure *)

Lemma selectedDevices_filter devices data :
  match devices, Data.devices data with
  | Some devices, Some selectedDevices =>
      filter (fun device => hasOwnProperty selectedDevices (Device._id device))
             devices
  | _, _ => []
  end = selectedDevices devices data.
Proof.
  unfold selectedDevices. destruct devices as [ds |]; [| reflexivity].
  destruct (Data.devices data) as [sel |]; [| reflexivity].
  apply list_filter_iff. intros d. unfold hasOwnProperty.
  rewrite bool_decide_spec. reflexivity.
Qed.

(** X19: with fewer than two selected devices, and so without a device
    list or without a selection, the call is rejected before anything is
    asked of the store. *)
Theorem applyTunnelAdd_needs_two_devices
    (rvc : string -> string -> bool) (rnd : Z -> Z -> nat -> string)
    (devices : option (list Device.t)) (user : User.t) (data : Data.t)
    (w : World.t) :
  (length (selectedDevices devices data) < 2)%nat ->
  applyTunnelAdd rvc rnd devices user data w =
  (Rejected (Error.new
     "At least 2 devices must be selected to create tunnels"), w).
Proof.
  intros Hlen. unfold applyTunnelAdd. rewrite selectedDevices_filter.
  apply Nat.leb_gt in Hlen. rewrite Hlen. reflexivity.
Qed.

Section NoWan.
Variable rvc : string -> string -> bool.
Variable rnd : Z -> Z -> nat -> string.
Variables (userName org : string).

Lemma applyTunnelAdd_idxB_no_wan A rest dbTasks w :
  Forall (noCommonWan rvc A) rest ->
  applyTunnelAdd_idxB rvc rnd userName org A rest dbTasks w =
  (None, dbTasks, w).
Proof.
  induction 1 as [| B rest (Hc & Hw) _ IH]; [reflexivity |].
  cbn [applyTunnelAdd_idxB]. rewrite Hc. cbn [negb]. rewrite !wan_filter.
  destruct Hw as [-> | ->]; cbn [length Nat.eqb negb andb];
    rewrite ?andb_false_r; exact IH.
Qed.

Lemma applyTunnelAdd_idxA_no_wan opDevices dbTasks w :
  ForallOrdPairs (noCommonWan rvc) opDevices ->
  applyTunnelAdd_idxA rvc rnd userName org opDevices dbTasks w =
  (None, dbTasks, w).
Proof.
  induction 1 as [| A rest HA _ IH]; [reflexivity |].
  cbn [applyTunnelAdd_idxA]. rewrite applyTunnelAdd_idxB_no_wan by exact HA.
  exact IH.
Qed.

End NoWan.

(** X20: pairs of devices of which one has no assigned WAN interface get no
    tunnel and raise no error: when every pair of selected devices is such
    a pair, of compatible versions, the call resolves without a call to
    the store or the queues. *)
Theorem applyTunnelAdd_without_wan
    (rvc : string -> string -> bool) (rnd : Z -> Z -> nat -> string)
    (devices : option (list Device.t)) (user : User.t) (data : Data.t)
    (w : World.t) :
  (2 <= length (selectedDevices devices data))%nat ->
  ForallOrdPairs (noCommonWan rvc) (selectedDevices devices data) ->
  applyTunnelAdd rvc rnd devices user data w = (Resolved tt, w).
Proof.
  intros Hlen Hall. unfold applyTunnelAdd. rewrite selectedDevices_filter.
  apply Nat.leb_le in Hlen. rewrite Hlen.
  rewrite applyTunnelAdd_idxA_no_wan by exact Hall. reflexivity.
Qed.

(** One pair of selected devices with one WAN interface each: the call
    ends as the pairing does. *)
Lemma applyTunnelAdd_one_pair rvc rnd devices user data A B ifA ifB w :
  selectedDevices devices data = [A; B] ->
  rvc (Versions.router (Device.versions A))
      (Versions.router (Device.versions B)) = true ->
  wanInterfaces A = [ifA] -> wanInterfaces B = [ifB] ->
  applyTunnelAdd rvc rnd devices user data w =
  (let (r, w') :=
     pairing rnd (User.username user) (User.defaultOrg user) A B ifA ifB w in
   (match r with
    | Resolved _ => Resolved tt
    | Rejected err => Rejected err
    | Unsettled => Unsettled
    end, w')).
Proof.
  intros Hop Hcompat HwA HwB. unfold applyTunnelAdd.
  rewrite selectedDevices_filter, Hop. cbn [length Nat.leb].
  cbn [applyTunnelAdd_idxA applyTunnelAdd_idxB].
  rewrite Hcompat. cbn [negb]. rewrite !wan_filter, HwA, HwB.
  cbn [length Nat.eqb negb andb forEach fold_left app].
  unfold pairing.
  destruct (getTunnelPromise rnd (User.username user) (User.defaultOrg user)
              A B ifA ifB w) as [p w1].
  cbn [settleAll]. destruct (p w1) as [[v | err |] w2]; reflexivity.
Qed.

(** X21: when the organisation has used up its numbers and has no deleted
    tunnel to reclaim, a mesh add of two devices that are not connected is
    rejected with the message of the allocation, after both tries at the
    counter, and nothing is written or queued. *)
Theorem applyTunnelAdd_out_of_numbers
    (rvc : string -> string -> bool) (rnd : Z -> Z -> nat -> string)
    (devices : option (list Device.t)) (user : User.t) (data : Data.t)
    (A B : Device.t) (ifA ifB : Interface.t) (w : World.t) :
  let org := User.defaultOrg user in
  quiet w ->
  selectedDevices devices data = [A; B] ->
  rvc (Versions.router (Device.versions A))
      (Versions.router (Device.versions B)) = true ->
  wanInterfaces A = [ifA] -> wanInterfaces B = [ifB] ->
  ~ connected w org (Device._id A) (Device._id B) ->
  Forall (fun t => ~ inactiveIn org t) (World.tunnels w) ->
  nextNumber org (World.tunnelids w) = None ->
  exists w',
    applyTunnelAdd rvc rnd devices user data w =
    (Rejected (Error.new "Tunnel ID not found"), w') /\
    untouched w w' /\
    World.trace w' =
      World.trace w ++ [TunnelsFind; TunnelsFindOneAndUpdate;
                        TunnelIDsFindOneAndUpdate; TunnelIDsFindOneAndUpdate].
Proof.
  intros org Hq Hop Hcompat HwA HwB Hc Hnone Hnext.
  rewrite (applyTunnelAdd_one_pair rvc rnd devices user data A B ifA ifB w
             Hop Hcompat HwA HwB).
  destruct (getTunnelPromise_exhausted rnd (User.username user) org A B ifA ifB
              w Hq Hc Hnone Hnext)
    as (w' & Hp & _ & Hqu & Hids & Hts & _ & Htr).
  fold org. rewrite Hp. exists w'. repeat split; assumption.
Qed.

(** X22: the second try at the counter has no handler for what follows it.
    When the first increment fails on the key of the counter, the second
    gives a number and the store then refuses the write of the record, the
    promise of the pairing is never settled, and neither is the call: it
    neither resolves nor is rejected, the number is spent, and nothing is
    written or queued. *)
Theorem applyTunnelAdd_never_settles
    (rvc : string -> string -> bool) (rnd : Z -> Z -> nat -> string)
    (devices : option (list Device.t)) (user : User.t) (data : Data.t)
    (A B : Device.t) (ifA ifB : Interface.t) (w : World.t) (n : Z)
    (e1 e2 : Error.t) (fs : list (option Error.t)) :
  let org := User.defaultOrg user in
  World.faults w = None :: None :: Some e1 :: None :: Some e2 :: fs ->
  Error.code e1 = Some 11000 ->
  selectedDevices devices data = [A; B] ->
  rvc (Versions.router (Device.versions A))
      (Versions.router (Device.versions B)) = true ->
  wanInterfaces A = [ifA] -> wanInterfaces B = [ifB] ->
  ~ connected w org (Device._id A) (Device._id B) ->
  Forall (fun t => ~ inactiveIn org t) (World.tunnels w) ->
  nextNumber org (World.tunnelids w) = Some n ->
  exists w',
    pairing rnd (User.username user) org A B ifA ifB w = (Unsettled, w') /\
    applyTunnelAdd rvc rnd devices user data w = (Unsettled, w') /\
    World.tunnelids w' = <[org := n]> (World.tunnelids w) /\
    World.tunnels w' = World.tunnels w /\
    World.queue w' = World.queue w.
Proof.
  intros org Hf He Hop Hcompat HwA HwB Hc Hnone Hnext.
  rewrite (applyTunnelAdd_one_pair rvc rnd devices user data A B ifA ifB w
             Hop Hcompat HwA HwB).
  fold org.
  assert (Hp : exists w',
    pairing rnd (User.username user) org A B ifA ifB w = (Unsettled, w') /\
    World.tunnelids w' = <[org := n]> (World.tunnelids w) /\
    World.tunnels w' = World.tunnels w /\
    World.queue w' = World.queue w).
  { apply (found_length _ _ _ (activeBetween_eqb org A B)) in Hc.
    apply (list_find_none_iff _ _ _ (inactiveIn_eqb org)) in Hnone.
    unfold pairing, getTunnelPromise, getTunnelPromise_then.
    rewrite find_run, Hf. cbn [head]. rewrite Hc, findOneAndUpdate_run.
    cbn [World.faults World.tunnels after Upd.trace Upd.faults]. rewrite Hf.
    cbn [tail head]. rewrite Hnone, ids_run.
    cbn [World.faults World.tunnelids after Upd.trace Upd.faults]. rewrite Hf.
    cbn [tail head]. rewrite bool_decide_eq_true_2 by exact He.
    rewrite ids_run.
    cbn [World.faults World.tunnelids after Upd.trace Upd.faults]. rewrite Hf.
    cbn [tail head].
    assert (Hlater : forall w1 : World.t,
      head (World.faults w1) = Some (Some e2) ->
      World.tunnelids w1 = <[org := n]> (World.tunnelids w) ->
      World.tunnels w1 = World.tunnels w -> World.queue w1 = World.queue w ->
      exists w',
        match addTunnel rnd (User.username user) org n A B ifA ifB w1 with
        | (Ok tunnelJobs, w2) => (Resolved (VJobs tunnelJobs), w2)
        | (Throw _, w2) => (Unsettled, w2)
        end = (Unsettled, w') /\
        World.tunnelids w' = <[org := n]> (World.tunnelids w) /\
        World.tunnels w' = World.tunnels w /\
        World.queue w' = World.queue w).
    { intros w1 Hf1 Hids Hts Hqu.
      rewrite (addTunnel_refused rnd (User.username user) org A B ifA ifB
                 n w1 e2 Hf1).
      eexists. split; [reflexivity |]. repeat split; assumption. }
    unfold nextNumber in Hnext.
    destruct (World.tunnelids w !! org) as [c |] eqn:Hc0.
    - destruct (decide (0 <= c < 15000)) as [Hr | Hr]; [| discriminate].
      injection Hnext as <-.
      replace ((0 <=? c) && (c <? 15000)) with true
        by (symmetry; apply andb_true_iff; split;
            [apply Z.leb_le | apply Z.ltb_lt]; lia).
      apply Hlater; try reflexivity. cbn. rewrite Hf. reflexivity.
    - injection Hnext as <-.
      apply Hlater; try reflexivity. cbn. rewrite Hf. reflexivity. }
  destruct Hp as (w' & Hp & Hrest). exists w'. rewrite Hp.
  split; [reflexivity |]. split; [reflexivity | exact Hrest].
Qed.

(** ** Delete, then add *)

(** X23: the number of a deleted tunnel goes to the next tunnel of the
    organisation.  After the mesh delete of tunnel [t], the only deleted
    tunnel of the organisation, a mesh add of two devices that no other
    active tunnel joins reuses the record of [t]: it is active again under
    its old id and number, unconfirmed, with the devices and interfaces
    of the new tunnel, the add jobs carry the number of [t], and the
    counter is where it was. *)
Theorem applyTunnelDel_then_applyTunnelAdd
    (rvc : string -> string -> bool) (rnd : Z -> Z -> nat -> string)
    (ds : list Device.t) (devices : option (list Device.t)) (user : User.t)
    (del add : Data.t) (tunnelID : string) (w : World.t)
    (i : nat) (t : Tunnel.t) (A B A' B' : Device.t)
    (ifA ifB ifA' ifB' : Interface.t) :
  let org := User.defaultOrg user in
  let w1 := snd (applyTunnelDel (Some ds) user del w) in
  quiet w -> ids_unique w -> NoDup (tunnelKey <$> World.tunnels w) ->
  selectsTunnel del tunnelID ->
  World.tunnels w !! i = Some t -> activeWithId tunnelID org t ->
  resolves w t A B ifA ifB ->
  Forall (fun u => ~ inactiveIn org u) (World.tunnels w) ->
  selectedDevices devices add = [A'; B'] ->
  rvc (Versions.router (Device.versions A'))
      (Versions.router (Device.versions B')) = true ->
  wanInterfaces A' = [ifA'] -> wanInterfaces B' = [ifB'] ->
  (forall k u, World.tunnels w !! k = Some u ->
               activeBetween org (Device._id A') (Device._id B') u -> k = i) ->
  exists jobs w2,
    applyTunnelAdd rvc rnd devices user add w1 = (Resolved tt, w2) /\
    addJobsFor (Tunnel.num t) A' B' ifA' ifB' jobs /\
    World.queue w2 = World.queue w1 ++ jobs /\
    World.tunnels w2 =
      <[i := writtenTunnel (Tunnel._id t) org (Tunnel.num t) A' B' ifA' ifB']>
        (World.tunnels w) /\
    World.tunnelids w2 = World.tunnelids w.
Proof.
  intros org w1 Hq Hnd Hkeys (sel & Hsel & Hsel1) Hi Hact Hres Hnone
         Hop Hcompat HwA HwB Honly.
  assert (Hlt : (i < length (World.tunnels w))%nat)
    by (eapply lookup_lt_Some, Hi).
  destruct (oneTunnelDel_quiet tunnelID (User.username user) org w i t
              A B ifA ifB Hq Hnd Hi Hact Hres)
    as (rjobs & w1' & Hrun & _ & Hq1 & Hts1 & _ & Hids1 & _).
  assert (Hw1 : w1 = w1').
  { subst w1. unfold applyTunnelDel. rewrite Hsel, Hsel1. fold org.
    rewrite Hrun. reflexivity. }
  clearbody w1. subst w1'.
  assert (Hc1 : ~ connected w1 org (Device._id A') (Device._id B')).
  { unfold connected. rewrite Hts1, Exists_exists.
    intros (u & Hin & Hu). apply list_elem_of_lookup in Hin.
    destruct Hin as (k & Hk). destruct (decide (k = i)) as [-> | Hne].
    - rewrite list_lookup_insert_eq in Hk by exact Hlt. injection Hk as <-.
      destruct Hu as (_ & Hu & _). discriminate Hu.
    - rewrite list_lookup_insert_ne in Hk by congruence.
      apply Hne. exact (Honly k u Hk Hu). }
  assert (Hfirst : firstAt (inactiveIn org) (World.tunnels w1) i (deactivated t)).
  { rewrite Hts1. split; [apply list_lookup_insert_eq, Hlt |].
    split; [split; [reflexivity | apply Hact] |].
    intros j u Hj Hji. rewrite list_lookup_insert_ne in Hj by lia.
    rewrite Forall_forall in Hnone. apply Hnone.
    apply list_elem_of_lookup. exists j. exact Hj. }
  destruct (getTunnelPromise_reuse rnd (User.username user) org A' B' ifA' ifB'
              w1 i (deactivated t) Hq1 Hc1 Hfirst)
    as (jobs & w2 & j & doc' & Hp & Hjobs & _ & Hqu & Hids & _ & _ & Hj & Hts).
  exists jobs, w2.
  rewrite (applyTunnelAdd_one_pair rvc rnd devices user add A' B' ifA' ifB' w1
             Hop Hcompat HwA HwB).
  fold org. rewrite Hp. split; [reflexivity |]. split; [exact Hjobs |].
  split; [exact Hqu |]. split; [| congruence].
  destruct (claimed_is_written (World.tunnels w1) i (deactivated t) j doc' org)
    as (-> & Hid); [| apply Hfirst | apply Hact | exact Hj |].
  { rewrite Hts1, list_fmap_insert, list_insert_id; [exact Hkeys |].
    rewrite list_lookup_fmap, Hi. reflexivity. }
  rewrite Hts, Hid, Hts1, !list_insert_insert_eq. reflexivity.
Qed.

(** ** The organisation is the scope of every write *)

Lemma sameElsewhere_refl org w : sameElsewhere org w w.
Proof.
  split; [reflexivity |]. split; [reflexivity |].
  exists []. rewrite app_nil_r. split; [reflexivity | constructor].
Qed.

Lemma sameElsewhere_trans org w1 w2 w3 :
  sameElsewhere org w1 w2 -> sameElsewhere org w2 w3 -> sameElsewhere org w1 w3.
Proof.
  intros (Ht & Hi & j1 & Hq & Hj) (Ht' & Hi' & j2 & Hq' & Hj').
  split; [congruence |]. split.
  - intros o Ho. rewrite Hi', Hi by exact Ho. reflexivity.
  - exists (j1 ++ j2). rewrite Hq', Hq, app_assoc. split; [reflexivity |].
    apply Forall_app. split; assumption.
Qed.

Lemma filter_insert_own org (ts : list Tunnel.t) i x y :
  ts !! i = Some y -> Tunnel.org x = org -> Tunnel.org y = org ->
  filter (fun t => Tunnel.org t <> org) (<[i := x]> ts) =
  filter (fun t => Tunnel.org t <> org) ts.
Proof.
  revert i. induction ts as [| u ts IH]; intros [| i] Hi Hx Hy;
    try discriminate.
  - injection Hi as ->. change (<[0%nat := x]> (y :: ts)) with (x :: ts).
    rewrite !filter_cons, !decide_False by tauto. reflexivity.
  - change (<[S i := x]> (u :: ts)) with (u :: <[i := x]> ts).
    rewrite !filter_cons. rewrite (IH i) by assumption. reflexivity.
Qed.

Lemma filter_app_own org (ts : list Tunnel.t) x :
  Tunnel.org x = org ->
  filter (fun t => Tunnel.org t <> org) (ts ++ [x]) =
  filter (fun t => Tunnel.org t <> org) ts.
Proof.
  intros Hx. rewrite filter_app, filter_cons, decide_False, filter_nil by tauto.
  apply app_nil_r.
Qed.

Lemma sameElsewhere_same org w w' :
  World.tunnels w' = World.tunnels w ->
  World.tunnelids w' = World.tunnelids w ->
  World.queue w' = World.queue w -> sameElsewhere org w w'.
Proof.
  intros Ht Hi Hq. unfold sameElsewhere. rewrite Ht, Hi, Hq.
  apply sameElsewhere_refl.
Qed.

Ltac same_stores := apply sameElsewhere_same; reflexivity.

Section Scope.
Variable rnd : Z -> Z -> nat -> string.
Variables (user org : string).

Lemma queueTunnel_sameElsewhere isAdd title tasksA tasksB mA mB oA oB w :
  sameElsewhere org w
    (snd (queueTunnel isAdd title tasksA tasksB user org mA mB oA oB w)).
Proof.
  rewrite queueTunnel_run. cbn zeta.
  destruct (head (World.faults w)) as [[e |] |];
    [same_stores | |];
    (destruct (head (tail (World.faults w))) as [[e' |] |];
     (split; [reflexivity |]; split; [reflexivity |];
      cbn [snd World.queue after Upd.trace Upd.faults Upd.queue];
      rewrite <- ?app_assoc; eexists; split;
      [reflexivity | repeat constructor])).
Qed.

Lemma addTunnel_sameElsewhere n A B ifA ifB w :
  sameElsewhere org w (snd (addTunnel rnd user org n A B ifA ifB w)).
Proof.
  unfold addTunnel. unfold bind at 1. rewrite findOneAndUpdate_run.
  assert (Hrest : forall w1 : World.t,
    sameElsewhere org w w1 ->
    sameElsewhere org w
      (snd ((let* tasks :=
               prepareTunnelAddJob rnd n ifA ifB
                 (Versions.agent (Device.versions B)) in
             let* tunnelJobs :=
               queueTunnel true (tunnelTitle "Create" A B ifA ifB)
                 (fst tasks) (snd tasks) user org
                 (Device.machineId A) (Device.machineId B)
                 (Device._id A) (Device._id B) in
             ret tunnelJobs)%js w1))).
  { intros w1 H1.
    destruct (prepareTunnelAddJob_run rnd n ifA ifB
                (Versions.agent (Device.versions B)) w1)
      as (pA & pB & Hprep & _).
    erewrite bind_Ok by exact Hprep. cbn [fst snd].
    eapply sameElsewhere_trans; [exact H1 |].
    eapply sameElsewhere_trans;
      [| unfold bind;
         pose proof (queueTunnel_sameElsewhere true
                       (tunnelTitle "Create" A B ifA ifB)
                       [Task.mk "agent" "add-tunnel" pA]
                       [Task.mk "agent" "add-tunnel" pB]
                       (Device.machineId A) (Device.machineId B)
                       (Device._id A) (Device._id B)
                       (Upd.draws (fun d => (d + 4)%nat) w1)) as Hqt;
         destruct (queueTunnel _ _ _ _ _ _ _ _ _ _ _) as [[jobs | e] w2];
         exact Hqt].
    same_stores. }
  destruct (head (World.faults w)) as [[e |] |];
    [same_stores | |].
  all: destruct (list_find _ (World.tunnels w)) as [[i doc] |] eqn:Hfind.
  all: try (apply (list_find_some_iff _ _ _ _ _ (keyed_eqb org n)) in Hfind;
            destruct Hfind as (Hi & (Ho & _) & _)).
  all: apply Hrest; split; [| split; [reflexivity |];
         exists []; rewrite app_nil_r; split; [reflexivity | constructor]].
  all: cbn [World.tunnels after Upd.trace Upd.faults Upd.tunnels Upd.minted].
  all: first [ apply (filter_insert_own org _ i _ doc); [exact Hi | exact Ho | exact Ho]
             | apply filter_app_own; reflexivity ].
Qed.

Lemma ids_sameElsewhere g l inc w :
  sameElsewhere org w (snd (tunnelIDsModel_findOneAndUpdate org g l inc w)).
Proof.
  rewrite ids_run.
  assert (Hset : forall v, sameElsewhere org w
            (Upd.tunnelids (fun ids => <[org := v]> ids)
                           (after TunnelIDsFindOneAndUpdate w))).
  { intros v. split; [reflexivity |]. split.
    - intros o Ho. cbn. rewrite lookup_insert_ne by congruence. reflexivity.
    - exists []. cbn. rewrite app_nil_r. split; [reflexivity | constructor]. }
  destruct (head (World.faults w)) as [[e |] |];
    [same_stores | |];
    (destruct (World.tunnelids w !! org) as [c |];
     [destruct ((g <=? c) && (c <? l)); [apply Hset | same_stores]
     | apply Hset]).
Qed.

Lemma getTunnelPromise_then_sameElsewhere A B ifA ifB found w :
  sameElsewhere org w
    (snd (getTunnelPromise_then rnd user org A B ifA ifB found w)).
Proof.
  unfold getTunnelPromise_then.
  destruct found as [tunnelFound | err]; [| same_stores].
  destruct (length tunnelFound =? 0)%nat; [| same_stores].
  assert (Hadd : forall (n : Z) (w1 : World.t) (bad : Settled PromiseValue),
    sameElsewhere org w w1 ->
    sameElsewhere org w
      (snd (match addTunnel rnd user org n A B ifA ifB w1 with
            | (Ok tunnelJobs, w2) => (Resolved (VJobs tunnelJobs), w2)
            | (Throw _, w2) => (bad, w2)
            end))).
  { intros n w1 bad H1.
    pose proof (addTunnel_sameElsewhere n A B ifA ifB w1) as H2.
    destruct (addTunnel rnd user org n A B ifA ifB w1) as [[jobs | e] w2];
      cbn [snd] in *; eapply sameElsewhere_trans; eassumption. }
  assert (Hids : forall (w1 : World.t) (bad : Settled PromiseValue)
                        (onErr : Error.t -> World.t -> Settled PromiseValue * World.t),
    sameElsewhere org w w1 ->
    (forall err w2, sameElsewhere org w w2 ->
                    sameElsewhere org w (snd (onErr err w2))) ->
    sameElsewhere org w
      (snd (match tunnelIDsModel_findOneAndUpdate org 0 15000 1 w1 with
            | (Ok tunnelnum, w2) =>
                match addTunnel rnd user org tunnelnum A B ifA ifB w2 with
                | (Ok tunnelJobs, w3) => (Resolved (VJobs tunnelJobs), w3)
                | (Throw _, w3) => (bad, w3)
                end
            | (Throw err, w2) => onErr err w2
            end))).
  { intros w1 bad onErr H1 Herr.
    pose proof (ids_sameElsewhere 0 15000 1 w1) as H2.
    destruct (tunnelIDsModel_findOneAndUpdate org 0 15000 1 w1)
      as [[n | err] w2]; cbn [snd] in H2.
    - apply Hadd. eapply sameElsewhere_trans; eassumption.
    - apply Herr. eapply sameElsewhere_trans; eassumption. }
  rewrite findOneAndUpdate_run.
  destruct (head (World.faults w)) as [[e |] |];
    [same_stores | |].
  all: destruct (list_find _ (World.tunnels w)) as [[i doc] |] eqn:Hfind.
  all: try (apply (list_find_some_iff _ _ _ _ _ (inactiveIn_eqb org)) in Hfind;
            destruct Hfind as (Hi & (_ & Ho) & _);
            apply Hadd; split;
            [ cbn [World.tunnels after Upd.trace Upd.faults Upd.tunnels];
              apply (filter_insert_own org _ i _ doc);
              [exact Hi | exact Ho | exact Ho]
            | split; [reflexivity |];
              exists []; rewrite app_nil_r; split; [reflexivity | constructor] ]).
  all: apply (Hids _ _
         (fun err w2 =>
            if bool_decide (Error.code err = Some 11000) then
              match tunnelIDsModel_findOneAndUpdate org 0 15000 1 w2 with
              | (Ok tunnelnum, w3) =>
                  match addTunnel rnd user org tunnelnum A B ifA ifB w3 with
                  | (Ok tunnelJobs, w4) => (Resolved (VJobs tunnelJobs), w4)
                  | (Throw _, w4) => (Unsettled, w4)
                  end
              | (Throw _, w3) =>
                  (Rejected (Error.new "Tunnel ID not found"), w3)
              end
            else (Rejected (Error.new "Tunnel ID not found"), w2)));
    [same_stores |].
  all: intros err w2 H2; destruct (bool_decide _); [| exact H2];
    apply (Hids _ _ (fun _ w3 =>
             (Rejected (Error.new "Tunnel ID not found"), w3)));
    [exact H2 | intros _ w3 H3; exact H3].
Qed.

End Scope.

(** X24: every write of a pairing stays within its organisation.
    Whatever the devices and whatever call fails on the way, the records
    and the counters of the other organisations are as they were, and
    every job queued is a job of the organisation. *)
Theorem getTunnelPromise_within_organisation
    (rnd : Z -> Z -> nat -> string) (user org : string)
    (A B : Device.t) (ifA ifB : Interface.t) (w : World.t) :
  sameElsewhere org w (snd (pairing rnd user org A B ifA ifB w)).
Proof.
  unfold pairing, getTunnelPromise. rewrite find_run.
  eapply sameElsewhere_trans;
    [| apply getTunnelPromise_then_sameElsewhere].
  same_stores.
Qed.

(** ** The further properties on the sample stores *)

Lemma queueTunnel_second_job_refused_witness :
  exists jobA w',
    queueTunnel false "Delete tunnel" [] [] "alice" "org1" "machA" "machB"
                "devA" "devB"
                (Scenario.withFaults [None; Some Scenario.refused] Sample.w0) =
    (Throw (Error.new "Error queuing tunnel for device IDs machA and machB"),
     w') /\
    World.queue w' = [jobA] /\ Job.machineId jobA = "machA".
Proof.
  destruct (queueTunnel_second_job_refused false "Delete tunnel" [] []
              "alice" "org1" "machA" "machB" "devA" "devB"
              (Scenario.withFaults [None; Some Scenario.refused] Sample.w0)
              Scenario.refused)
    as (jobA & w' & Hrun & Hqu & Hm & _).
  - intros e. cbn. discriminate.
  - reflexivity.
  - exists jobA, w'. split; [exact Hrun |]. split; [exact Hqu | exact Hm].
Defined.

Lemma resolves_tBC :
  resolves Sample.wOld Sample.tBC Sample.devB Sample.devC Sample.ifB Sample.ifC.
Proof. repeat split. Qed.

Lemma resolves_tAB :
  resolves Sample.wAB Sample.tAB Sample.devA Sample.devB Sample.ifA Sample.ifB.
Proof. repeat split. Qed.

Lemma selectsTunnel_t4 : selectsTunnel (Sample.selectTunnels ["t4"]) "t4".
Proof. eexists. split; [reflexivity |]. vm_compute. reflexivity. Qed.

Lemma applyTunnelDel_deletes_witness :
  exists jobs w',
    applyTunnelDel (Some [Sample.devB; Sample.devC]) Sample.user
                   (Sample.selectTunnels ["t4"]) Sample.wOld =
    (Resolved tt, w') /\
    removeJobsFor "alice" "org1" 4 Sample.devB Sample.devC Sample.ifB Sample.ifC
                  jobs /\
    World.tunnels w' = [deactivated Sample.tBC; Sample.tOld] /\
    World.queue w' = jobs.
Proof.
  destruct (applyTunnelDel_deletes [Sample.devB; Sample.devC] Sample.user
              (Sample.selectTunnels ["t4"]) "t4" Sample.wOld 0 Sample.tBC
              Sample.devB Sample.devC Sample.ifB Sample.ifC)
    as (jobs & w' & Hrun & Hjobs & Hts & Hqu & _).
  - reflexivity.
  - unfold ids_unique. apply (bool_decide_unpack _). vm_compute. exact I.
  - exact selectsTunnel_t4.
  - reflexivity.
  - repeat split.
  - exact resolves_tBC.
  - exists jobs, w'. repeat split; assumption.
Defined.

Lemma applyTunnelDel_unknown_witness :
  applyTunnelDel (Some [Sample.devB; Sample.devC]) Sample.user
                 (Sample.selectTunnels ["t3"]) Sample.wOld =
  (Rejected (Error.new
     "Attempt to delete more than one tunnel or no devices found"),
   after TunnelsFindOne Sample.wOld).
Proof.
  apply (applyTunnelDel_unknown [Sample.devB; Sample.devC] Sample.user
           (Sample.selectTunnels ["t3"]) "t3" Sample.wOld).
  - eexists. split; [reflexivity |]. vm_compute. reflexivity.
  - intros i t (Hi & (Hid & Hact & _) & _).
    destruct i as [| [| i]]; cbn in Hi; [| | discriminate];
      injection Hi as <-; discriminate.
Defined.

Lemma applyTunnelDel_failure_witness :
  exists jobs w',
    applyTunnelDel (Some [Sample.devB; Sample.devC]) Sample.user
      (Sample.selectTunnels ["t4"])
      (Scenario.withFaults [None; None; Some Scenario.refused] Sample.wOld) =
    (Rejected (Error.new
       "Attempt to delete more than one tunnel or no devices found"), w') /\
    World.tunnels w' = [Sample.tBC; Sample.tOld] /\
    World.queue w' = take 1 jobs /\
    removeJobsFor "alice" "org1" 4 Sample.devB Sample.devC Sample.ifB Sample.ifC
                  jobs.
Proof.
  destruct (applyTunnelDel_failure [Sample.devB; Sample.devC] Sample.user
              (Sample.selectTunnels ["t4"]) "t4"
              (Scenario.withFaults [None; None; Some Scenario.refused]
                                   Sample.wOld)
              0 Sample.tBC Sample.devB Sample.devC Sample.ifB Sample.ifC
              1 Scenario.refused [])
    as (jobs & w' & Hrun & Hjobs & Hts & _ & Hqu).
  - exact selectsTunnel_t4.
  - split; [reflexivity |]. split; [repeat split |].
    intros j u Hj Hlt. lia.
  - exact resolves_tBC.
  - reflexivity.
  - lia.
  - exists jobs, w'. repeat split; assumption.
Defined.

Lemma complete_resA : complete Sample.resA.
Proof. repeat split. Qed.

Lemma firstAt_tAB :
  firstAt (activeMatch Sample.resA) (World.tunnels Sample.wAB) 0 Sample.tAB.
Proof.
  split; [reflexivity |]. split; [repeat split |]. intros j u Hj Hlt. lia.
Qed.

Lemma errorTunnelAdd_rolls_back_first_witness :
  exists jobs,
    removeJobsFor "alice" "org1" 6 Sample.devA Sample.devB Sample.ifA Sample.ifB
                  jobs /\
    World.tunnels (errorTunnelAdd 7 (Some Sample.resA) Sample.wAB) =
      [deactivated Sample.tAB] /\
    World.queue (errorTunnelAdd 7 (Some Sample.resA) Sample.wAB) = jobs.
Proof.
  destruct (errorTunnelAdd_rolls_back_first 7 Sample.resA Sample.wAB 0
              Sample.tAB Sample.devA Sample.devB Sample.ifA Sample.ifB)
    as (jobs & Hjobs & Hts & Hqu & _).
  - exact complete_resA.
  - reflexivity.
  - unfold ids_unique. apply (bool_decide_unpack _). vm_compute. exact I.
  - exact firstAt_tAB.
  - exact resolves_tAB.
  - exists jobs. repeat split; assumption.
Defined.

Lemma errorTunnelAdd_twice_witness :
  untouched (errorTunnelAdd 7 (Some Sample.resA) Sample.wAB)
            (errorTunnelAdd 8 (Some Sample.resA)
               (errorTunnelAdd 7 (Some Sample.resA) Sample.wAB)).
Proof.
  apply (errorTunnelAdd_twice 7 8 Sample.resA Sample.wAB).
  - exact complete_resA.
  - reflexivity.
  - unfold ids_unique. apply (bool_decide_unpack _). vm_compute. exact I.
  - intros i k t u Hi Hk _ _.
    destruct i as [| i]; [| discriminate]. destruct k as [| k]; [| discriminate].
    reflexivity.
Defined.

Lemma completeTunnelAdd_both_sides_witness :
  World.tunnels
    (completeTunnelAdd 8 (Some Scenario.resB)
       (completeTunnelAdd 7 (Some Sample.resA) Sample.wAB)) =
  [confirmed Sample.tAB].
Proof.
  apply (completeTunnelAdd_both_sides 7 8 "alice" "org1" "devA" "devB"
           Sample.wAB 0 Sample.tAB).
  - exact complete_resA.
  - reflexivity.
  - split; [reflexivity |]. split; [repeat split |]. intros j u Hj Hlt. lia.
Defined.


Lemma firstAt_tOld :
  firstAt (inactiveIn "org1") [Sample.tBC; Sample.tOld] 1 Sample.tOld.
Proof.
  split; [reflexivity |]. split; [repeat split |].
  intros j u Hj Hlt. destruct j as [| j]; [| lia].
  injection Hj as <-. intros (H & _). discriminate H.
Qed.

Lemma getTunnelPromise_write_refused_after_claim_witness :
  exists w',
    pairing Sample.numbered "alice" "org1" Sample.devA Sample.devB
            Sample.ifA Sample.ifB
            (Scenario.withFaults [None; None; Some Scenario.refused]
                                 Sample.wOld) =
    (Rejected (Error.new "Tunnel ID not found"), w') /\
    Tunnel.isActive <$> World.tunnels w' = [true; true] /\
    World.queue w' = [].
Proof.
  destruct (getTunnelPromise_write_refused_after_claim Sample.numbered
              "alice" "org1" Sample.devA Sample.devB Sample.ifA Sample.ifB
              (Scenario.withFaults [None; None; Some Scenario.refused]
                                   Sample.wOld)
              1 Sample.tOld Scenario.refused [])
    as (w' & Hrun & Hts & _ & _ & _ & Hqu & _).
  - reflexivity.
  - apply (bool_decide_unpack _). vm_compute. exact I.
  - exact firstAt_tOld.
  - exists w'. split; [exact Hrun |]. rewrite Hts. split; [reflexivity | exact Hqu].
Defined.

Lemma getTunnelPromise_write_refused_after_increment_witness :
  exists w',
    pairing Sample.numbered "alice" "org1" Sample.devA Sample.devB
            Sample.ifA Sample.ifB
            (Scenario.withFaults [None; None; None; Some Scenario.refused]
                                 Sample.w5) =
    (Rejected (Error.new "Tunnel ID not found"), w') /\
    World.tunnelids w' !! "org1" = Some 6 /\
    World.tunnels w' = [] /\
    nextNumber "org1" (World.tunnelids w') = Some 7.
Proof.
  destruct (getTunnelPromise_write_refused_after_increment Sample.numbered
              "alice" "org1" Sample.devA Sample.devB Sample.ifA Sample.ifB
              (Scenario.withFaults [None; None; None; Some Scenario.refused]
                                   Sample.w5)
              6 Scenario.refused [])
    as (w' & Hrun & Hids & Hts & _ & Hnext).
  - reflexivity.
  - apply (bool_decide_unpack _). vm_compute. exact I.
  - constructor.
  - reflexivity.
  - exists w'. split; [exact Hrun |]. split; [| split; [exact Hts |]].
    + rewrite Hids. apply lookup_insert_eq.
    + apply Hnext. lia.
Defined.

Lemma applyTunnelAdd_needs_two_devices_witness :
  applyTunnelAdd Sample.sameVersion Sample.numbered
    (Some [Sample.devA; Sample.devB]) Sample.user (Sample.select ["devA"])
    Sample.w0 =
  (Rejected (Error.new
     "At least 2 devices must be selected to create tunnels"), Sample.w0).
Proof.
  apply (applyTunnelAdd_needs_two_devices Sample.sameVersion Sample.numbered).
  vm_compute. lia.
Defined.

Lemma applyTunnelAdd_without_wan_witness :
  applyTunnelAdd Sample.sameVersion Sample.numbered
    (Some [Sample.devA; Scenario.devE]) Sample.user
    (Sample.select ["devA"; "devE"]) Sample.w0 =
  (Resolved tt, Sample.w0).
Proof.
  apply (applyTunnelAdd_without_wan Sample.sameVersion Sample.numbered).
  - vm_compute. lia.
  - replace (selectedDevices (Some [Sample.devA; Scenario.devE])
               (Sample.select ["devA"; "devE"]))
      with [Sample.devA; Scenario.devE] by (vm_compute; reflexivity).
    constructor; [| constructor; [constructor | constructor]].
    constructor; [| constructor]. split; [reflexivity |]. right. reflexivity.
Defined.

Lemma selected_AB :
  selectedDevices (Some [Sample.devA; Sample.devB; Sample.devC])
                  (Sample.select ["devA"; "devB"]) =
  [Sample.devA; Sample.devB].
Proof. vm_compute. reflexivity. Qed.

Lemma applyTunnelAdd_out_of_numbers_witness :
  exists w',
    applyTunnelAdd Sample.sameVersion Sample.numbered
      (Some [Sample.devA; Sample.devB; Sample.devC]) Sample.user
      (Sample.select ["devA"; "devB"]) Sample.wFull =
    (Rejected (Error.new "Tunnel ID not found"), w') /\
    untouched Sample.wFull w'.
Proof.
  destruct (applyTunnelAdd_out_of_numbers Sample.sameVersion Sample.numbered
              (Some [Sample.devA; Sample.devB; Sample.devC]) Sample.user
              (Sample.select ["devA"; "devB"])
              Sample.devA Sample.devB Sample.ifA Sample.ifB Sample.wFull)
    as (w' & Hrun & Hun & _).
  - reflexivity.
  - exact selected_AB.
  - reflexivity.
  - reflexivity.
  - reflexivity.
  - apply (bool_decide_unpack _). vm_compute. exact I.
  - constructor.
  - reflexivity.
  - exists w'. split; assumption.
Defined.

Lemma applyTunnelAdd_never_settles_witness :
  exists w',
    applyTunnelAdd Sample.sameVersion Sample.numbered
      (Some [Sample.devA; Sample.devB; Sample.devC]) Sample.user
      (Sample.select ["devA"; "devB"])
      (Scenario.withFaults
         [None; None; Some E11000; None; Some Scenario.refused] Sample.w5) =
    (Unsettled, w') /\
    World.tunnelids w' !! "org1" = Some 6 /\
    World.tunnels w' = [] /\ World.queue w' = [].
Proof.
  destruct (applyTunnelAdd_never_settles Sample.sameVersion Sample.numbered
              (Some [Sample.devA; Sample.devB; Sample.devC]) Sample.user
              (Sample.select ["devA"; "devB"])
              Sample.devA Sample.devB Sample.ifA Sample.ifB
              (Scenario.withFaults
                 [None; None; Some E11000; None; Some Scenario.refused]
                 Sample.w5)
              6 E11000 Scenario.refused [])
    as (w' & _ & Hrun & Hids & Hts & Hqu).
  - reflexivity.
  - reflexivity.
  - exact selected_AB.
  - reflexivity.
  - reflexivity.
  - reflexivity.
  - apply (bool_decide_unpack _). vm_compute. exact I.
  - constructor.
  - reflexivity.
  - exists w'. split; [exact Hrun |]. split; [| split; assumption].
    rewrite Hids. apply lookup_insert_eq.
Defined.

Lemma applyTunnelDel_then_applyTunnelAdd_witness :
  let w1 := snd (applyTunnelDel (Some [Sample.devA; Sample.devB]) Sample.user
                   (Sample.selectTunnels ["t6"]) Sample.wAB) in
  exists jobs w2,
    applyTunnelAdd Sample.sameVersion Sample.numbered
      (Some [Sample.devA; Sample.devB; Sample.devC]) Sample.user
      (Sample.select ["devA"; "devB"]) w1 = (Resolved tt, w2) /\
    addJobsFor 6 Sample.devA Sample.devB Sample.ifA Sample.ifB jobs /\
    World.tunnels w2 = [Sample.tAB] /\
    World.tunnelids w2 = World.tunnelids Sample.wAB.
Proof.
  destruct (applyTunnelDel_then_applyTunnelAdd Sample.sameVersion
              Sample.numbered [Sample.devA; Sample.devB]
              (Some [Sample.devA; Sample.devB; Sample.devC]) Sample.user
              (Sample.selectTunnels ["t6"]) (Sample.select ["devA"; "devB"])
              "t6" Sample.wAB 0 Sample.tAB
              Sample.devA Sample.devB Sample.devA Sample.devB
              Sample.ifA Sample.ifB Sample.ifA Sample.ifB)
    as (jobs & w2 & Hrun & Hjobs & _ & Hts & Hids).
  - reflexivity.
  - unfold ids_unique. apply (bool_decide_unpack _). vm_compute. exact I.
  - apply (bool_decide_unpack _). vm_compute. exact I.
  - eexists. split; [reflexivity |]. vm_compute. reflexivity.
  - reflexivity.
  - repeat split.
  - exact resolves_tAB.
  - constructor; [| constructor]. intros (H & _). discriminate H.
  - exact selected_AB.
  - reflexivity.
  - reflexivity.
  - reflexivity.
  - intros k u Hk _. destruct k as [| k]; [reflexivity | discriminate].
  - exists jobs, w2. repeat split; assumption.
Defined.

Lemma getTunnelPromise_store_ok_witness :
  store_ok Sample.wOld /\
  store_ok (snd (pairing Sample.numbered "alice" "org1" Sample.devA Sample.devB
                         Sample.ifA Sample.ifB Sample.wOld)).
Proof.
  split; [exact store_ok_wOld |].
  apply (getTunnelPromise_store_ok Sample.numbered "alice" "org1"
           Sample.devA Sample.devB Sample.ifA Sample.ifB Sample.wOld).
  - reflexivity.
  - exact store_ok_wOld.
Defined.

Lemma applyTunnelAdd_mismatch_first_witness :
  applyTunnelAdd Sample.sameVersion Sample.numbered
    (Some [Sample.devA; Sample.devB; Sample.devC]) Sample.user
    (Sample.select ["devA"; "devC"]) Sample.wOld =
  (Rejected (Error.new
     "Cannot create tunnels between devices with mismatching router versions"),
   Sample.wOld).
Proof.
  eapply (applyTunnelAdd_mismatch_first Sample.sameVersion Sample.numbered
            [Sample.devA; Sample.devB; Sample.devC] _ Sample.user
            (Sample.select ["devA"; "devC"]) Sample.devA Sample.devC []).
  - reflexivity.
  - vm_compute. reflexivity.
  - reflexivity.
Defined.

Lemma applyTunnelDel_no_validation_witness :
  applyTunnelDel (Some [Sample.devB; Sample.devC]) Sample.user
                 (Sample.selectTunnels []) Sample.wOld =
  (Resolved tt, Sample.wOld).
Proof.
  eapply (applyTunnelDel_no_validation (Some [Sample.devB; Sample.devC])
            Sample.user (Sample.selectTunnels [])).
  - reflexivity.
  - right. vm_compute. discriminate.
Defined.
